(** * Garud: reconnaissance-and-crawl pipeline

    A shallow embedding of the Python back end (network_scanner.py,
    middleware.py, beautifulsoup_crawler.py, scrapy_crawler.py) and the
    properties of its specification.

    The code passes untyped dictionaries around, reads them with
    [dict.get] and wraps every public entry point in [try/except Exception].
    The embedding keeps that shape: Python values are a JSON-like universe
    [pyval], every operation that can raise returns in the error monad
    [result], and the entry points catch the exception as the source does.
    Calls to [logger] are not modelled. *)

From Stdlib Require Import Ascii String ZArith QArith Lia.
From stdpp Require Import base strings list gmap sorting pretty.

Local Open Scope string_scope.
Set Warnings "-register-all".

(** ** Python values *)

Module Py.

(** Dictionary keys of the program are strings, and port numbers in the
    service table. *)
Inductive pykey :=
| KStr (s : string)
| KInt (n : Z).

Definition pykey_eqb (a b : pykey) : bool :=
  match a, b with
  | KStr s, KStr t => String.eqb s t
  | KInt m, KInt n => (m =? n)%Z
  | _, _ => false
  end.

(** A [float] only arises as [page_size / 1024]; it is kept as the exact
    rational. A dictionary keeps its insertion order, as Python's does. *)
Inductive pyval :=
| PNone
| PBool (b : bool)
| PInt (n : Z)
| PFloat (q : Q)
| PStr (s : string)
| PList (l : list pyval)
| PDict (d : list (pykey * pyval)).

Inductive exn :=
| AttributeError (msg : string)
| TypeError (msg : string)
| ValueError (msg : string)
| LibraryError (msg : string).

(** [str(e)] *)
Definition str_exn (e : exn) : string :=
  match e with
  | AttributeError m | TypeError m | ValueError m | LibraryError m => m
  end.

Inductive result (A : Type) :=
| Ok (a : A)
| Raise (e : exn).
Arguments Ok {A} a.
Arguments Raise {A} e.

Definition bind {A B} (c : result A) (k : A → result B) : result B :=
  match c with
  | Ok a => k a
  | Raise e => Raise e
  end.

Notation "'let!' x ':=' c 'in' k" := (bind c (fun x => k))
  (at level 10, x pattern, c at level 100, k at level 200).

Definition is_ok {A} (c : result A) : bool :=
  match c with Ok _ => true | Raise _ => false end.

(** [for x in xs: if p(x): out.append(x)], stopping at the first exception. *)
Fixpoint filterM {A} (p : A → result bool) (xs : list A) : result (list A) :=
  match xs with
  | [] => Ok []
  | x :: xs' =>
      let! b := p x in
      let! r := filterM p xs' in
      Ok (if b then x :: r else r)
  end.

(** [for x in xs: acc = f(acc, x)] *)
Fixpoint foldM {A B} (f : B → A → result B) (acc : B) (xs : list A) : result B :=
  match xs with
  | [] => Ok acc
  | x :: xs' => let! acc' := f acc x in foldM f acc' xs'
  end.

Fixpoint mapM {A B} (f : A → result B) (xs : list A) : result (list B) :=
  match xs with
  | [] => Ok []
  | x :: xs' =>
      let! y := f x in
      let! r := mapM f xs' in
      Ok (y :: r)
  end.

(** *** Strings *)

Definition ascii_lower (c : ascii) : ascii :=
  let n := nat_of_ascii c in
  if (65 <=? n)%nat && (n <=? 90)%nat then ascii_of_nat (n + 32) else c.

Definition ascii_upper (c : ascii) : ascii :=
  let n := nat_of_ascii c in
  if (97 <=? n)%nat && (n <=? 122)%nat then ascii_of_nat (n - 32) else c.

(** [s.lower()] and [s.upper()], on ASCII text. *)
Fixpoint lower (s : string) : string :=
  match s with
  | EmptyString => EmptyString
  | String c s' => String (ascii_lower c) (lower s')
  end.

Fixpoint upper (s : string) : string :=
  match s with
  | EmptyString => EmptyString
  | String c s' => String (ascii_upper c) (upper s')
  end.

(** [s.startswith(p)] *)
Definition startswith (s p : string) : bool := String.prefix p s.

(** [kw in s] on strings: [kw] occurs in [s] as a contiguous substring. *)
Fixpoint contains (s kw : string) : bool :=
  String.prefix kw s ||
  match s with
  | EmptyString => false
  | String _ s' => contains s' kw
  end.

(** [s[:n]] *)
Fixpoint str_take (n : nat) (s : string) : string :=
  match n, s with
  | S n', String c s' => String c (str_take n' s')
  | _, _ => EmptyString
  end.

(** [s.split(sep)] for a one-character separator: never empty. *)
Fixpoint split_on (sep : ascii) (s : string) : list string :=
  match s with
  | EmptyString => [EmptyString]
  | String c s' =>
      if Ascii.eqb c sep then EmptyString :: split_on sep s'
      else match split_on sep s' with
           | [] => [String c EmptyString]
           | w :: ws => String c w :: ws
           end
  end.

(** [s.split(sep)[0]] *)
Definition before_sep (sep : ascii) (s : string) : string :=
  match split_on sep s with
  | [] => EmptyString
  | w :: _ => w
  end.

Definition is_space (c : ascii) : bool :=
  let n := nat_of_ascii c in
  (n =? 32)%nat || ((9 <=? n)%nat && (n <=? 13)%nat) || ((28 <=? n)%nat && (n <=? 31)%nat).

Definition is_digit (c : ascii) : bool :=
  let n := nat_of_ascii c in (48 <=? n)%nat && (n <=? 57)%nat.

Fixpoint lstrip (s : string) : string :=
  match s with
  | String c s' => if is_space c then lstrip s' else s
  | EmptyString => EmptyString
  end.

Fixpoint rstrip (s : string) : string :=
  match s with
  | EmptyString => EmptyString
  | String c s' =>
      match rstrip s' with
      | EmptyString => if is_space c then EmptyString else String c EmptyString
      | r => String c r
      end
  end.

(** [s.strip()] *)
Definition strip (s : string) : string := rstrip (lstrip s).

(** *** Dynamic operations *)

Definition type_name (v : pyval) : string :=
  match v with
  | PNone => "NoneType"
  | PBool _ => "bool"
  | PInt _ => "int"
  | PFloat _ => "float"
  | PStr _ => "str"
  | PList _ => "list"
  | PDict _ => "dict"
  end.

Definition no_attribute (v : pyval) (attr : string) : exn :=
  AttributeError ("'" ++ type_name v ++ "' object has no attribute '" ++ attr ++ "'").

Fixpoint dict_lookup (k : pykey) (d : list (pykey * pyval)) : option pyval :=
  match d with
  | [] => None
  | (k', v) :: d' => if pykey_eqb k k' then Some v else dict_lookup k d'
  end.

(** [d[k] = v]: an existing key keeps its place, a new one goes last. *)
Fixpoint dict_set (k : pykey) (v : pyval) (d : list (pykey * pyval))
  : list (pykey * pyval) :=
  match d with
  | [] => [(k, v)]
  | (k', v') :: d' =>
      if pykey_eqb k k' then (k, v) :: d' else (k', v') :: dict_set k v d'
  end.

Definition dict_keys (d : list (pykey * pyval)) : list pykey := d.*1.

(** [x.get(k, default)] with a key of any hashable kind. *)
Definition py_get_key (x : pyval) (k : pykey) (default : pyval) : result pyval :=
  match x with
  | PDict d => Ok (from_option id default (dict_lookup k d))
  | _ => Raise (no_attribute x "get")
  end.

(** [x.get('k', default)]; [x.get('k')] is [py_get x k PNone]. *)
Definition py_get (x : pyval) (k : string) (default : pyval) : result pyval :=
  py_get_key x (KStr k) default.

(** [len(x)] *)
Definition py_len (x : pyval) : result nat :=
  match x with
  | PStr s => Ok (String.length s)
  | PList l => Ok (length l)
  | PDict d => Ok (length d)
  | _ => Raise (TypeError ("object of type '" ++ type_name x ++ "' has no len()"))
  end.

Definition key_val (k : pykey) : pyval :=
  match k with KStr s => PStr s | KInt n => PInt n end.

Fixpoint chars (s : string) : list pyval :=
  match s with
  | EmptyString => []
  | String c s' => PStr (String c EmptyString) :: chars s'
  end.

(** The items a [for] loop (or a slice, for a list) walks over. *)
Definition py_iter (x : pyval) : result (list pyval) :=
  match x with
  | PList l => Ok l
  | PDict d => Ok (key_val <$> dict_keys d)
  | PStr s => Ok (chars s)
  | _ => Raise (TypeError ("'" ++ type_name x ++ "' object is not iterable"))
  end.

(** Truth value of an object, as [if x], [not x], [x and y], [bool(x)] use it. *)
Definition truthy (x : pyval) : bool :=
  match x with
  | PNone => false
  | PBool b => b
  | PInt n => negb (n =? 0)%Z
  | PFloat q => negb (Qeq_bool q 0)
  | PStr s => negb (String.eqb s "")
  | PList l => negb (bool_decide (l = []))
  | PDict d => negb (bool_decide (d = []))
  end.

(** [x and y] *)
Definition py_and (x y : pyval) : pyval := if truthy x then y else x.

Definition as_number (x : pyval) : option Q :=
  match x with
  | PBool b => Some (inject_Z (if b then 1 else 0))
  | PInt n => Some (inject_Z n)
  | PFloat q => Some q
  | _ => None
  end.

(** [x == y]: numbers compare by value across [bool], [int] and [float],
    lists element by element, dictionaries regardless of order. *)
Fixpoint py_eqb (x y : pyval) {struct x} : bool :=
  match x, y with
  | PNone, PNone => true
  | PStr s, PStr t => String.eqb s t
  | PList l, PList m =>
      (fix go (l m : list pyval) {struct l} : bool :=
         match l, m with
         | [], [] => true
         | a :: l', b :: m' => py_eqb a b && go l' m'
         | _, _ => false
         end) l m
  | PDict d, PDict e =>
      (length d =? length e)%nat &&
      (fix go (d : list (pykey * pyval)) {struct d} : bool :=
         match d with
         | [] => true
         | (k, v) :: d' =>
             match dict_lookup k e with
             | Some w => py_eqb v w
             | None => false
             end && go d'
         end) d
  | PBool b, _ =>
      match as_number y with
      | Some q => Qeq_bool (inject_Z (if b then 1 else 0)) q
      | None => false
      end
  | PInt n, _ =>
      match as_number y with Some q => Qeq_bool (inject_Z n) q | None => false end
  | PFloat p, _ =>
      match as_number y with Some q => Qeq_bool p q | None => false end
  | _, _ => false
  end.

(** [x in [s1, s2, ...]] for a list of string literals. *)
Definition in_strs (x : pyval) (l : list string) : bool :=
  existsb (fun s => py_eqb x (PStr s)) l.

(** [x.lower()] *)
Definition py_lower (x : pyval) : result string :=
  match x with
  | PStr s => Ok (lower s)
  | _ => Raise (no_attribute x "lower")
  end.

(** [x / 1024]: true division, a [float] even when exact. *)
Definition py_div_1024 (x : pyval) : result pyval :=
  match as_number x with
  | Some q => Ok (PFloat (Qred (q / 1024)))
  | None => Raise (TypeError ("unsupported operand type(s) for /: '"
                              ++ type_name x ++ "' and 'int'"))
  end.

(** [x + y] where the program uses it: on lists (and numbers). *)
Definition py_add (x y : pyval) : result pyval :=
  match x, y with
  | PList l, PList m => Ok (PList (l ++ m))
  | PInt a, PInt b => Ok (PInt (a + b))
  | _, _ => Raise (TypeError ("unsupported operand type(s) for +: '"
                             ++ type_name x ++ "' and '" ++ type_name y ++ "'"))
  end.

(** [len(data.get(k, default))] *)
Definition len_of (data : pyval) (k : string) (default : pyval) : result pyval :=
  let! v := py_get data k default in
  let! n := py_len v in
  Ok (PInt (Z.of_nat n)).

(** [x[:n]] *)
Definition py_take (n : nat) (x : pyval) : result pyval :=
  match x with
  | PList l => Ok (PList (take n l))
  | PStr s => Ok (PStr (str_take n s))
  | _ => Raise (TypeError ("'" ++ type_name x ++ "' object is not subscriptable"))
  end.

(** [x.upper()] *)
Definition py_upper (x : pyval) : result string :=
  match x with
  | PStr s => Ok (upper s)
  | _ => Raise (no_attribute x "upper")
  end.

Definition PStrs (l : list string) : pyval := PList (PStr <$> l).

(** A dictionary display with string keys. *)
Definition obj (fields : list (string * pyval)) : pyval :=
  PDict (prod_map KStr id <$> fields).

(** The keys of a dictionary, [None] for any other value. *)
Definition keys_of (v : pyval) : option (list pykey) :=
  match v with
  | PDict d => Some (dict_keys d)
  | _ => None
  end.

(** [v[k]] for reading a result back. *)
Definition field (v : pyval) (k : string) : option pyval :=
  match v with
  | PDict d => dict_lookup (KStr k) d
  | _ => None
  end.

End Py.

Import Py.

(** ** urllib.parse

    The crawlers and the scanner call [urlparse] and [urljoin] of the
    standard library. The program is embedded over any implementation of
    the two; both can raise [ValueError]. *)

Module Urllib.

Record parsed := { scheme : string; netloc : string }.

Record lib := {
  urlparse : string → result parsed;
  urljoin : string → string → result string;
}.

(** A concrete [urlparse] for the examples: the scheme and network location
    of [urlsplit], without its removal of control characters. *)

Definition is_alpha (c : ascii) : bool :=
  let n := nat_of_ascii c in
  ((65 <=? n)%nat && (n <=? 90)%nat) || ((97 <=? n)%nat && (n <=? 122)%nat).

Definition is_scheme_char (c : ascii) : bool :=
  is_alpha c || is_digit c
  || Ascii.eqb c "+" || Ascii.eqb c "-" || Ascii.eqb c ".".

Fixpoint all_chars (p : ascii → bool) (s : string) : bool :=
  match s with
  | EmptyString => true
  | String c s' => p c && all_chars p s'
  end.

(** [url.find(':')] as the text before and after the first colon. *)
Fixpoint cut_colon (s : string) : option (string * string) :=
  match s with
  | EmptyString => None
  | String c s' =>
      if Ascii.eqb c ":" then Some (EmptyString, s')
      else match cut_colon s' with
           | Some (a, b) => Some (String c a, b)
           | None => None
           end
  end.

Definition split_scheme (url : string) : string * string :=
  match cut_colon url with
  | Some (String c0 a, rest) =>
      if is_alpha c0 && all_chars is_scheme_char a
      then (lower (String c0 a), rest)
      else (EmptyString, url)
  | _ => (EmptyString, url)
  end.

(** [_splitnetloc]: up to the first of [/], [?], [#]. *)
Fixpoint until_delim (s : string) : string :=
  match s with
  | EmptyString => EmptyString
  | String c s' =>
      if Ascii.eqb c "/" || Ascii.eqb c "?" || Ascii.eqb c "#"
      then EmptyString
      else String c (until_delim s')
  end.

Definition urlparse_model (url : string) : result parsed :=
  let '(sch, rest) := split_scheme url in
  match rest with
  | String "/" (String "/" after) =>
      let loc := until_delim after in
      if xorb (contains loc "[") (contains loc "]")
      then Raise (ValueError "Invalid IPv6 URL")
      else Ok {| scheme := sch; netloc := loc |}
  | _ => Ok {| scheme := sch; netloc := EmptyString |}
  end.

(** A concrete [urljoin] for the examples. A reference that names its own
    host is returned as it is, any other one is placed under the host of
    the base; dot segments are not removed and the directory of the base is
    taken to be the root. *)
Definition urljoin_model (base url : string) : result string :=
  let! b := urlparse_model base in
  let! u := urlparse_model url in
  if String.eqb url "" then Ok base
  else if negb (String.eqb (netloc u) "") then
    Ok (if String.eqb (scheme u) "" then scheme b ++ ":" ++ url else url)
  else if negb (String.eqb (scheme u) "") then Ok url
  else if startswith url "/" then Ok (scheme b ++ "://" ++ netloc b ++ url)
  else Ok (scheme b ++ "://" ++ netloc b ++ "/" ++ url).

Definition model : lib :=
  {| urlparse := urlparse_model; urljoin := urljoin_model |}.

End Urllib.

(** ** network_scanner.py *)

Module NetworkScanner.

(** What [subprocess.run(cmd, capture_output=True, timeout=...)] can do. *)
Inductive process :=
| Completed (returncode : Z) (stdout stderr : string)
| TimeoutExpired
| FileNotFoundError
| ProcessError (msg : string).

(** What a [socket] resolution call can do. *)
Inductive lookup (A : Type) :=
| Resolved (a : A)
| Gaierror
| SocketError (msg : string).
Arguments Resolved {A} a.
Arguments Gaierror {A}.
Arguments SocketError {A} msg.

(** The machine the scanner runs on: [self.os_type], the outcome of each
    command line and of each resolver call, and the [re] module. *)
Record host := {
  os_type : string;
  subprocess_run : list string → process;
  gethostbyname : string → lookup string;
  getaddrinfo_inet6 : string → lookup (list string);
  gethostbyname_ex : string → lookup (string * list string * list string);
  re_findall : string → string → list string;
}.

Section Scanner.
Context (U : Urllib.lib) (H : host).

Definition _extract_hostname (url : string) : result string :=
  if startswith url "http://" || startswith url "https://" then
    let! parsed := Urllib.urlparse U url in
    Ok (before_sep ":" (Urllib.netloc parsed))
  else Ok (before_sep ":" url).

Definition failure (msg : string) : pyval :=
  obj [("success", PBool false); ("error", PStr msg)].

Definition _ping_host (hostname : string) : pyval :=
  let windows := String.eqb (os_type H) "Windows" in
  let cmd := if windows then ["ping"; "-n"; "4"; hostname]
             else ["ping"; "-c"; "4"; hostname] in
  match subprocess_run H cmd with
  | Completed rc output err =>
      if (rc =? 0)%Z then
        let times := if windows then re_findall H "time[<=]+(\d+)ms" output
                     else re_findall H "time=(\d+\.?\d*)\s*ms" output in
        obj [("success", PBool true);
             ("host_reachable", PBool true);
             ("response_times", PStrs (take 4 times));
             ("output", PStr (str_take 500 output))]
      else
        obj [("success", PBool false);
             ("host_reachable", PBool false);
             ("error", PStr "Host unreachable");
             ("output", PStr (str_take 500 err))]
  | TimeoutExpired => failure "Ping timeout"
  | FileNotFoundError => failure "Ping command not found"
  | ProcessError msg => failure msg
  end.

(** [if ipv6 not in results['ipv6_addresses']: append] over the entries. *)
Definition append_new (acc : list string) (x : string) : list string :=
  if bool_decide (x ∈ acc) then acc else acc ++ [x].

Definition _nslookup (hostname : string) : pyval :=
  let run (ipv4 ipv6 : list string) : pyval :=
    let cmd := if String.eqb (os_type H) "Windows" then ["nslookup"; hostname]
               else ["dig"; hostname; "+short"] in
    let finish (command_output : list (string * pyval)) : pyval :=
      obj ([("hostname", PStr hostname);
            ("ipv4_addresses", PStrs ipv4);
            ("ipv6_addresses", PStrs ipv6);
            ("cname", PNone);
            ("mx_records", PList [])]
           ++ command_output
           ++ [("success", PBool ((0 <? length ipv4)%nat || (0 <? length ipv6)%nat))]) in
    match subprocess_run H cmd with
    | Completed rc output _ =>
        if (rc =? 0)%Z then finish [("command_output", PStr (str_take 500 output))]
        else finish []
    | TimeoutExpired | FileNotFoundError => finish []
    | ProcessError msg => failure msg
    end in
  match gethostbyname H hostname with
  | SocketError msg => failure msg
  | r4 =>
      let ipv4 := match r4 with Resolved a => [a] | _ => [] end in
      match getaddrinfo_inet6 H hostname with
      | SocketError msg => failure msg
      | Resolved infos => run ipv4 (foldl append_new [] infos)
      | Gaierror => run ipv4 []
      end
  end.

(** [re.search(r'\d+\s+', line)] *)
Fixpoint has_digit_space (s : string) : bool :=
  match s with
  | String c ((String c' _) as s') =>
      (is_digit c && is_space c') || has_digit_space s'
  | _ => false
  end.

Definition _traceroute (hostname : string) : pyval :=
  let cmd := if String.eqb (os_type H) "Windows" then ["tracert"; hostname]
             else ["traceroute"; hostname] in
  match subprocess_run H cmd with
  | Completed rc output err =>
      if (rc =? 0)%Z then
        let hops :=
          strip <$> filter (fun line => has_digit_space line
                                        && negb (contains (lower line) "traceroute"))
                           (split_on "010" output) in
        obj [("success", PBool true);
             ("hops", PStrs (take 15 hops));
             ("total_hops", PInt (Z.of_nat (length hops)));
             ("output", PStr (str_take 500 output))]
      else failure (str_take 200 err)
  | TimeoutExpired => failure "Traceroute timeout"
  | FileNotFoundError => failure "Traceroute command not found"
  | ProcessError msg => failure msg
  end.

Definition _nmap_scan (hostname : string) : pyval :=
  match subprocess_run H ["nmap"; "-V"] with
  | Completed rc _ _ =>
      if negb (rc =? 0)%Z then
        obj [("success", PBool false);
             ("error", PStr "nmap not installed");
             ("install_instructions",
              PStr "Install via: apt-get install nmap (Linux) or brew install nmap (Mac)")]
      else
        match subprocess_run H
                ["nmap"; "-p"; "80,443,22,21,25,53,3306,5432"; "-T3"; hostname] with
        | Completed rc' output err =>
            if (rc' =? 0)%Z then
              let open_ports :=
                strip <$> filter (fun line => contains (lower line) "open")
                                 (split_on "010" output) in
              obj [("success", PBool true);
                   ("open_ports", PStrs open_ports);
                   ("scan_data", PStr (str_take 1000 output))]
            else failure (str_take 200 err)
        | FileNotFoundError =>
            obj [("success", PBool false);
                 ("error", PStr "nmap not installed");
                 ("note", PStr "Optional tool - system will continue without it")]
        | TimeoutExpired => failure "nmap timeout (timeout after 30s)"
        | ProcessError msg =>
            obj [("success", PBool false); ("error", PStr msg);
                 ("note", PStr "nmap is optional")]
        end
  | FileNotFoundError =>
      obj [("success", PBool false);
           ("error", PStr "nmap not installed");
           ("note", PStr "Optional tool - system will continue without it")]
  | TimeoutExpired => failure "nmap timeout (timeout after 30s)"
  | ProcessError msg =>
      obj [("success", PBool false); ("error", PStr msg);
           ("note", PStr "nmap is optional")]
  end.

Definition _get_socket_info (hostname : string) : pyval :=
  let info (name : pyval) (aliases addresses : list string) : pyval :=
    obj [("hostname_canonical", name);
         ("aliases", PStrs aliases);
         ("all_addresses", PStrs addresses);
         ("success", PBool (0 <? length addresses)%nat)] in
  match gethostbyname_ex H hostname with
  | Resolved (h_name, h_aliases, h_addresses) => info (PStr h_name) h_aliases h_addresses
  | Gaierror => info PNone [] []
  | SocketError msg => failure msg
  end.

End Scanner.

(** [re.search(r'(\d+)/', line)] and [int(match.group(1))]: the first run
    of digits that a slash follows. [run] holds the digits read so far. *)
Fixpoint search_port (run : option Z) (s : string) : option Z :=
  match s with
  | EmptyString => None
  | String c s' =>
      if is_digit c then
        let d := Z.of_nat (nat_of_ascii c - 48) in
        search_port (Some (from_option (fun n => 10 * n + d) d run)%Z) s'
      else match run with
           | Some n => if Ascii.eqb c "/" then Some n else search_port None s'
           | None => search_port None s'
           end
  end.

Definition _extract_open_ports (scan_results : pyval) : result (list Z) :=
  let! nmap_results := py_get scan_results "nmap_results" (PDict []) in
  let! success := py_get nmap_results "success" PNone in
  let! listed := (if truthy success then py_get nmap_results "open_ports" PNone
                  else Ok success) in
  let! ports :=
    (if truthy listed then
       let! lines_ := py_get nmap_results "open_ports" (PList []) in
       let! lines := py_iter lines_ in
       let! found := mapM (fun line =>
           match line with
           | PStr s => Ok (search_port None s)
           | _ => Raise (TypeError "expected string or bytes-like object")
           end) lines in
       Ok (omap id found)
     else Ok []) in
  Ok (merge_sort Z.le (remove_dups ports)).

Definition port_services : list (Z * string) :=
  [(80, "HTTP"); (443, "HTTPS"); (22, "SSH"); (21, "FTP"); (25, "SMTP");
   (53, "DNS"); (3306, "MySQL"); (5432, "PostgreSQL")]%Z.

(** [port_services.get(port, 'Unknown')] *)
Fixpoint table_get (port : Z) (table : list (Z * string)) : string :=
  match table with
  | [] => "Unknown"
  | (p, name) :: table' => if (p =? port)%Z then name else table_get port table'
  end.

Definition service_of (port : Z) : string := table_get port port_services.

Definition _map_services (scan_results : pyval) : result pyval :=
  let! open_ports := _extract_open_ports scan_results in
  Ok (PDict ((fun port => (KInt port, PStr (service_of port))) <$> open_ports)).

Definition _generate_summary (scan_results : pyval) : result pyval :=
  let! hostname := py_get scan_results "hostname" (PStr "") in
  let! ping := py_get scan_results "ping_results" (PDict []) in
  let! reachable := py_get ping "host_reachable" (PBool false) in
  let! dns := py_get scan_results "dns_results" (PDict []) in
  let! ipv4 := py_get dns "ipv4_addresses" (PList []) in
  let! dns' := py_get scan_results "dns_results" (PDict []) in
  let! ipv6 := py_get dns' "ipv6_addresses" (PList []) in
  let! ip_addresses := py_add ipv4 ipv6 in
  let! open_ports := _extract_open_ports scan_results in
  let! services := _map_services scan_results in
  let! trace := py_get scan_results "traceroute_results" (PDict []) in
  let! hop_count := py_get trace "total_hops" (PInt 0) in
  let! ping' := py_get scan_results "ping_results" (PDict []) in
  let! host_reachable := py_get ping' "host_reachable" PNone in
  let! resolved :=
    (if truthy host_reachable then
       let! dns'' := py_get scan_results "dns_results" (PDict []) in
       py_get dns'' "ipv4_addresses" PNone
     else Ok host_reachable) in
  Ok (obj [("target_info", obj [("hostname", hostname);
                                ("reachable", reachable);
                                ("ip_addresses", ip_addresses)]);
           ("open_ports", PList (PInt <$> open_ports));
           ("services", services);
           ("hop_count", hop_count);
           ("network_accessible", PBool (truthy resolved))]).

Definition scan_target (U : Urllib.lib) (H : host) (url : string) : pyval :=
  let run : result pyval :=
    let! hostname := _extract_hostname U url in
    let scan_results :=
      [("hostname", PStr hostname);
       ("ping_results", _ping_host H hostname);
       ("dns_results", _nslookup H hostname);
       ("traceroute_results", _traceroute H hostname);
       ("nmap_results", _nmap_scan H hostname);
       ("socket_info", _get_socket_info H hostname);
       ("summary", PDict [])] in
    let! summary := _generate_summary (obj scan_results) in
    Ok (PDict (dict_set (KStr "summary") summary (prod_map KStr id <$> scan_results))) in
  match run with
  | Ok scan_results => scan_results
  | Raise e => obj [("error", PStr (str_exn e)); ("success", PBool false)]
  end.

(** [get_module_data(scan_results)] *)
Definition get_module_data (scan_results : pyval) : result pyval :=
  let! s1 := py_get scan_results "summary" (PDict []) in
  let! targets := py_get s1 "target_info" (PDict []) in
  let! s2 := py_get scan_results "summary" (PDict []) in
  let! open_ports := py_get s2 "open_ports" (PList []) in
  let! s3 := py_get scan_results "summary" (PDict []) in
  let! services := py_get s3 "services" (PDict []) in
  let! s4 := py_get scan_results "summary" (PDict []) in
  let! network_accessible := py_get s4 "network_accessible" (PBool false) in
  let! s5 := py_get scan_results "summary" (PDict []) in
  let! t5 := py_get s5 "target_info" (PDict []) in
  let! ip_addresses := py_get t5 "ip_addresses" (PList []) in
  Ok (obj [("targets", targets);
           ("open_ports", open_ports);
           ("services", services);
           ("network_accessible", network_accessible);
           ("ip_addresses", ip_addresses)]).

End NetworkScanner.

(** ** middleware.py *)

Module DataProcessor.

(** [self.network_scanner = NetworkScanner()]: the one attribute of an
    instance, itself holding [os_type]. *)
Record t := { network_scanner_os_type : string }.

Definition sensitive_keywords : list string :=
  ["password"; "pin"; "secret"; "token"; "key"; "api";
   "credit"; "card"; "cvv"; "ssn"; "auth"].

(** [any(kw in name or kw in inp_type for kw in sensitive_keywords)] *)
Definition matches_keyword (name inp_type : string) : bool :=
  existsb (fun kw => contains name kw || contains inp_type kw) sensitive_keywords.

Definition is_sensitive (inp : pyval) : result bool :=
  let! n := py_get inp "name" (PStr "") in
  let! name := py_lower n in
  let! ty := py_get inp "type" (PStr "") in
  let! inp_type := py_lower ty in
  Ok (matches_keyword name inp_type).

Definition _identify_sensitive_fields (crawl_data : pyval) : result (list pyval) :=
  let! inputs := py_get crawl_data "inputs" (PList []) in
  let! items := py_iter inputs in
  filterM is_sensitive items.

(** [categorized[inp_type] = categorized.get(inp_type, 0) + 1] *)
Definition count_type (categorized : list (pykey * pyval)) (inp : pyval)
  : result (list (pykey * pyval)) :=
  let! ty := py_get inp "type" (PStr "unknown") in
  let! inp_type := py_lower ty in
  let! n := py_add (from_option id (PInt 0) (dict_lookup (KStr inp_type) categorized))
                   (PInt 1) in
  Ok (dict_set (KStr inp_type) n categorized).

Definition _categorize_inputs (inputs : pyval) : result pyval :=
  let! items := py_iter inputs in
  let! categorized := foldM count_type [] items in
  Ok (PDict categorized).

Definition _process_scrapy_data (data : pyval) : result pyval :=
  let! pages_crawled := len_of data "pages_crawled" (PList []) in
  let! total_links := py_get data "total_links_found" (PInt 0) in
  let! total_forms := py_get data "total_forms_found" (PInt 0) in
  let! total_inputs := py_get data "total_inputs_found" (PInt 0) in
  let! structured_data := py_get data "structured_data" (PDict []) in
  let! depth := py_get data "depth" (PInt 1) in
  let! all_pages := py_get data "pages_crawled" (PList []) in
  let! pages := py_take 10 all_pages in
  Ok (obj [("pages_crawled", pages_crawled);
           ("total_links", total_links);
           ("total_forms", total_forms);
           ("total_inputs", total_inputs);
           ("structured_data", structured_data);
           ("depth", depth);
           ("pages", pages)]).

Definition _process_beautifulsoup_data (data : pyval) : result pyval :=
  let! links_info := py_get data "links" (PDict []) in
  let! status_code := py_get data "status_code" (PInt 0) in
  let! total_links := py_get links_info "total" (PInt 0) in
  let! internal_links := py_get links_info "internal" (PInt 0) in
  let! external_links := py_get links_info "external" (PInt 0) in
  let! email_links := py_get links_info "email" (PInt 0) in
  let! forms_count := len_of data "forms" (PList []) in
  let! inputs_count := len_of data "inputs" (PList []) in
  let! page_size := py_get data "page_size" (PInt 0) in
  let! page_size_kb := py_div_1024 page_size in
  let! has_javascript := py_get data "javascript_enabled" (PBool false) in
  Ok (obj [("status_code", status_code);
           ("total_links", total_links);
           ("internal_links", internal_links);
           ("external_links", external_links);
           ("email_links", email_links);
           ("forms_count", forms_count);
           ("inputs_count", inputs_count);
           ("page_size_kb", page_size_kb);
           ("has_javascript", has_javascript)]).

Definition _process_browser_data (data : pyval) : result pyval :=
  let! title := py_get data "title" (PStr "") in
  let! current_url := py_get data "current_url" (PStr "") in
  let! url := py_get data "url" PNone in
  let! current := py_get data "current_url" PNone in
  let! forms_count := len_of data "forms" (PList []) in
  let! inputs_count := len_of data "inputs" (PList []) in
  let! links_count := len_of data "links" (PList []) in
  let! cookies_count := len_of data "cookies" (PDict []) in
  let! page_size := py_get data "page_size" (PInt 0) in
  let! page_size_kb := py_div_1024 page_size in
  let! javascript_enabled := py_get data "javascript_enabled" (PBool false) in
  let! authenticated := py_get data "authenticated" (PBool false) in
  Ok (obj [("title", title);
           ("current_url", current_url);
           ("redirected", PBool (negb (py_eqb url current)));
           ("forms_count", forms_count);
           ("inputs_count", inputs_count);
           ("links_count", links_count);
           ("cookies_count", cookies_count);
           ("page_size_kb", page_size_kb);
           ("javascript_enabled", javascript_enabled);
           ("authenticated", authenticated)]).

Definition _process_engine_data (data engine : pyval) : result pyval :=
  if py_eqb engine (PStr "scrapy") then _process_scrapy_data data
  else if py_eqb engine (PStr "beautifulsoup") then _process_beautifulsoup_data data
  else if in_strs engine ["selenium"; "playwright"] then _process_browser_data data
  else Ok data.

Definition _enrich_data (crawl_data network_data : pyval) : result pyval :=
  let! form_count := len_of crawl_data "forms" (PList []) in
  let! inputs := py_get crawl_data "inputs" (PList []) in
  let! input_types := _categorize_inputs inputs in
  let! sensitive_fields := _identify_sensitive_fields crawl_data in
  let! network_info :=
    (if truthy network_data then
       let! s1 := py_get network_data "summary" (PDict []) in
       let! t1 := py_get s1 "target_info" (PDict []) in
       let! ip_addresses := py_get t1 "ip_addresses" (PList []) in
       let! s2 := py_get network_data "summary" (PDict []) in
       let! t2 := py_get s2 "target_info" (PDict []) in
       let! reachable := py_get t2 "reachable" (PBool false) in
       let! s3 := py_get network_data "summary" (PDict []) in
       let! open_ports := py_get s3 "open_ports" (PList []) in
       let! s4 := py_get network_data "summary" (PDict []) in
       let! services := py_get s4 "services" (PDict []) in
       Ok (obj [("ip_addresses", ip_addresses);
                ("reachable", reachable);
                ("open_ports", open_ports);
                ("services", services)])
     else Ok (PDict [])) in
  Ok (obj [("form_count", form_count);
           ("input_types", input_types);
           ("sensitive_fields", PList sensitive_fields);
           ("network_info", network_info)]).

Definition injectable_types : list string :=
  ["text"; "email"; "number"; "search"; "url"].

(** The loop body of "Identify injectable parameters": the names appended
    for one input, none or one. *)
Definition injectable_name (inp : pyval) : result (list pyval) :=
  let! ty := py_get inp "type" PNone in
  if in_strs ty injectable_types then
    let! name := py_get inp "name" (PStr "") in
    Ok [name]
  else Ok [].

Definition injectable_parameters (crawl_data : pyval) : result (list pyval) :=
  let! inputs := py_get crawl_data "inputs" (PList []) in
  let! items := py_iter inputs in
  let! names := mapM injectable_name items in
  Ok (concat names).

Definition _prepare_for_vulnerability_scan (crawl_data network_data : pyval)
  : result pyval :=
  let! url := py_get crawl_data "url" (PStr "") in
  let! title := py_get crawl_data "title" (PStr "") in
  let! forms := py_get crawl_data "forms" (PList []) in
  let! inputs := py_get crawl_data "inputs" (PList []) in
  let! links := py_get crawl_data "links" (PList []) in
  let! authentication_required := py_get crawl_data "authenticated" (PBool false) in
  let! network_context :=
    (if truthy network_data then
       let! summary := py_get network_data "summary" (PDict []) in
       let! target_info := py_get summary "target_info" (PDict []) in
       let! ip_addresses := py_get target_info "ip_addresses" (PList []) in
       let! open_ports := py_get summary "open_ports" (PList []) in
       let! services := py_get summary "services" (PDict []) in
       let! network_accessible := py_get summary "network_accessible" (PBool false) in
       Ok (obj [("ip_addresses", ip_addresses);
                ("open_ports", open_ports);
                ("services", services);
                ("network_accessible", network_accessible)])
     else Ok (PDict [])) in
  let! params := injectable_parameters crawl_data in
  Ok (obj [("target", obj [("url", url); ("title", title); ("forms", forms);
                           ("inputs", inputs); ("links", links)]);
           ("network_context", network_context);
           ("injectable_parameters", PList params);
           ("authentication_required", authentication_required)]).

(** The body of [process_crawl_data] inside its [try]. *)
Definition process_body (crawl_result network_data : pyval) : result pyval :=
  let! success := py_get crawl_result "success" PNone in
  if negb (truthy success) then
    let! error := py_get crawl_result "error" PNone in
    Ok (obj [("success", PBool false); ("error", error)])
  else
    let! data := py_get crawl_result "data" (PDict []) in
    let! engine := py_get data "engine" (PStr "unknown") in
    let! url := py_get data "url" (PStr "") in
    let! crawl_data := _process_engine_data data engine in
    let! enriched_data := _enrich_data data network_data in
    let! ready := _prepare_for_vulnerability_scan data network_data in
    Ok (obj [("source_engine", engine);
             ("target_url", url);
             ("crawl_data", crawl_data);
             ("network_data", if truthy network_data then network_data else PDict []);
             ("enriched_data", enriched_data);
             ("vulnerability_scan_ready", ready)]).

(** [process_crawl_data(self, crawl_result, network_data=None)]: the
    instance after the call, and the value returned. *)
Definition process_crawl_data (self : t) (crawl_result network_data : pyval)
  : t * pyval :=
  (self,
   match process_body crawl_result network_data with
   | Ok processed => processed
   | Raise e => obj [("success", PBool false); ("error", PStr (str_exn e))]
   end).

(** [integrate_network_scan(self, crawl_result, url)] on the machine [H] the
    scanner of the instance runs on. Neither call in its [try] raises, so
    its [except] branch is not taken. *)
Definition integrate_network_scan (U : Urllib.lib) (H : NetworkScanner.host)
    (self : t) (crawl_result : pyval) (url : string) : t * pyval :=
  let network_result := NetworkScanner.scan_target U H url in
  process_crawl_data self crawl_result network_result.

(** [processed_data.get('vulnerability_scan_ready', {}).get('target', {}).get(k, [])] *)
Definition target_part (processed_data : pyval) (k : string) : result pyval :=
  let! ready := py_get processed_data "vulnerability_scan_ready" (PDict []) in
  let! target := py_get ready "target" (PDict []) in
  py_get target k (PList []).

(** [processed_data.get('vulnerability_scan_ready', {}).get('network_context', {})] *)
Definition network_part (processed_data : pyval) : result pyval :=
  let! ready := py_get processed_data "vulnerability_scan_ready" (PDict []) in
  py_get ready "network_context" (PDict []).

Definition get_scanner_context (processed_data : pyval) : result pyval :=
  let! sql_forms := target_part processed_data "forms" in
  let! sql_inputs := target_part processed_data "inputs" in
  let! sql_network := network_part processed_data in
  let! xss_forms := target_part processed_data "forms" in
  let! xss_inputs := target_part processed_data "inputs" in
  let! n1 := network_part processed_data in
  let! open_ports := py_get n1 "open_ports" (PList []) in
  let! n2 := network_part processed_data in
  let! services := py_get n2 "services" (PDict []) in
  let! n3 := network_part processed_data in
  let! ip_addresses := py_get n3 "ip_addresses" (PList []) in
  Ok (obj [("sql_injection_context",
            obj [("forms", sql_forms); ("inputs", sql_inputs); ("network", sql_network)]);
           ("xss_context", obj [("forms", xss_forms); ("inputs", xss_inputs)]);
           ("network_context",
            obj [("open_ports", open_ports); ("services", services);
                 ("ip_addresses", ip_addresses)])]).

End DataProcessor.

(** [set(links)], [len(set(links))] and [list(set(links))]. Python leaves
    the order of a set open; the embedding lists it in [gset]'s order. *)
Definition py_set (l : list string) : gset string := list_to_set l.
Definition set_len (l : list string) : nat := size (py_set l).
Definition set_list (l : list string) : list string := elements (py_set l).

(** ** beautifulsoup_crawler.py *)

Module BeautifulSoupCrawler.

Record buckets := {
  internal_links : list string;
  external_links : list string;
  email_links : list string;
}.

Definition no_links : buckets :=
  {| internal_links := []; external_links := []; email_links := [] |}.

Section Links.
Context (U : Urllib.lib).

(** One turn of the loop over [soup.find_all('a', href=True)]. *)
Definition sort_link (base_url base_domain : string) (b : buckets) (href : string)
  : result buckets :=
  if startswith href "mailto:" then
    Ok {| internal_links := internal_links b;
          external_links := external_links b;
          email_links := email_links b ++ [href] |}
  else if startswith href "javascript:" then Ok b
  else if startswith href "http" then
    if contains href base_domain then
      Ok {| internal_links := internal_links b ++ [href];
            external_links := external_links b;
            email_links := email_links b |}
    else
      Ok {| internal_links := internal_links b;
            external_links := external_links b ++ [href];
            email_links := email_links b |}
  else
    let! resolved := Urllib.urljoin U base_url href in
    Ok {| internal_links := internal_links b ++ [resolved];
          external_links := external_links b;
          email_links := email_links b |}.

Definition sort_links (hrefs : list string) (base_url : string) : result buckets :=
  let! parsed := Urllib.urlparse U base_url in
  foldM (sort_link base_url (Urllib.netloc parsed)) no_links hrefs.

Definition nat_val (n : nat) : pyval := PInt (Z.of_nat n).

(** [_extract_links(soup, base_url)]; [hrefs] are the [href] values of the
    anchors of the page, in document order. *)
Definition _extract_links (hrefs : list string) (base_url : string) : pyval :=
  match sort_links hrefs base_url with
  | Ok b =>
      obj [("total", nat_val (length (internal_links b) + length (external_links b)));
           ("internal", nat_val (set_len (internal_links b)));
           ("external", nat_val (set_len (external_links b)));
           ("email", nat_val (length (email_links b)));
           ("internal_links", PStrs (take 50 (set_list (internal_links b))));
           ("external_links", PStrs (take 50 (set_list (external_links b))));
           ("email_links", PStrs (email_links b))]
  | Raise _ =>
      obj [("total", PInt 0); ("internal", PInt 0); ("external", PInt 0)]
  end.

End Links.

(** The three counts of a link summary. *)
Definition count (summary : pyval) (k : string) : Z :=
  match field summary k with
  | Some (PInt n) => n
  | _ => 0
  end.

End BeautifulSoupCrawler.

(** ** scrapy_crawler.py *)

(** A parsed page, as the queries the engine makes on it answer. *)
Module Dom.

(** The value of an attribute: a string, or a list of strings for the
    attributes HTML declares multi-valued ([class], [rel], ...). *)
Inductive attr :=
| Single (s : string)
| Multi (l : list string).

Definition attr_val (a : attr) : pyval :=
  match a with
  | Single s => PStr s
  | Multi l => PStrs l
  end.

Record tag := { attrs : list (string * attr) }.

(** [tag.get(k, default)] *)
Fixpoint attr_get (l : list (string * attr)) (k : string) (default : pyval) : pyval :=
  match l with
  | [] => default
  | (k', a) :: l' => if String.eqb k k' then attr_val a else attr_get l' k default
  end.

Definition get (t : tag) (k : string) (default : pyval) : pyval :=
  attr_get (attrs t) k default.

Record form := {
  form_tag : tag;
  (** [form.find_all(['input', 'textarea'])] *)
  form_fields : list tag;
}.

Record soup := {
  (** [soup.find('title')]: [None] without a title, else its [.string] *)
  title : option pyval;
  (** [a['href']] for [soup.find_all('a', href=True)] *)
  hrefs : list string;
  forms : list form;
  inputs : list tag;
  (** [len(soup.find_all('h1'))] ... [len(soup.find_all('h6'))] *)
  headings : list nat;
  metas : list tag;
  (** [soup.get_text()] *)
  text : string;
  (** the [application/ld+json] scripts that [json.loads] accepts *)
  json_ld : list pyval;
}.

End Dom.

Module ScrapyEngine.

(** What [session.get(url, ...)] can do. *)
Inductive response :=
| Response (status_code : Z) (reason : string) (content : Dom.soup)
| RequestException (msg : string).

Record web := { get : string → response }.

(** An engine instance. *)
Record t := {
  timeout : Z;
  max_workers : Z;
  visited_urls : gset string;
}.

Definition __init__ (timeout max_workers : Z) : t :=
  {| timeout := timeout; max_workers := max_workers; visited_urls := ∅ |}.

(** An instance together with the requests sent so far, oldest first. *)
Record state := {
  self : t;
  fetched : list string;
}.

Definition visit (link : string) (s : state) : state :=
  {| self := {| timeout := timeout (self s);
                max_workers := max_workers (self s);
                visited_urls := {[link]} ∪ visited_urls (self s) |};
     fetched := fetched s |}.

Definition session_get (W : web) (url : string) (s : state) : response * state :=
  (get W url, {| self := self s; fetched := fetched s ++ [url] |}).

Section Engine.
Context (U : Urllib.lib) (W : web).

Definition _extract_links_from_soup (soup : Dom.soup) (base_url : string)
  : result (list string) :=
  let! links := mapM (Urllib.urljoin U base_url)
    (filter (fun href => negb (String.eqb href "")
                         && negb (startswith href "mailto:"
                                  || startswith href "javascript:"))
            (Dom.hrefs soup)) in
  Ok (set_list links).

Definition _extract_forms_from_soup (soup : Dom.soup) : result (list pyval) :=
  mapM (fun form =>
    let f := Dom.form_tag form in
    let! method := py_upper (Dom.get f "method" (PStr "GET")) in
    Ok (obj [("name", Dom.get f "name" (PStr ""));
             ("id", Dom.get f "id" (PStr ""));
             ("action", Dom.get f "action" (PStr ""));
             ("method", PStr method);
             ("enctype", Dom.get f "enctype" (PStr ""));
             ("field_count", PInt (Z.of_nat (length (Dom.form_fields form))))]))
    (Dom.forms soup).

Definition _extract_inputs_from_soup (soup : Dom.soup) : list pyval :=
  (fun inp => obj [("type", Dom.get inp "type" (PStr "text"));
                   ("name", Dom.get inp "name" (PStr ""));
                   ("id", Dom.get inp "id" (PStr ""));
                   ("class", Dom.get inp "class" (PList []))])
  <$> Dom.inputs soup.

Definition heading_names : list string := ["h1"; "h2"; "h3"; "h4"; "h5"; "h6"].

Definition _extract_headers_from_soup (soup : Dom.soup) : pyval :=
  obj (omap (fun '(name, count) =>
               if (0 <? count)%nat then Some (name, PInt (Z.of_nat count)) else None)
            (zip heading_names (Dom.headings soup))).

Definition unhashable (v : pyval) : exn :=
  TypeError ("unhashable type: '" ++ type_name v ++ "'").

(** [d[k] = v] with an attribute value as key: a string, or a list, which
    cannot be a key. *)
Definition py_setitem (d : list (pykey * pyval)) (k v : pyval)
  : result (list (pykey * pyval)) :=
  match k with
  | PStr s => Ok (dict_set (KStr s) v d)
  | _ => Raise (unhashable k)
  end.

Definition _extract_meta_tags_from_soup (soup : Dom.soup) : result pyval :=
  let! tags := foldM (fun meta_tags meta =>
      let n := Dom.get meta "name" PNone in
      let name := if truthy n then n else Dom.get meta "property" PNone in
      let content := Dom.get meta "content" PNone in
      if truthy (py_and name content) then py_setitem meta_tags name content
      else Ok meta_tags) [] (Dom.metas soup) in
  Ok (PDict tags).

(** [len(text.split())] *)
Fixpoint count_words (in_word : bool) (s : string) : nat :=
  match s with
  | EmptyString => 0
  | String c s' =>
      if is_space c then count_words false s'
      else (if in_word then 0 else 1) + count_words true s'
  end.

Definition _parse_page (url : string) (soup : Dom.soup) : result pyval :=
  let! links := _extract_links_from_soup soup url in
  let! forms := _extract_forms_from_soup soup in
  let! meta_tags := _extract_meta_tags_from_soup soup in
  Ok (obj [("url", PStr url);
           ("title", from_option id (PStr "") (Dom.title soup));
           ("links", PStrs links);
           ("forms", PList forms);
           ("inputs", PList (_extract_inputs_from_soup soup));
           ("headers", _extract_headers_from_soup soup);
           ("meta_tags", meta_tags);
           ("word_count", PInt (Z.of_nat (count_words false (Dom.text soup))))]).

Definition is_og (meta : Dom.tag) : bool :=
  match Dom.get meta "property" PNone with
  | PStr s => contains s "og:"
  | _ => false
  end.

Definition _extract_structured_data (soup : Dom.soup) (url : string) : result pyval :=
  let! og_tags := foldM (fun og meta =>
      py_setitem og (Dom.get meta "property" (PStr "")) (Dom.get meta "content" (PStr "")))
    [] (filter is_og (Dom.metas soup)) in
  Ok (obj [("json_ld", PList (Dom.json_ld soup));
           ("microdata", PList []);
           ("og_tags", PDict og_tags)]).

Definition _extract_crawlable_links (soup : Dom.soup) (base_url : string)
  : result (list string) :=
  foldM (fun links href =>
      if startswith href "mailto:" || startswith href "javascript:"
         || startswith href "#"
      then Ok links
      else
        let! full_url := Urllib.urljoin U base_url href in
        let! parsed := Urllib.urlparse U full_url in
        Ok (if bool_decide (Urllib.scheme parsed ∈ ["http"; "https"])
            then (links ++ [full_url])%list else links))
    [] (Dom.hrefs soup).

(** The body of the [try] around one followed link: the pages it adds. *)
Definition fetch_page (link : string) (s : state) : list pyval * state :=
  match session_get W link s with
  | (Response status _ soup, s') =>
      if (status =? 200)%Z then
        match _parse_page link soup with
        | Ok page_data => ([page_data], s')
        | Raise _ => ([], s')
        end
      else ([], s')
  | (RequestException _, s') => ([], s')
  end.

(** The loop of [_crawl_depth] over [links[:5]]. *)
Fixpoint crawl_links (base_domain : string) (links : list string) (s : state)
  : result (list pyval) * state :=
  match links with
  | [] => (Ok [], s)
  | link :: rest =>
      if bool_decide (link ∈ visited_urls (self s)) then crawl_links base_domain rest s
      else
        match Urllib.urlparse U link with
        | Raise e => (Raise e, s)
        | Ok parsed =>
            if String.eqb (Urllib.netloc parsed) base_domain then
              let '(pages, s') := fetch_page link (visit link s) in
              match crawl_links base_domain rest s' with
              | (Ok more, s'') => (Ok (pages ++ more)%list, s'')
              | (Raise e, s'') => (Raise e, s'')
              end
            else crawl_links base_domain rest s
        end
  end.

Definition _crawl_depth (links : list string) (base_url : string) (depth : Z)
    (s : state) : result (list pyval) * state :=
  match Urllib.urlparse U base_url with
  | Raise e => (Raise e, s)
  | Ok parsed => crawl_links (Urllib.netloc parsed) (take 5 links) s
  end.

(** [sum(len(page.get(k, [])) for page in pages)] *)
Definition total_of (k : string) (pages : list pyval) : result pyval :=
  let! sizes := mapM (fun page => let! v := py_get page k (PList []) in py_len v) pages in
  Ok (PInt (Z.of_nat (sum_list sizes))).

(** [response.raise_for_status()] *)
Definition raise_for_status (status : Z) (reason url : string) : result unit :=
  if (400 <=? status)%Z && (status <? 600)%Z then
    Raise (LibraryError (pretty status
                         ++ (if (status <? 500)%Z then " Client Error: " else " Server Error: ")
                         ++ reason ++ " for url: " ++ url))
  else Ok ().

(** The body of [crawl] inside its [try], once the first page is in. *)
Definition crawl_body (url : string) (max_depth : Z) (status : Z) (reason : string)
    (soup : Dom.soup) (s : state) : result pyval * state :=
  match (let! _ := raise_for_status status reason url in
         let! first := _parse_page url soup in
         let! structured := _extract_structured_data soup url in
         let! links := (if (1 <? max_depth)%Z then _extract_crawlable_links soup url
                        else Ok []) in
         Ok (first, structured, links)) with
  | Raise e => (Raise e, s)
  | Ok (first, structured, links) =>
      let '(deeper, s') :=
        if (1 <? max_depth)%Z then _crawl_depth links url (max_depth - 1) s
        else (Ok [], s) in
      (let! crawled_pages := deeper in
       let pages_crawled := first :: crawled_pages in
       let! total_links := total_of "links" pages_crawled in
       let! total_forms := total_of "forms" pages_crawled in
       let! total_inputs := total_of "inputs" pages_crawled in
       Ok (obj [("engine", PStr "scrapy");
                ("url", PStr url);
                ("depth", PInt max_depth);
                ("status_code", PInt status);
                ("pages_crawled", PList pages_crawled);
                ("total_links_found", total_links);
                ("total_forms_found", total_forms);
                ("total_inputs_found", total_inputs);
                ("structured_data", structured)]), s')
  end.

Definition crawl (url : string) (max_depth : Z) (s : state) : pyval * state :=
  let '(response, s1) := session_get W url s in
  let '(outcome, s2) :=
    match response with
    | Response status reason soup => crawl_body url max_depth status reason soup s1
    | RequestException msg => (Raise (LibraryError msg), s1)
    end in
  (match outcome with
   | Ok results => obj [("success", PBool true); ("data", results)]
   | Raise e => obj [("success", PBool false); ("error", PStr (str_exn e))]
   end, s2).

End Engine.

(** [_find_sensitive_fields(soup)] *)
Definition scrapy_keywords : list string :=
  ["password"; "pin"; "secret"; "token"; "api"; "key"; "auth"].

Definition _find_sensitive_fields (soup : Dom.soup) : result (list pyval) :=
  let! found := mapM (fun inp =>
      let! name := py_lower (Dom.get inp "name" (PStr "")) in
      let! inp_type := py_lower (Dom.get inp "type" (PStr "")) in
      Ok (if existsb (fun kw => contains name kw || contains inp_type kw) scrapy_keywords
          then [obj [("type", Dom.get inp "type" (PStr ""));
                     ("name", Dom.get inp "name" (PStr ""));
                     ("id", Dom.get inp "id" (PStr ""))]]
          else []))
    (Dom.inputs soup) in
  Ok (concat found).

(** The pages of a crawl result, by URL. *)
Definition pages_of (r : pyval) : list pyval :=
  match field r "data" with
  | Some data =>
      match field data "pages_crawled" with
      | Some (PList pages) => omap (fun page => field page "url") pages
      | _ => []
      end
  | None => []
  end.

End ScrapyEngine.


(** ** beautifulsoup_crawler.py: requests and page queries *)

Module BeautifulSoupEngine.

Record form := {
  form_tag : Dom.tag;
  (** [form.find_all('input')] *)
  form_inputs : list Dom.tag;
  (** [form.find_all('textarea')] *)
  form_textareas : list Dom.tag;
}.

(** A parsed page, as the queries of this crawler answer. *)
Record page := {
  (** [soup.find('title')]: [None] without a title, else its [.string] *)
  title : option pyval;
  (** [link['href']] for [soup.find_all('a', href=True)] *)
  hrefs : list string;
  forms : list form;
  (** [soup.find_all('input')] *)
  inputs : list Dom.tag;
  metas : list Dom.tag;
  (** [soup.get_text()] once the script and style elements are removed *)
  text : string;
}.

(** What a call of the [requests] session can do. *)
Inductive response :=
| Response (status_code : Z) (reason : string) (headers : list (string * string))
           (content_length : nat) (soup : page)
| ConnectionError (msg : string)
| Timeout (msg : string)
| RequestError (msg : string).

(** The [requests] session against a server in state [St]: a request gets
    its response and leaves the server, and the cookies of the session, in
    a new state. *)
Record session (St : Type) := {
  get : St → string → response * St;
  post : St → string → list (string * string) → response * St;
}.
Arguments get {St}.
Arguments post {St}.

Definition _extract_title (soup : page) : pyval :=
  from_option id (PStr "No title") (title soup).

(** ['required' in tag.attrs] *)
Definition has_attr (t : Dom.tag) (k : string) : bool :=
  existsb (fun kv => String.eqb k (fst kv)) (Dom.attrs t).

Definition form_fields (f : form) : list pyval :=
  ((fun inp => obj [("type", Dom.get inp "type" (PStr "text"));
                    ("name", Dom.get inp "name" (PStr ""));
                    ("id", Dom.get inp "id" (PStr ""));
                    ("value", Dom.get inp "value" (PStr ""));
                    ("required", PBool (has_attr inp "required"))])
   <$> form_inputs f)
  ++ ((fun ta => obj [("type", PStr "textarea");
                      ("name", Dom.get ta "name" (PStr ""));
                      ("id", Dom.get ta "id" (PStr ""));
                      ("required", PBool (has_attr ta "required"))])
      <$> form_textareas f).

Definition _extract_forms (soup : page) : pyval :=
  match mapM (fun f =>
          let! method := py_upper (Dom.get (form_tag f) "method" (PStr "get")) in
          Ok (obj [("name", Dom.get (form_tag f) "name" (PStr ""));
                   ("id", Dom.get (form_tag f) "id" (PStr ""));
                   ("action", Dom.get (form_tag f) "action" (PStr ""));
                   ("method", PStr method);
                   ("fields", PList (form_fields f))]))
        (forms soup) with
  | Ok l => PList l
  | Raise _ => PList []
  end.

Definition input_entry (inp : Dom.tag) : pyval :=
  obj [("type", Dom.get inp "type" (PStr "text"));
       ("name", Dom.get inp "name" (PStr ""));
       ("id", Dom.get inp "id" (PStr ""));
       ("value", Dom.get inp "value" (PStr ""))].

Definition _extract_inputs (soup : page) : pyval :=
  PList (input_entry <$> inputs soup).

Definition _extract_meta_tags (soup : page) : pyval :=
  match foldM (fun meta_tags meta =>
          let n := Dom.get meta "name" PNone in
          let name := if truthy n then n else Dom.get meta "property" PNone in
          let content := Dom.get meta "content" PNone in
          if truthy (py_and name content) then
            match name with
            | PStr s => Ok (dict_set (KStr s) content meta_tags)
            | _ => Raise (TypeError ("unhashable type: '" +:+ type_name name +:+ "'"))
            end
          else Ok meta_tags) [] (metas soup) with
  | Ok tags => PDict tags
  | Raise _ => PDict []
  end.

(** [text.split()]: the maximal runs of characters that are not white
    space. [word] holds the run being read, last character first. *)
Fixpoint rev_string (acc s : string) : string :=
  match s with
  | EmptyString => acc
  | String c s' => rev_string (String c acc) s'
  end.

Fixpoint split_words (word : string) (s : string) : list string :=
  match s with
  | EmptyString =>
      match word with
      | EmptyString => []
      | _ => [rev_string EmptyString word]
      end
  | String c s' =>
      if is_space c then
        match word with
        | EmptyString => split_words EmptyString s'
        | _ => rev_string EmptyString word :: split_words EmptyString s'
        end
      else split_words (String c word) s'
  end.

(** [' '.join(words)] *)
Fixpoint join_words (words : list string) : string :=
  match words with
  | [] => EmptyString
  | [w] => w
  | w :: ws => w +:+ " " +:+ join_words ws
  end.

Definition _extract_text (soup : page) : pyval :=
  PStr (str_take 1000 (join_words (split_words EmptyString (text soup)))).

Definition failure (msg : string) : pyval :=
  obj [("success", PBool false); ("error", PStr msg)].

Definition is_http_error (status : Z) : bool :=
  (400 <=? status)%Z && (status <? 600)%Z.

(** [str(e)] of the [HTTPError] of [raise_for_status]. *)
Definition http_error_text (status : Z) (reason url : string) : string :=
  pretty status
  +:+ (if (status <? 500)%Z then " Client Error: " else " Server Error: ")
  +:+ reason +:+ " for url: " +:+ url.

Definition crawl_data (U : Urllib.lib) (url : string) (status : Z)
    (headers : list (string * string)) (len : nat) (soup : page) : pyval :=
  obj [("engine", PStr "beautifulsoup");
       ("url", PStr url);
       ("status_code", PInt status);
       ("title", _extract_title soup);
       ("links", BeautifulSoupCrawler._extract_links U (hrefs soup) url);
       ("forms", _extract_forms soup);
       ("inputs", _extract_inputs soup);
       ("headers", obj (prod_map id PStr <$> headers));
       ("page_size", PInt (Z.of_nat len));
       ("javascript_enabled", PBool false);
       ("meta_tags", _extract_meta_tags soup);
       ("text_content", _extract_text soup)].

(** [crawl(self, url)] with the server in state [st]: the result and the
    state the request leaves. [headers] lists [response.headers], each name
    once. *)
Definition crawl {St} (U : Urllib.lib) (S : session St) (st : St) (url : string)
  : pyval * St :=
  let '(r, st') := get S st url in
  (match r with
   | Response status reason headers len soup =>
       if is_http_error status then failure ("HTTP " +:+ pretty status)
       else obj [("success", PBool true);
                 ("data", crawl_data U url status headers len soup)]
   | ConnectionError _ => failure "Connection failed"
   | Timeout _ => failure "Request timeout"
   | RequestError msg => failure msg
   end, st').

(** [response.headers.get('Location')]: header names compare without case. *)
Fixpoint header_get (headers : list (string * string)) (k : string) : option string :=
  match headers with
  | [] => None
  | (k', v) :: headers' =>
      if String.eqb (lower k) (lower k') then Some v else header_get headers' k
  end.

(** The text of the exception a failed request raises, if it fails. *)
Definition request_failed (r : response) : option string :=
  match r with
  | Response _ _ _ _ _ => None
  | ConnectionError msg | Timeout msg | RequestError msg => Some msg
  end.

(** [{username_field: username, password_field: password}]: a second entry
    under the same field name replaces the value of the first. *)
Definition login_form (username_field password_field username password : string)
  : list (string * string) :=
  if String.eqb username_field password_field
  then [(password_field, password)]
  else [(username_field, username); (password_field, password)].

(** The target page of [crawl_with_login], fetched last. *)
Definition login_target (url login_url : string) (r : response) : pyval :=
  match r with
  | Response status reason _ len soup =>
      if is_http_error status then failure (http_error_text status reason url)
      else
        obj [("success", PBool true);
             ("data",
              obj [("engine", PStr "beautifulsoup");
                   ("authenticated", PBool true);
                   ("login_url", PStr login_url);
                   ("target_url", PStr url);
                   ("status_code", PInt status);
                   ("title", _extract_title soup);
                   ("forms", _extract_forms soup);
                   ("page_size", PInt (Z.of_nat len))])]
  | r => failure (from_option id "" (request_failed r))
  end.

Definition crawl_with_login {St} (S : session St) (st : St) (url login_url : string)
    (username_field password_field username password : string) : pyval * St :=
  let login_data := login_form username_field password_field username password in
  match post S st login_url login_data with
  | (Response status _ headers _ _, st1) =>
      let '(redirect, st2) :=
        if bool_decide (status ∈ [301; 302; 303]%Z) then
          match header_get headers "Location" with
          | Some redirect_url =>
              if String.eqb redirect_url "" then (None, st1)
              else let '(r2, st2) := get S st1 redirect_url in (request_failed r2, st2)
          | None => (None, st1)
          end
        else (None, st1) in
      match redirect with
      | Some msg => (failure msg, st2)
      | None => let '(r3, st3) := get S st2 url in (login_target url login_url r3, st3)
      end
  | (r, st1) => (failure (from_option id "" (request_failed r)), st1)
  end.

Definition sensitive_keywords : list string :=
  ["password"; "pin"; "secret"; "token"; "key";
   "credit"; "card"; "cvv"; "ssn"; "api"; "auth"].

(** The loop of [extract_sensitive_fields] over [soup.find_all('input')]. *)
Definition sensitive_inputs (inputs : list Dom.tag) : result (list pyval) :=
  let! found := mapM (fun inp =>
      let! name := py_lower (Dom.get inp "name" (PStr "")) in
      let! inp_type := py_lower (Dom.get inp "type" (PStr "")) in
      Ok (if existsb (fun kw => contains name kw || contains inp_type kw)
                     sensitive_keywords
          then [obj [("type", Dom.get inp "type" (PStr ""));
                     ("name", Dom.get inp "name" (PStr ""));
                     ("id", Dom.get inp "id" (PStr ""))]]
          else []))
    inputs in
  Ok (concat found).

Definition extract_sensitive_fields {St} (S : session St) (st : St) (url : string)
  : list pyval * St :=
  let '(r, st') := get S st url in
  (match r with
   | Response _ _ _ _ soup =>
       match sensitive_inputs (inputs soup) with
       | Ok fields => fields
       | Raise _ => []
       end
   | _ => []
   end, st').

End BeautifulSoupEngine.


Local Open Scope list_scope.

(** ** The terms of the specification *)

Module Terms.

Definition holds (c : result bool) : bool :=
  match c with Ok b => b | Raise _ => false end.

(** The value of [d.get(k, default)] on a dictionary. *)
Definition get_or (d : list (pykey * pyval)) (k : string) (default : pyval) : pyval :=
  from_option id default (dict_lookup (KStr k) d).

(** *** Enriched records *)

(** The entries of [crawl_data['inputs']]. *)
Definition inputs_of (crawl_data : pyval) : result (list pyval) :=
  let! inputs := py_get crawl_data "inputs" (PList []) in
  py_iter inputs.

(** [inp.get('type')] is the string [ty]. *)
Definition has_type (inp : pyval) (ty : string) : Prop :=
  py_get inp "type" PNone = Ok (PStr ty).

(** [inp.get(k, '')] is the string [s]. *)
Definition text_field (inp : pyval) (k s : string) : Prop :=
  py_get inp k (PStr "") = Ok (PStr s).

Definition text_like (inp : pyval) : bool :=
  holds (let! ty := py_get inp "type" PNone in
         Ok (in_strs ty DataProcessor.injectable_types)).

Definition name_of (inp : pyval) : pyval :=
  match py_get inp "name" (PStr "") with
  | Ok name => name
  | Raise _ => PNone
  end.

(** [kw] occurs in [s] up to the case of letters. *)
Definition occurs_nocase (kw s : string) : Prop :=
  ∃ pre mid post, s = pre +:+ mid +:+ post ∧ lower mid = lower kw.

Definition sensitive (inp : pyval) : bool := holds (DataProcessor.is_sensitive inp).

(** The keyword list as the specification gives it. *)
Definition listed_keywords : list string :=
  ["password"; "pin"; "secret"; "token"; "key"; "credit"; "card"; "cvv";
   "ssn"; "api"; "auth"].

(** The fields of the forms of a crawl result: [form['fields']] of each
    entry of [crawl_data['forms']]. *)
Definition form_fields_of (crawl_data : pyval) : list pyval :=
  match field crawl_data "forms" with
  | Some (PList forms) =>
      concat ((fun form => match field form "fields" with
                           | Some (PList fields) => fields
                           | _ => []
                           end) <$> forms)
  | _ => []
  end.

Definition succeeded (crawl_result : pyval) : Prop :=
  ∃ s, py_get crawl_result "success" PNone = Ok s ∧ truthy s = true.

(** A crawl record that carries its engine tag and none of the raw data. *)
Definition supplies_nothing (data : pyval) : Prop :=
  ∃ d, data = PDict d ∧ ∀ k, k ≠ "engine" → dict_lookup (KStr k) d = None.

(** The field set the specification gives for every engine. *)
Definition common_fields : list string :=
  ["status_code"; "total_links"; "internal_links"; "external_links";
   "forms_count"; "inputs_count"; "page_size_kb"; "javascript_enabled";
   "authenticated"; "redirected"].

Definition scrapy_fields : list string :=
  ["pages_crawled"; "total_links"; "total_forms"; "total_inputs";
   "structured_data"; "depth"; "pages"].

Definition beautifulsoup_fields : list string :=
  ["status_code"; "total_links"; "internal_links"; "external_links";
   "email_links"; "forms_count"; "inputs_count"; "page_size_kb";
   "has_javascript"].

Definition browser_fields : list string :=
  ["title"; "current_url"; "redirected"; "forms_count"; "inputs_count";
   "links_count"; "cookies_count"; "page_size_kb"; "javascript_enabled";
   "authenticated"].

(** The fields of the projection of an engine; [None] for an engine tag
    the processor does not know. *)
Definition fields_for (engine : pyval) : option (list string) :=
  if py_eqb engine (PStr "scrapy") then Some scrapy_fields
  else if py_eqb engine (PStr "beautifulsoup") then Some beautifulsoup_fields
  else if in_strs engine ["selenium"; "playwright"] then Some browser_fields
  else None.

Definition scrapy_defaults : pyval :=
  obj [("pages_crawled", PInt 0); ("total_links", PInt 0); ("total_forms", PInt 0);
       ("total_inputs", PInt 0); ("structured_data", PDict []); ("depth", PInt 1);
       ("pages", PList [])].

Definition beautifulsoup_defaults : pyval :=
  obj [("status_code", PInt 0); ("total_links", PInt 0); ("internal_links", PInt 0);
       ("external_links", PInt 0); ("email_links", PInt 0); ("forms_count", PInt 0);
       ("inputs_count", PInt 0); ("page_size_kb", PFloat 0);
       ("has_javascript", PBool false)].

Definition browser_defaults : pyval :=
  obj [("title", PStr ""); ("current_url", PStr ""); ("redirected", PBool false);
       ("forms_count", PInt 0); ("inputs_count", PInt 0); ("links_count", PInt 0);
       ("cookies_count", PInt 0); ("page_size_kb", PFloat 0);
       ("javascript_enabled", PBool false); ("authenticated", PBool false)].

(** What the projection is when the engine supplies nothing. *)
Definition defaults_for (engine data : pyval) : pyval :=
  if py_eqb engine (PStr "scrapy") then scrapy_defaults
  else if py_eqb engine (PStr "beautifulsoup") then beautifulsoup_defaults
  else if in_strs engine ["selenium"; "playwright"] then browser_defaults
  else data.


(** *** Network scans *)

(** The port-scan tool is absent: its presence check cannot start the
    program, or the program reports failure. *)
Definition nmap_absent (H : NetworkScanner.host) : Prop :=
  NetworkScanner.subprocess_run H ["nmap"; "-V"] = NetworkScanner.FileNotFoundError
  ∨ ∃ rc out err,
      NetworkScanner.subprocess_run H ["nmap"; "-V"]
      = NetworkScanner.Completed rc out err ∧ rc ≠ 0%Z.

(** [scan_results] before its summary is filled in. *)
Definition results_of (hostname : string) (ping dns trace nmap sock : pyval) : pyval :=
  obj [("hostname", PStr hostname); ("ping_results", ping);
       ("dns_results", dns); ("traceroute_results", trace);
       ("nmap_results", nmap); ("socket_info", sock);
       ("summary", PDict [])].

(** *** Links *)

(** The host a URL names, when it parses. *)
Definition host_of (U : Urllib.lib) (url : string) : option string :=
  match Urllib.urlparse U url with
  | Ok parsed => Some (Urllib.netloc parsed)
  | Raise _ => None
  end.


(** [h] goes to the internal or to the external bucket. *)
Definition counted (h : string) : Prop :=
  startswith h "mailto:" = false ∧ startswith h "javascript:" = false.



(** *** Probes *)

(** The command lines of the probes on the machine [H]. *)
Definition ping_command (H : NetworkScanner.host) (hostname : string) : list string :=
  if String.eqb (NetworkScanner.os_type H) "Windows"
  then ["ping"; "-n"; "4"; hostname] else ["ping"; "-c"; "4"; hostname].

Definition dns_command (H : NetworkScanner.host) (hostname : string) : list string :=
  if String.eqb (NetworkScanner.os_type H) "Windows"
  then ["nslookup"; hostname] else ["dig"; hostname; "+short"].

Definition traceroute_command (H : NetworkScanner.host) (hostname : string)
  : list string :=
  if String.eqb (NetworkScanner.os_type H) "Windows"
  then ["tracert"; hostname] else ["traceroute"; hostname].

(** The command ran and exited with status 0. *)
Definition exits_zero (p : NetworkScanner.process) : bool :=
  match p with
  | NetworkScanner.Completed rc _ _ => (rc =? 0)%Z
  | _ => false
  end.

(** *** Input categories *)

(** [inp.get('type', 'unknown').lower()], when it is defined. *)
Definition type_key (inp : pyval) : option string :=
  match (let! ty := py_get inp "type" (PStr "unknown") in py_lower ty) with
  | Ok s => Some s
  | Raise _ => None
  end.

(** How many of [items] fall under the category [ty]. *)
Definition of_type (ty : string) (items : list pyval) : nat :=
  length (filter (fun inp => type_key inp = Some ty) items).

(** [d.get(ty, 0)] as a number. *)
Definition count_in (d : list (pykey * pyval)) (ty : string) : Z :=
  match dict_lookup (KStr ty) d with
  | Some (PInt n) => n
  | _ => 0%Z
  end.

(** Every value of the dictionary is an integer. *)
Definition int_valued (d : list (pykey * pyval)) : Prop :=
  ∀ k, dict_lookup k d = None ∨ ∃ n, dict_lookup k d = Some (PInt n).

(** The sum of the counts of a dictionary. *)
Fixpoint dict_total (d : list (pykey * pyval)) : Z :=
  match d with
  | [] => 0%Z
  | (_, PInt n) :: d' => (n + dict_total d')%Z
  | _ :: d' => dict_total d'
  end.

(** *** Anchors *)





(** *** Input tags *)

(** The attribute [k] of a tag as text: empty when the tag has none. *)
Definition attr_text (t : Dom.tag) (k : string) : string :=
  match Dom.get t k (PStr "") with
  | PStr s => s
  | _ => ""
  end.

(** The attribute [k] of the tag, if it has one, is a single string. *)
Definition single_valued (t : Dom.tag) (k : string) : bool :=
  match Dom.get t k (PStr "") with
  | PStr _ => true
  | _ => false
  end.

(** An input whose [name] and [type] are single strings, as HTML has them. *)
Definition plain_input (t : Dom.tag) : bool :=
  single_valued t "name" && single_valued t "type".

(** The name or the type of the input contains a keyword of the
    middleware, whatever the case of the letters. *)
Definition flagged (t : Dom.tag) : bool :=
  DataProcessor.matches_keyword (lower (attr_text t "name")) (lower (attr_text t "type")).

(** The entry the sensitive-field listings of the crawlers give an input. *)
Definition brief_entry (t : Dom.tag) : pyval :=
  obj [("type", Dom.get t "type" (PStr ""));
       ("name", Dom.get t "name" (PStr ""));
       ("id", Dom.get t "id" (PStr ""))].

(** *** Crawl results *)

(** [r['data'][k]], when the result has it. *)
Definition data_field (r : pyval) (k : string) : option pyval :=
  match field r "data" with
  | Some data => field data k
  | None => None
  end.

(** A link the depth crawl takes from a page: not a mail address, a
    script or a fragment. *)
Definition is_crawlable (h : string) : bool :=
  negb (startswith h "mailto:" || startswith h "javascript:" || startswith h "#").

End Terms.

(** ** Pages, hosts and sites of the examples *)

Module Examples.

(** A page whose only form field is a text area named [secret_key]: the
    crawler lists a text area under its form, not under [inputs]. *)
Definition notes_field : pyval :=
  obj [("type", PStr "textarea"); ("name", PStr "secret_key");
       ("id", PStr ""); ("required", PBool false)].

Definition notes_page : pyval :=
  obj [("engine", PStr "beautifulsoup");
       ("url", PStr "http://example.com/notes");
       ("forms", PList [obj [("name", PStr ""); ("id", PStr "");
                             ("action", PStr "/save"); ("method", PStr "POST");
                             ("fields", PList [notes_field])]]);
       ("inputs", PList [])].

(** An input named [username] whose type is [password]. *)
Definition masked_username : pyval :=
  obj [("type", PStr "password"); ("name", PStr "username");
       ("id", PStr ""); ("value", PStr "")].

Definition password1 : pyval :=
  obj [("type", PStr "text"); ("name", PStr "Password1");
       ("id", PStr ""); ("value", PStr "")].

Definition login_page : pyval :=
  obj [("engine", PStr "beautifulsoup");
       ("url", PStr "http://example.com/login");
       ("forms", PList []);
       ("inputs", PList [masked_username;
                         password1;
                         obj [("type", PStr "checkbox"); ("name", PStr "remember");
                              ("id", PStr ""); ("value", PStr "")];
                         obj [("type", PStr "email"); ("name", PStr "contact");
                              ("id", PStr ""); ("value", PStr "")]])].

(** A successful crawl result with an engine tag and nothing else. *)
Definition bare (engine : string) : pyval :=
  obj [("success", PBool true); ("data", obj [("engine", PStr engine)])].

(** A host name with an AAAA record only, on a machine without nmap: ping
    answers over IPv6, the IPv4 lookup finds nothing. *)
Definition ipv6_only : NetworkScanner.host :=
  {| NetworkScanner.os_type := "Linux";
     NetworkScanner.subprocess_run := fun cmd =>
       match cmd with
       | "ping" :: _ =>
           NetworkScanner.Completed 0
             "64 bytes from 2001:db8::1: icmp_seq=1 ttl=57 time=12.3 ms" ""
       | _ => NetworkScanner.FileNotFoundError
       end;
     NetworkScanner.gethostbyname := fun _ => NetworkScanner.Gaierror;
     NetworkScanner.getaddrinfo_inet6 := fun _ => NetworkScanner.Resolved ["2001:db8::1"];
     NetworkScanner.gethostbyname_ex := fun _ => NetworkScanner.Gaierror;
     NetworkScanner.re_findall := fun _ _ => ["12.3"] |}.


Definition plain_page (title : string) (hrefs : list string) : Dom.soup :=
  {| Dom.title := Some (PStr title);
     Dom.hrefs := hrefs;
     Dom.forms := [];
     Dom.inputs := [];
     Dom.headings := [1; 0; 0; 0; 0; 0];
     Dom.metas := [];
     Dom.text := title;
     Dom.json_ld := [] |}.

Definition shop : string := "http://example.com/".

(** The home page of the shop links to eight pages of its own host, the
    first of them the home page itself. *)
Definition shop_links : list string :=
  [shop; "http://example.com/about"; "http://example.com/blog";
   "http://example.com/docs"; "http://example.com/pricing";
   "http://example.com/contact"; "http://example.com/team";
   "http://example.com/jobs"].

Definition shop_web : ScrapyEngine.web :=
  {| ScrapyEngine.get := fun url =>
       if bool_decide (url = shop)
       then ScrapyEngine.Response 200 "OK" (plain_page "Shop" shop_links)
       else if bool_decide (url ∈ shop_links)
       then ScrapyEngine.Response 200 "OK" (plain_page "Page" [])
       else ScrapyEngine.RequestException "Connection refused" |}.

Definition blog : string := "http://blog.example.org/".

Definition blog_links : list string :=
  ["http://blog.example.org/2024"; "http://blog.example.org/2025";
   "http://blog.example.org/feed"].

Definition blog_web : ScrapyEngine.web :=
  {| ScrapyEngine.get := fun url =>
       if bool_decide (url = blog)
       then ScrapyEngine.Response 200 "OK" (plain_page "Blog" blog_links)
       else if bool_decide (url ∈ blog_links)
       then ScrapyEngine.Response 200 "OK" (plain_page "Post" [])
       else ScrapyEngine.RequestException "Connection refused" |}.

(** [ScrapyEngine()] before any request. *)
Definition fresh : ScrapyEngine.state :=
  {| ScrapyEngine.self := ScrapyEngine.__init__ 10 3; ScrapyEngine.fetched := [] |}.

(** A successful crawl of the login page. *)
Definition login_crawl : pyval :=
  obj [("success", PBool true); ("data", login_page)].

(** The record of a scan whose nmap output lists three open ports, one of
    them twice and out of order. *)
Definition nmap_report : pyval :=
  obj [("nmap_results",
        obj [("success", PBool true);
             ("open_ports", PStrs ["443/tcp open https"; "80/tcp open http";
                                   "8080/tcp open http-proxy"; "80/tcp open http"])])].

(** Input tags: a password field, a card number field, a search box. *)
Definition password_tag : Dom.tag :=
  {| Dom.attrs := [("type", Dom.Single "password"); ("name", Dom.Single "pw")] |}.

Definition card_tag : Dom.tag :=
  {| Dom.attrs := [("name", Dom.Single "Credit_Card"); ("class", Dom.Multi ["wide"])] |}.

Definition search_tag : Dom.tag :=
  {| Dom.attrs := [("type", Dom.Single "search"); ("name", Dom.Single "q")] |}.

(** A checkout page with the three inputs, two links and a mail address. *)
Definition checkout_page : BeautifulSoupEngine.page :=
  {| BeautifulSoupEngine.title := Some (PStr "Checkout");
     BeautifulSoupEngine.hrefs := ["/cart"; "http://pay.example.net/"; "mailto:help@example.com"];
     BeautifulSoupEngine.forms :=
       [{| BeautifulSoupEngine.form_tag :=
             {| Dom.attrs := [("action", Dom.Single "/pay"); ("method", Dom.Single "post")] |};
           BeautifulSoupEngine.form_inputs := [password_tag; card_tag];
           BeautifulSoupEngine.form_textareas := [] |}];
     BeautifulSoupEngine.inputs := [password_tag; card_tag; search_tag];
     BeautifulSoupEngine.metas := [];
     BeautifulSoupEngine.text := "Pay   now" |}.

(** A server that answers every request with the checkout page; its state
    counts the requests. *)
Definition checkout_server : BeautifulSoupEngine.session nat :=
  {| BeautifulSoupEngine.get := fun n _ =>
       (BeautifulSoupEngine.Response 200 "OK" [("Content-Type", "text/html")] 2048
          checkout_page, S n);
     BeautifulSoupEngine.post := fun n _ _ =>
       (BeautifulSoupEngine.Response 401 "Unauthorized" [] 0 checkout_page, S n) |}.

(** A page with a password field and a card number field. *)
Definition payment_form : Dom.soup :=
  {| Dom.title := Some (PStr "Pay");
     Dom.hrefs := ["/terms"; "#top"; "ftp://files.example.com/x"; "mailto:a@example.com"];
     Dom.forms := [];
     Dom.inputs := [password_tag; card_tag];
     Dom.headings := [0; 0; 0; 0; 0; 0];
     Dom.metas := [];
     Dom.text := "Pay";
     Dom.json_ld := [] |}.

End Examples.

Import Terms Examples.

(** * Properties *)

(** ** The error monad, strings and sets *)

Module Facts.

Lemma bind_ok {A B} (c : result A) (k : A → result B) (b : B) :
  bind c k = Ok b → ∃ a, c = Ok a ∧ k a = Ok b.
Proof. destruct c as [a|e]; simpl; [eauto | discriminate]. Qed.

Ltac inv_bind H :=
  let a := fresh "a" in
  let E := fresh "E" in
  apply bind_ok in H as (a & E & H).

Lemma py_eqb_str (x : pyval) (s : string) : py_eqb x (PStr s) = true ↔ x = PStr s.
Proof.
  destruct x; simpl; split; intros H; try discriminate; try congruence.
  all: try (inversion H; subst; by apply String.eqb_eq).
  all: try (apply String.eqb_eq in H; congruence).
Qed.

Lemma in_strs_spec (x : pyval) (l : list string) :
  in_strs x l = true ↔ ∃ s, x = PStr s ∧ s ∈ l.
Proof.
  unfold in_strs. rewrite existsb_exists. split.
  - intros (s & Hin & Heq). apply py_eqb_str in Heq.
    exists s. split; [done | by apply list_elem_of_In].
  - intros (s & -> & Hin). exists s. split; [by apply list_elem_of_In |].
    by apply py_eqb_str.
Qed.

Lemma filterM_ok {A} (p : A → result bool) (xs r : list A) :
  filterM p xs = Ok r →
  Forall (fun x => is_ok (p x) = true) xs ∧ r = filter (fun x => holds (p x)) xs.
Proof.
  revert r. induction xs as [|x xs IH]; simpl; intros r H.
  - inversion H. split; [constructor | done].
  - inv_bind H. inv_bind H. inversion H; subst; clear H.
    destruct (IH _ E0) as [Hall ->]. split.
    + constructor; [by rewrite E | done].
    + rewrite filter_cons. destruct (decide _) as [Hd|Hd]; rewrite E in Hd;
        destruct a; simpl in Hd; first [done | by destruct Hd].
Qed.

Lemma mapM_ok {A B} (f : A → result B) (xs : list A) (ys : list B) :
  mapM f xs = Ok ys → Forall2 (fun x y => f x = Ok y) xs ys.
Proof.
  revert ys. induction xs as [|x xs IH]; simpl; intros ys H.
  - inversion H. constructor.
  - inv_bind H. inv_bind H. inversion H; subst. constructor; auto.
Qed.

Ltac binds H :=
  repeat (let a := fresh "v" in let E := fresh "E" in
          apply bind_ok in H as (a & E & H)).


Lemma prefix_spec (p s : string) :
  String.prefix p s = true ↔ ∃ post, s = p +:+ post.
Proof.
  revert s. induction p as [|c p IH]; intros s.
  - destruct s; simpl; (split; [intros _; eexists; reflexivity | done]).
  - destruct s as [|c' s]; simpl.
    + split; [done | intros [post H]; discriminate].
    + destruct (Ascii.ascii_dec c c') as [->|Hne].
      * rewrite IH. split; intros [post H]; exists post.
        -- by rewrite H.
        -- by inversion H.
      * split; [done | intros [post H]; inversion H; congruence].
Qed.

Lemma contains_spec (s kw : string) :
  contains s kw = true ↔ ∃ pre post, s = pre +:+ kw +:+ post.
Proof.
  induction s as [|c s IH].
  - change (contains "" kw) with (String.prefix kw "" || false).
    rewrite orb_true_iff, prefix_spec. split.
    + intros [[post H]|H]; [by exists "", post | done].
    + intros (pre & post & H). left. destruct pre; [by exists post | discriminate].
  - change (contains (String c s) kw)
      with (String.prefix kw (String c s) || contains s kw).
    rewrite orb_true_iff, prefix_spec, IH. split.
    + intros [[post H]|(pre & post & H)].
      * by exists "", post.
      * exists (String c pre), post. simpl. by rewrite H.
    + intros (pre & post & H). destruct pre as [|c' pre]; simpl in H.
      * left. by exists post.
      * right. inversion H. by exists pre, post.
Qed.

Lemma lower_app (a b : string) : lower (a +:+ b) = lower a +:+ lower b.
Proof. induction a as [|c a IH]; simpl; [done | by rewrite IH]. Qed.

Lemma lower_split (s a b : string) :
  lower s = a +:+ b → ∃ a' b', s = a' +:+ b' ∧ lower a' = a ∧ lower b' = b.
Proof.
  revert s. induction a as [|c a IH]; intros s H; simpl in H.
  - by exists "", s.
  - destruct s as [|c' s]; [discriminate |]. simpl in H. inversion H as [[Hc Hs]].
    destruct (IH _ Hs) as (a' & b' & -> & Ha & Hb).
    exists (String c' a'), b'. simpl. by rewrite Ha.
Qed.

(** [kw in s.lower()], for a keyword in lower case, is an occurrence of
    [kw] in [s] up to case. *)
Lemma contains_lower (s kw : string) :
  lower kw = kw → contains (lower s) kw = true ↔ occurs_nocase kw s.
Proof.
  intros Hkw. rewrite contains_spec. unfold occurs_nocase. split.
  - intros (pre & post & H).
    apply lower_split in H as (pre' & rest & -> & _ & H).
    apply lower_split in H as (mid & post' & -> & Hmid & _).
    exists pre', mid, post'. by rewrite Hkw.
  - intros (pre & mid & post & -> & Hmid).
    exists (lower pre), (lower post). rewrite !lower_app. congruence.
Qed.






End Facts.

Import Facts.

(** ** middleware.py *)

Module DataProcessorSpec.
Import DataProcessor.
#[local] Arguments in_strs : simpl never.

Lemma injectable_name_spec (inp : pyval) (names : list pyval) :
  injectable_name inp = Ok names →
  names = if text_like inp then [name_of inp] else [].
Proof.
  unfold injectable_name, text_like, name_of. intros H.
  inv_bind H. rewrite E. simpl. revert H.
  destruct (in_strs a injectable_types); simpl; intros H.
  - apply bind_ok in H as (nm & Enm & H). rewrite Enm. by inversion H.
  - by inversion H.
Qed.

Lemma injectable_names_concat (items : list pyval) (names : list (list pyval)) :
  Forall2 (fun x y => injectable_name x = Ok y) items names →
  concat names = name_of <$> filter text_like items.
Proof.
  induction 1 as [|x y xs ys Hx _ IH]; [done |].
  simpl. rewrite IH, filter_cons. apply injectable_name_spec in Hx as ->.
  destruct (decide _) as [Hd|Hd]; destruct (text_like x); simpl in *;
    first [done | by destruct Hd].
Qed.

Lemma text_like_spec (inp : pyval) :
  text_like inp = true ↔ ∃ ty, has_type inp ty ∧ ty ∈ injectable_types.
Proof.
  unfold text_like, has_type. destruct (py_get inp "type" PNone) as [v|e]; simpl.
  - rewrite in_strs_spec. split.
    + intros (s & -> & Hs). eauto.
    + intros (ty & Heq & Hty). inversion Heq. eauto.
  - split; [discriminate | intros (ty & Heq & _); discriminate].
Qed.

(** C7: [injectable_parameters] holds, in order, the name of each input whose
    [type] is one of text, email, number, search, url, and nothing else; an
    input typed checkbox, hidden or submit contributes no entry. *)
Theorem injectable_parameters_text_like (crawl_data network_data v : pyval) :
  _prepare_for_vulnerability_scan crawl_data network_data = Ok v →
  ∃ items,
    inputs_of crawl_data = Ok items
    ∧ field v "injectable_parameters"
      = Some (PList (name_of <$> filter text_like items))
    ∧ (∀ inp, inp ∈ items →
         inp ∈ filter text_like items
         ↔ ∃ ty, has_type inp ty ∧ ty ∈ ["text"; "email"; "number"; "search"; "url"])
    ∧ (∀ inp ty, inp ∈ items → has_type inp ty →
         ty ∈ ["checkbox"; "hidden"; "submit"] → inp ∉ filter text_like items).
Proof.
  unfold _prepare_for_vulnerability_scan. intros H.
  do 7 inv_bind H. unfold injectable_parameters in E5.
  inv_bind H. inversion H; subst; clear H.
  unfold injectable_parameters in E6. do 3 inv_bind E6. inversion E6; subst; clear E6.
  exists a8. split; [unfold inputs_of; by rewrite E7 |]. split.
  - simpl. f_equal. f_equal. apply injectable_names_concat. by apply mapM_ok.
  - split.
    + intros inp Hin. rewrite list_elem_of_filter, <- text_like_spec.
      split; [intros [Hl _]; by apply Is_true_true
             | intros Hl; split; [by apply Is_true_true | done]].
    + intros inp ty Hin Hty Hbad [Hlike _]%list_elem_of_filter.
      apply Is_true_true, text_like_spec in Hlike as (ty' & Hty' & Hok).
      unfold has_type in *. rewrite Hty in Hty'. inversion Hty'; subst ty'.
      revert Hbad Hok. unfold injectable_types.
      rewrite !elem_of_cons, !elem_of_nil. intuition congruence.
Qed.

Lemma injectable_parameters_text_like_witness :
  ∃ v,
    _prepare_for_vulnerability_scan login_page PNone = Ok v
    ∧ ∃ items,
        inputs_of login_page = Ok items
        ∧ field v "injectable_parameters"
          = Some (PList (name_of <$> filter text_like items))
        ∧ (∀ inp, inp ∈ items →
             inp ∈ filter text_like items
             ↔ ∃ ty, has_type inp ty
                     ∧ ty ∈ ["text"; "email"; "number"; "search"; "url"])
        ∧ (∀ inp ty, inp ∈ items → has_type inp ty →
             ty ∈ ["checkbox"; "hidden"; "submit"] → inp ∉ filter text_like items).
Proof.
  eexists. split; [reflexivity |].
  apply (injectable_parameters_text_like login_page PNone). reflexivity.
Defined.

Lemma keywords_same (kw : string) : kw ∈ sensitive_keywords ↔ kw ∈ listed_keywords.
Proof.
  unfold sensitive_keywords, listed_keywords.
  rewrite !elem_of_cons, !elem_of_nil. tauto.
Qed.

Lemma keywords_lower (kw : string) : kw ∈ sensitive_keywords → lower kw = kw.
Proof.
  unfold sensitive_keywords. rewrite !elem_of_cons, !elem_of_nil.
  intros H. repeat (destruct H as [->|H]; [reflexivity |]). done.
Qed.

Lemma matches_keyword_spec (name ty : string) :
  matches_keyword (lower name) (lower ty) = true
  ↔ ∃ kw, kw ∈ listed_keywords ∧ (occurs_nocase kw name ∨ occurs_nocase kw ty).
Proof.
  unfold matches_keyword. rewrite existsb_exists. split.
  - intros (kw & Hin%list_elem_of_In & H). exists kw.
    split; [by apply keywords_same |].
    apply orb_true_iff in H.
    rewrite !contains_lower in H by by apply keywords_lower. done.
  - intros (kw & Hin%keywords_same & H). exists kw.
    split; [by apply list_elem_of_In |]. apply orb_true_iff.
    rewrite !contains_lower by by apply keywords_lower. done.
Qed.

Lemma is_sensitive_ok (inp : pyval) (b : bool) :
  is_sensitive inp = Ok b →
  ∃ name ty, text_field inp "name" name ∧ text_field inp "type" ty
             ∧ b = matches_keyword (lower name) (lower ty).
Proof.
  unfold is_sensitive, text_field. intros H.
  apply bind_ok in H as (n & En & H). apply bind_ok in H as (name & Ename & H).
  apply bind_ok in H as (t & Et & H). apply bind_ok in H as (ty & Ety & H).
  destruct n; try discriminate. destruct t; try discriminate.
  exists s, s0. inversion Ename; inversion Ety; inversion H; subst. done.
Qed.


Lemma username_no_keyword (kw : string) :
  kw ∈ listed_keywords → ¬ occurs_nocase kw "username".
Proof.
  intros Hin%keywords_same Hocc.
  apply contains_lower in Hocc; [| by apply keywords_lower].
  revert Hin Hocc. unfold sensitive_keywords.
  rewrite !elem_of_cons, !elem_of_nil. intros H.
  repeat (destruct H as [->|H]; [vm_compute; discriminate |]). done.
Qed.

(** C2, amended: sensitive-field detection scans the entries of [inputs]
    (form fields are not scanned) and returns, in order, exactly those whose
    name or type contains one of the listed keywords up to case; an input
    named Password1 or typed password is included, and an input named
    username is included only when its type contains a keyword. *)
Theorem sensitive_fields_of_inputs (crawl_data : pyval) (r : list pyval) :
  _identify_sensitive_fields crawl_data = Ok r →
  ∃ items,
    inputs_of crawl_data = Ok items
    ∧ r = filter sensitive items
    ∧ ∀ inp, inp ∈ items →
        ∃ name ty,
          text_field inp "name" name ∧ text_field inp "type" ty
          ∧ (inp ∈ r ↔ ∃ kw, kw ∈ listed_keywords
                             ∧ (occurs_nocase kw name ∨ occurs_nocase kw ty))
          ∧ (name = "Password1" ∨ ty = "password" → inp ∈ r)
          ∧ (name = "username" →
             (inp ∈ r ↔ ∃ kw, kw ∈ listed_keywords ∧ occurs_nocase kw ty)).
Proof.
  unfold _identify_sensitive_fields. intros H.
  apply bind_ok in H as (inputs & Ei & H). apply bind_ok in H as (items & Eit & H).
  apply filterM_ok in H as [Hall ->].
  exists items. split; [unfold inputs_of; by rewrite Ei |]. split; [done |].
  intros inp Hin. rewrite Forall_forall in Hall. specialize (Hall inp Hin).
  destruct (is_sensitive inp) as [b|e] eqn:Eb; [clear Hall | discriminate].
  destruct (is_sensitive_ok _ _ Eb) as (name & ty & Hn & Ht & ->).
  exists name, ty. split; [done |]. split; [done |].
  assert (Hmem : inp ∈ filter sensitive items
                 ↔ matches_keyword (lower name) (lower ty) = true).
  { rewrite list_elem_of_filter. unfold sensitive. rewrite Eb. simpl.
    rewrite Is_true_true. tauto. }
  rewrite Hmem, matches_keyword_spec. split; [done |]. split.
  - intros [->| ->].
    + exists "password". split; [repeat constructor |]. left. by exists "", "Password", "1".
    + exists "password". split; [repeat constructor |]. right. by exists "", "password", "".
  - intros ->. split.
    + intros (kw & Hkw & [Hocc|Hocc]); [by apply username_no_keyword in Hocc | eauto].
    + intros (kw & Hkw & Hocc). eauto.
Qed.

Lemma sensitive_fields_of_inputs_witness :
  ∃ items,
    inputs_of login_page = Ok items
    ∧ [masked_username; password1] = filter sensitive items
    ∧ ∀ inp, inp ∈ items →
        ∃ name ty,
          text_field inp "name" name ∧ text_field inp "type" ty
          ∧ (inp ∈ [masked_username; password1]
             ↔ ∃ kw, kw ∈ listed_keywords
                     ∧ (occurs_nocase kw name ∨ occurs_nocase kw ty))
          ∧ (name = "Password1" ∨ ty = "password" →
             inp ∈ [masked_username; password1])
          ∧ (name = "username" →
             (inp ∈ [masked_username; password1]
              ↔ ∃ kw, kw ∈ listed_keywords ∧ occurs_nocase kw ty)).
Proof. apply (sensitive_fields_of_inputs login_page). reflexivity. Defined.

(** C2 as stated fails: a form field whose name contains a keyword is not
    returned, and an input named username is returned when its type is
    password. *)
Lemma sensitive_fields_as_stated_fail :
  ¬ (∀ crawl_data r f,
       _identify_sensitive_fields crawl_data = Ok r →
       f ∈ form_fields_of crawl_data →
       (∃ name kw, text_field f "name" name ∧ kw ∈ listed_keywords
                   ∧ occurs_nocase kw name) →
       f ∈ r)
  ∧ ¬ (∀ crawl_data r inp,
         _identify_sensitive_fields crawl_data = Ok r →
         text_field inp "name" "username" → inp ∉ r).
Proof.
  split.
  - intros H. specialize (H notes_page [] notes_field eq_refl).
    eapply elem_of_nil, H.
    + vm_compute. repeat constructor.
    + exists "secret_key", "secret". split; [reflexivity |]. split; [repeat constructor |].
      by exists "", "secret", "_key".
  - intros H.
    apply (H login_page _ masked_username eq_refl); [reflexivity |].
    vm_compute. repeat constructor.
Qed.

Lemma scrapy_keys (data v : pyval) :
  _process_scrapy_data data = Ok v → keys_of v = Some (KStr <$> scrapy_fields).
Proof. unfold _process_scrapy_data. intros H. binds H. by inversion H. Qed.

Lemma beautifulsoup_keys (data v : pyval) :
  _process_beautifulsoup_data data = Ok v →
  keys_of v = Some (KStr <$> beautifulsoup_fields).
Proof. unfold _process_beautifulsoup_data. intros H. binds H. by inversion H. Qed.

Lemma browser_keys (data v : pyval) :
  _process_browser_data data = Ok v → keys_of v = Some (KStr <$> browser_fields).
Proof. unfold _process_browser_data. intros H. binds H. by inversion H. Qed.

Lemma projection_keys (data engine v : pyval) :
  _process_engine_data data engine = Ok v →
  match fields_for engine with
  | Some fields => keys_of v = Some (KStr <$> fields)
  | None => v = data
  end.
Proof.
  unfold _process_engine_data, fields_for.
  destruct (py_eqb engine (PStr "scrapy")); [apply scrapy_keys |].
  destruct (py_eqb engine (PStr "beautifulsoup")); [apply beautifulsoup_keys |].
  destruct (in_strs engine ["selenium"; "playwright"]); [apply browser_keys |].
  congruence.
Qed.

Lemma get_missing (d : list (pykey * pyval)) (k : string) (default : pyval) :
  (∀ k, k ≠ "engine" → dict_lookup (KStr k) d = None) → k ≠ "engine" →
  py_get (PDict d) k default = Ok default.
Proof. intros H Hk. unfold py_get, py_get_key. by rewrite H. Qed.

Lemma projection_defaults (data engine : pyval) :
  supplies_nothing data →
  _process_engine_data data engine = Ok (defaults_for engine data).
Proof.
  intros (d & -> & Hd). unfold _process_engine_data, defaults_for.
  destruct (py_eqb engine (PStr "scrapy")).
  { unfold _process_scrapy_data, len_of.
    rewrite !(get_missing d) by done. reflexivity. }
  destruct (py_eqb engine (PStr "beautifulsoup")).
  { unfold _process_beautifulsoup_data, len_of.
    rewrite !(get_missing d) by done. reflexivity. }
  destruct (in_strs engine ["selenium"; "playwright"]); [| done].
  unfold _process_browser_data, len_of.
  rewrite !(get_missing d) by done. reflexivity.
Qed.

Lemma page_size_kb_spec (data engine v : pyval) (n : Z) (fields : list string) :
  _process_engine_data data engine = Ok v →
  fields_for engine = Some fields → "page_size_kb" ∈ fields →
  py_get data "page_size" (PInt 0) = Ok (PInt n) →
  field v "page_size_kb" = Some (PFloat (Qred (inject_Z n / 1024))).
Proof.
  unfold _process_engine_data, fields_for.
  destruct (py_eqb engine (PStr "scrapy")).
  { intros _ [= <-] Hin. exfalso. revert Hin. unfold scrapy_fields.
    rewrite !elem_of_cons, elem_of_nil. intuition discriminate. }
  destruct (py_eqb engine (PStr "beautifulsoup")).
  { intros H _ _ Hn. unfold _process_beautifulsoup_data in H. binds H.
    rewrite Hn in E7. inversion E7; subst. inversion E8; subst.
    by inversion H. }
  destruct (in_strs engine ["selenium"; "playwright"]); [| discriminate].
  intros H _ _ Hn. unfold _process_browser_data in H. binds H.
  rewrite Hn in E7. inversion E7; subst. inversion E8; subst.
  by inversion H.
Qed.

Lemma process_body_crawl_data (crawl_result network_data processed : pyval) :
  process_body crawl_result network_data = Ok processed →
  succeeded crawl_result →
  ∃ data engine projection,
    py_get crawl_result "data" (PDict []) = Ok data
    ∧ py_get data "engine" (PStr "unknown") = Ok engine
    ∧ _process_engine_data data engine = Ok projection
    ∧ field processed "crawl_data" = Some projection.
Proof.
  unfold process_body. intros H (s & Hs & Ht).
  rewrite Hs in H. simpl in H. rewrite Ht in H. simpl in H.
  binds H. inversion H; subst. eauto 10.
Qed.

(** C4, amended: the projection of a successful crawl result has a field
    set fixed by the engine tag, not one set common to all engines; a
    result with an unknown tag is passed through as it is. Within the set
    of its engine no field is omitted: an engine that supplies none of the
    raw data yields the defaults (0, false, empty; [depth] 1), and
    [page_size_kb], where the set has it, is the byte count over 1024. *)
Theorem normalized_projection_per_engine
    (crawl_result network_data processed : pyval) :
  process_body crawl_result network_data = Ok processed →
  succeeded crawl_result →
  ∃ data engine projection,
    py_get crawl_result "data" (PDict []) = Ok data
    ∧ py_get data "engine" (PStr "unknown") = Ok engine
    ∧ field processed "crawl_data" = Some projection
    ∧ match fields_for engine with
      | Some fields => keys_of projection = Some (KStr <$> fields)
      | None => projection = data
      end
    ∧ (supplies_nothing data → projection = defaults_for engine data)
    ∧ (∀ fields n, fields_for engine = Some fields → "page_size_kb" ∈ fields →
         py_get data "page_size" (PInt 0) = Ok (PInt n) →
         field projection "page_size_kb"
         = Some (PFloat (Qred (inject_Z n / 1024)))).
Proof.
  intros H Hs.
  destruct (process_body_crawl_data _ _ _ H Hs) as (data & engine & proj & Hd & He & Hp & Hf).
  exists data, engine, proj. repeat split; try done.
  - by apply projection_keys.
  - intros Hn. apply (projection_defaults data engine) in Hn. congruence.
  - intros fields n Hfs Hin Hn. by eapply page_size_kb_spec.
Qed.


Lemma normalized_projection_per_engine_witness :
  ∃ processed,
    process_body (bare "beautifulsoup") PNone = Ok processed
    ∧ succeeded (bare "beautifulsoup")
    ∧ ∃ data engine projection,
        py_get (bare "beautifulsoup") "data" (PDict []) = Ok data
        ∧ py_get data "engine" (PStr "unknown") = Ok engine
        ∧ field processed "crawl_data" = Some projection
        ∧ match fields_for engine with
          | Some fields => keys_of projection = Some (KStr <$> fields)
          | None => projection = data
          end
        ∧ (supplies_nothing data → projection = defaults_for engine data)
        ∧ (∀ fields n, fields_for engine = Some fields → "page_size_kb" ∈ fields →
             py_get data "page_size" (PInt 0) = Ok (PInt n) →
             field projection "page_size_kb"
             = Some (PFloat (Qred (inject_Z n / 1024)))).
Proof.
  assert (Hs : succeeded (bare "beautifulsoup")) by (exists (PBool true); by split).
  eexists. split; [reflexivity |]. split; [exact Hs |].
  apply (normalized_projection_per_engine (bare "beautifulsoup") PNone);
    [reflexivity | exact Hs].
Defined.

(** C4 as stated fails: the projection of a successful scrapy result has
    no [status_code] (nor any of the common fields but [total_links]). *)
Lemma normalized_projection_not_common :
  ¬ (∀ crawl_result network_data processed,
       process_body crawl_result network_data = Ok processed →
       succeeded crawl_result →
       ∃ projection,
         field processed "crawl_data" = Some projection
         ∧ ∀ k, k ∈ common_fields → is_Some (field projection k)).
Proof.
  intros H.
  destruct (H (bare "scrapy") PNone _ eq_refl) as (projection & Hp & Hk).
  { exists (PBool true). by split. }
  inversion Hp; subst projection.
  destruct (Hk "status_code") as [v Hv]; [repeat constructor |].
  discriminate Hv.
Qed.



End DataProcessorSpec.

(** ** network_scanner.py *)

Module NetworkScannerSpec.
Import NetworkScanner.
#[local] Arguments service_of : simpl never.

Lemma generate_summary_dicts (hostname : string)
    (ping dns trace : list (pykey * pyval)) (nmap sock : pyval) (l4 l6 : list pyval)
    (ports : list Z) :
  get_or dns "ipv4_addresses" (PList []) = PList l4 →
  get_or dns "ipv6_addresses" (PList []) = PList l6 →
  _extract_open_ports
    (results_of hostname (PDict ping) (PDict dns) (PDict trace) nmap sock) = Ok ports →
  _generate_summary
    (results_of hostname (PDict ping) (PDict dns) (PDict trace) nmap sock)
  = Ok (obj [("target_info",
              obj [("hostname", PStr hostname);
                   ("reachable", get_or ping "host_reachable" (PBool false));
                   ("ip_addresses", PList (l4 ++ l6))]);
             ("open_ports", PList (PInt <$> ports));
             ("services",
              PDict ((fun port => (KInt port, PStr (service_of port))) <$> ports));
             ("hop_count", get_or trace "total_hops" (PInt 0));
             ("network_accessible",
              PBool (truthy (py_and (get_or ping "host_reachable" PNone)
                                    (get_or dns "ipv4_addresses" PNone))))]).
Proof.
  intros H4 H6 Hports. unfold _generate_summary, _map_services.
  rewrite Hports. unfold get_or in *. cbn. rewrite H4, H6. cbn.
  unfold py_and. by destruct (truthy _).
Qed.

Section Probes.
Context (H : host) (hostname : string).

Lemma ping_host_dict : ∃ d, _ping_host H hostname = PDict d.
Proof.
  unfold _ping_host. destruct (subprocess_run H _) as [rc out err| | |msg];
    [destruct (rc =? 0)%Z |..]; eexists; reflexivity.
Qed.

Lemma traceroute_dict : ∃ d, _traceroute H hostname = PDict d.
Proof.
  unfold _traceroute. destruct (subprocess_run H _) as [rc out err| | |msg];
    [destruct (rc =? 0)%Z |..]; eexists; reflexivity.
Qed.

Lemma nslookup_lists :
  ∃ d l4 l6, _nslookup H hostname = PDict d
             ∧ get_or d "ipv4_addresses" (PList []) = PList l4
             ∧ get_or d "ipv6_addresses" (PList []) = PList l6.
Proof.
  unfold _nslookup.
  destruct (gethostbyname H hostname) as [a| |msg];
    (destruct (getaddrinfo_inet6 H hostname) as [infos| |msg']);
    try (destruct (subprocess_run H _) as [rc out err| | |msg''];
         [destruct (rc =? 0)%Z |..]);
    do 3 eexists; (split; [reflexivity | split; reflexivity]).
Qed.

Lemma nmap_scan_absent :
  nmap_absent H →
  ∃ rest, _nmap_scan H hostname
          = obj ([("success", PBool false); ("error", PStr "nmap not installed")]
                 ++ rest).
Proof.
  unfold _nmap_scan. intros [-> | (rc & out & err & -> & Hrc)].
  - eexists [_]. reflexivity.
  - apply Z.eqb_neq in Hrc. rewrite Hrc. eexists [_]. reflexivity.
Qed.

End Probes.

Lemma search_lines (lines : list string) :
  mapM (fun line => match line with
                    | PStr s => Ok (search_port None s)
                    | _ => Raise (TypeError "expected string or bytes-like object")
                    end) (PStr <$> lines)
  = Ok (search_port None <$> lines).
Proof.
  induction lines as [|l lines IH]; [done |].
  rewrite fmap_cons. cbn [mapM bind]. by rewrite IH.
Qed.

(** The port list is there whatever the port scan did. *)
Lemma extract_open_ports_total (H : host) (hostname : string)
    (ping dns trace sock : pyval) :
  ∃ ports, _extract_open_ports
             (results_of hostname ping dns trace (_nmap_scan H hostname) sock)
           = Ok ports.
Proof.
  unfold _nmap_scan.
  destruct (subprocess_run H ["nmap"; "-V"]) as [rc out err| | |msg];
    try (eexists; reflexivity).
  destruct (rc =? 0)%Z; simpl; [| eexists; reflexivity].
  destruct (subprocess_run H _) as [rc' out' err'| | |msg'];
    try (eexists; reflexivity).
  destruct (rc' =? 0)%Z; [| eexists; reflexivity].
  unfold _extract_open_ports, results_of. cbn.
  destruct (bool_decide _); cbn; [eexists; reflexivity |].
  unfold PStrs. rewrite search_lines. eexists; reflexivity.
Qed.

Lemma extract_open_ports_failed (hostname : string) (ping dns trace sock : pyval)
    (rest : list (string * pyval)) :
  _extract_open_ports
    (results_of hostname ping dns trace
       (obj ([("success", PBool false); ("error", PStr "nmap not installed")] ++ rest))
       sock) = Ok [].
Proof. reflexivity. Qed.

(** C8: with the port-scan tool absent, the port-scan probe returns the
    value [success=False, error='nmap not installed'], the other probes are
    run and reported, and the scan returns a summary whose [open_ports] is
    [[]] and [services] is [{}]. *)
Theorem scan_without_nmap (U : Urllib.lib) (H : host) (url hostname : string) :
  _extract_hostname U url = Ok hostname →
  nmap_absent H →
  ∃ summary,
    field (_nmap_scan H hostname) "success" = Some (PBool false)
    ∧ field (_nmap_scan H hostname) "error" = Some (PStr "nmap not installed")
    ∧ scan_target U H url
      = obj [("hostname", PStr hostname);
             ("ping_results", _ping_host H hostname);
             ("dns_results", _nslookup H hostname);
             ("traceroute_results", _traceroute H hostname);
             ("nmap_results", _nmap_scan H hostname);
             ("socket_info", _get_socket_info H hostname);
             ("summary", summary)]
    ∧ field summary "open_ports" = Some (PList [])
    ∧ field summary "services" = Some (PDict []).
Proof.
  intros Hhost Habsent. unfold scan_target. rewrite Hhost. cbn [bind].
  destruct (nmap_scan_absent H hostname Habsent) as (rest & Hnmap).
  destruct (ping_host_dict H hostname) as (ping & Hping).
  destruct (traceroute_dict H hostname) as (trace & Htrace).
  destruct (nslookup_lists H hostname) as (dns & l4 & l6 & Hdns & H4 & H6).
  rewrite Hnmap, Hping, Htrace, Hdns.
  pose proof (generate_summary_dicts hostname ping dns trace _ (_get_socket_info H hostname)
                l4 l6 [] H4 H6 (extract_open_ports_failed _ _ _ _ _ rest)) as Hsum.
  unfold results_of in Hsum. rewrite Hsum.
  eexists. split; [reflexivity |]. split; [reflexivity |].
  split; [reflexivity |]. split; reflexivity.
Qed.

(** Every scan of a host name returns a summary, and its
    [network_accessible] is the conjunction of [host_reachable] of the ping
    result and [ipv4_addresses] of the DNS result; [ipv6_addresses] is not
    read. *)
Lemma summary_network_accessible (U : Urllib.lib) (H : host) (url hostname : string) :
  _extract_hostname U url = Ok hostname →
  ∃ ping dns summary,
    _ping_host H hostname = PDict ping
    ∧ _nslookup H hostname = PDict dns
    ∧ field (scan_target U H url) "summary" = Some summary
    ∧ field summary "network_accessible"
      = Some (PBool (truthy (get_or ping "host_reachable" PNone)
                     && truthy (get_or dns "ipv4_addresses" PNone))).
Proof.
  intros Hhost. unfold scan_target. rewrite Hhost. cbn [bind].
  destruct (ping_host_dict H hostname) as (ping & Hping).
  destruct (traceroute_dict H hostname) as (trace & Htrace).
  destruct (nslookup_lists H hostname) as (dns & l4 & l6 & Hdns & H4 & H6).
  destruct (extract_open_ports_total H hostname (PDict ping) (PDict dns) (PDict trace)
              (_get_socket_info H hostname)) as (ports & Hports).
  pose proof (generate_summary_dicts hostname ping dns trace _ _ l4 l6 ports H4 H6 Hports)
    as Hsum.
  rewrite Hping, Htrace, Hdns. unfold results_of in Hsum. rewrite Hsum.
  exists ping, dns. eexists. split; [done |]. split; [done |].
  split; [reflexivity |]. cbn. unfold py_and.
  destruct (truthy (get_or ping "host_reachable" PNone)) eqn:Hreach; [done |].
  by rewrite Hreach.
Qed.


Lemma scan_without_nmap_witness :
  ∃ summary,
    field (_nmap_scan ipv6_only "ipv6.example.net") "success" = Some (PBool false)
    ∧ field (_nmap_scan ipv6_only "ipv6.example.net") "error"
      = Some (PStr "nmap not installed")
    ∧ scan_target Urllib.model ipv6_only "ipv6.example.net"
      = obj [("hostname", PStr "ipv6.example.net");
             ("ping_results", _ping_host ipv6_only "ipv6.example.net");
             ("dns_results", _nslookup ipv6_only "ipv6.example.net");
             ("traceroute_results", _traceroute ipv6_only "ipv6.example.net");
             ("nmap_results", _nmap_scan ipv6_only "ipv6.example.net");
             ("socket_info", _get_socket_info ipv6_only "ipv6.example.net");
             ("summary", summary)]
    ∧ field summary "open_ports" = Some (PList [])
    ∧ field summary "services" = Some (PDict []).
Proof.
  apply (scan_without_nmap Urllib.model ipv6_only "ipv6.example.net" "ipv6.example.net");
    [reflexivity | left; reflexivity].
Defined.

(** C1, at a host with an AAAA record only: the summary reports the host
    reachable and lists its IPv6 address, and [network_accessible] is
    false. *)
Theorem ipv6_only_not_accessible :
  ∃ summary info,
    field (scan_target Urllib.model ipv6_only "ipv6.example.net") "summary"
    = Some summary
    ∧ field summary "target_info" = Some info
    ∧ field info "reachable" = Some (PBool true)
    ∧ field info "ip_addresses" = Some (PStrs ["2001:db8::1"])
    ∧ field summary "network_accessible" = Some (PBool false).
Proof. do 2 eexists. vm_compute. repeat split. Qed.

End NetworkScannerSpec.

(** ** beautifulsoup_crawler.py *)

Module BeautifulSoupSpec.
Import BeautifulSoupCrawler.

Section Links.
Context (U : Urllib.lib).



(** A mailto: link goes to the email bucket and to no count; a
    javascript: link goes nowhere. *)
Lemma sort_link_mailto (base dom : string) (b : buckets) (h : string) :
  startswith h "mailto:" = true →
  sort_link U base dom b h
  = Ok {| internal_links := internal_links b;
          external_links := external_links b;
          email_links := email_links b ++ [h] |}.
Proof. intros Hm. unfold sort_link. by rewrite Hm. Qed.

Lemma sort_link_javascript (base dom : string) (b : buckets) (h : string) :
  startswith h "mailto:" = false → startswith h "javascript:" = true →
  sort_link U base dom b h = Ok b.
Proof. intros Hm Hj. unfold sort_link. by rewrite Hm, Hj. Qed.

(** A link that starts with http and does not contain the host of the
    request is external; any link that starts with none of the three
    prefixes is resolved and internal. *)
Lemma sort_link_external (base dom : string) (b : buckets) (h : string) :
  counted h → startswith h "http" = true → contains h dom = false →
  sort_link U base dom b h
  = Ok {| internal_links := internal_links b;
          external_links := external_links b ++ [h];
          email_links := email_links b |}.
Proof. intros [Hm Hj] Hh Hc. unfold sort_link. by rewrite Hm, Hj, Hh, Hc. Qed.

Lemma sort_link_relative (base dom : string) (b : buckets) (h resolved : string) :
  counted h → startswith h "http" = false →
  Urllib.urljoin U base h = Ok resolved →
  sort_link U base dom b h
  = Ok {| internal_links := internal_links b ++ [resolved];
          external_links := external_links b;
          email_links := email_links b |}.
Proof. intros [Hm Hj] Hh Hr. unfold sort_link. by rewrite Hm, Hj, Hh, Hr. Qed.




End Links.


(** C3, at a page of example.com with one link to another host whose query
    string names example.com: the link is counted internal. *)
Theorem foreign_link_counted_internal :
  let href := "http://evil.org/?next=example.com" in
  let summary := _extract_links Urllib.model [href] "http://example.com/" in
  host_of Urllib.model href = Some "evil.org"
  ∧ host_of Urllib.model "http://example.com/" = Some "example.com"
  ∧ field summary "internal" = Some (PInt 1)
  ∧ field summary "external" = Some (PInt 0)
  ∧ field summary "internal_links" = Some (PStrs [href]).
Proof. vm_compute. repeat split. Qed.

End BeautifulSoupSpec.

(** ** scrapy_crawler.py *)

Module ScrapySpec.
Import ScrapyEngine.

Section Engine.
Context (U : Urllib.lib) (W : web).

Lemma fetch_page_state (link : string) (s : state) :
  snd (fetch_page U W link s) = {| self := self s; fetched := fetched s ++ [link] |}.
Proof.
  unfold fetch_page, session_get. destruct (get W link) as [status reason soup|msg]; [| done].
  destruct (status =? 200)%Z; [| done]. by destruct (_parse_page U link soup).
Qed.

(** What the loop of [_crawl_depth] requests: links of the list that were
    not visited before, each once, each on the host of the seed; they are
    the links it adds to [visited_urls]. *)
Lemma crawl_links_follow (dom : string) (links : list string) (s s' : state)
    (r : result (list pyval)) :
  crawl_links U W dom links s = (r, s') →
  ∃ followed,
    fetched s' = fetched s ++ followed
    ∧ visited_urls (self s') = list_to_set followed ∪ visited_urls (self s)
    ∧ NoDup followed
    ∧ (length followed <= length links)%nat
    ∧ (∀ link, link ∈ followed →
         link ∈ links ∧ (link ∉ visited_urls (self s)) ∧ host_of U link = Some dom).
Proof.
  assert (Hnone : ∀ s, ∃ followed : list string,
             fetched s = fetched s ++ followed
             ∧ visited_urls (self s) = list_to_set followed ∪ visited_urls (self s)
             ∧ NoDup followed ∧ (length followed <= 0)%nat
             ∧ ∀ link, link ∈ followed → False).
  { intros s0. exists []. rewrite app_nil_r, list_to_set_nil, (left_id_L ∅ (∪)).
    repeat split; [constructor | done | by intros link ?%elem_of_nil]. }
  assert (Hskip : ∀ link rest s s',
             (∃ followed,
                 fetched s' = fetched s ++ followed
                 ∧ visited_urls (self s') = list_to_set followed ∪ visited_urls (self s)
                 ∧ NoDup followed
                 ∧ (length followed <= length rest)%nat
                 ∧ (∀ l, l ∈ followed →
                      l ∈ rest ∧ (l ∉ visited_urls (self s))
                      ∧ host_of U l = Some dom)) →
             ∃ followed,
               fetched s' = fetched s ++ followed
               ∧ visited_urls (self s') = list_to_set followed ∪ visited_urls (self s)
               ∧ NoDup followed
               ∧ (length followed <= length (link :: rest))%nat
               ∧ (∀ l, l ∈ followed →
                    l ∈ link :: rest ∧ (l ∉ visited_urls (self s))
                    ∧ host_of U l = Some dom)).
  { intros link rest s0 s1 (f & Hf & Hv & Hnd & Hlen & Hall). exists f.
    repeat split; try done; [simpl; lia | | apply Hall | apply Hall]; try done.
    apply list_elem_of_further. by apply Hall. }
  revert s s' r. induction links as [|link rest IH]; intros s s' r H; simpl in H.
  - inversion H; subst. destruct (Hnone s') as (f & Hf & Hv & Hnd & Hlen & Hall).
    exists f. repeat split; try done. all: intros; exfalso; eauto.
  - destruct (bool_decide (link ∈ visited_urls (self s))) eqn:Hvis;
      [by eapply Hskip, IH |].
    apply bool_decide_eq_false in Hvis.
    destruct (Urllib.urlparse U link) as [parsed|e] eqn:Hparse.
    2:{ inversion H; subst. destruct (Hnone s') as (f & Hf & Hv & Hnd & Hlen & Hall).
        exists f. repeat split; try done; [simpl; lia |..]. all: intros; exfalso; eauto. }
    destruct (String.eqb (Urllib.netloc parsed) dom) eqn:Hdom; [| by eapply Hskip, IH].
    apply String.eqb_eq in Hdom.
    pose proof (fetch_page_state link (visit link s)) as Hst.
    destruct (fetch_page U W link (visit link s)) as [pages s1]. simpl in Hst. subst s1.
    destruct (crawl_links U W dom rest _) as [r2 s2] eqn:Hrest.
    destruct (IH _ _ _ Hrest) as (f & Hf & Hv & Hnd & Hlen & Hall). simpl in *.
    assert (s' = s2) as -> by (destruct r2; by inversion H).
    assert (Hfresh : link ∉ f).
    { intros Hin. apply Hall in Hin as (_ & Hnot & _).
      apply Hnot, elem_of_union. left. by apply elem_of_singleton. }
    exists (link :: f). split; [by rewrite Hf, <- app_assoc |].
    split.
    { rewrite Hv. apply set_eq. intros x.
      rewrite !elem_of_union, !elem_of_list_to_set, elem_of_cons, elem_of_singleton.
      tauto. }
    split; [by constructor |]. split; [simpl; lia |].
    intros l [->|Hin]%elem_of_cons.
    + split; [left |]. split; [done |]. unfold host_of. by rewrite Hparse, Hdom.
    + destruct (Hall l Hin) as (Hl & Hnot & Hhost). split; [by right |].
      split; [| done]. intros Hv'. apply Hnot, elem_of_union. by right.
Qed.

(** [_crawl_depth] sends at most five requests. *)
Lemma crawl_depth_cap (links : list string) (base_url : string) (depth : Z)
    (s s' : state) (r : result (list pyval)) :
  _crawl_depth U W links base_url depth s = (r, s') →
  ∃ followed, fetched s' = fetched s ++ followed
              ∧ (length followed <= 5)%nat
              ∧ ∀ link, link ∈ followed → host_of U link = host_of U base_url.
Proof.
  unfold _crawl_depth, host_of.
  destruct (Urllib.urlparse U base_url) as [parsed|e].
  - intros (f & Hf & _ & _ & Hlen & Hall)%crawl_links_follow.
    exists f. split; [done |]. split.
    + rewrite length_take in Hlen. lia.
    + intros link Hin. by apply Hall.
  - intros [= <- <-]. exists []. rewrite app_nil_r.
    repeat split; [simpl; lia | by intros link ?%elem_of_nil].
Qed.

End Engine.

(** C5, at the shop: a first crawl with [max_depth=2] sends six requests,
    the seed and the first five of its eight links; the first link is the
    seed itself, which the visited set does not hold, so it is fetched and
    reported a second time. *)
Theorem crawl_fetches_seed_twice :
  let '(r, s) := crawl Urllib.model shop_web shop 2 fresh in
  length shop_links = 8
  ∧ Forall (fun link => host_of Urllib.model link = host_of Urllib.model shop) shop_links
  ∧ fetched s = [shop; shop; "http://example.com/about"; "http://example.com/blog";
                 "http://example.com/docs"; "http://example.com/pricing"]
  ∧ pages_of r = PStr <$> fetched s
  ∧ ¬ NoDup (fetched s).
Proof.
  vm_compute. repeat split.
  - repeat constructor.
  - intros Hnd. apply NoDup_cons in Hnd as [Hin _]. apply Hin. left.
Qed.

(** C6, at the blog: the second of two identical crawls on one instance
    finds every link already in [visited_urls] and returns the seed page
    alone, where a fresh instance returns four pages. *)
Theorem crawl_depends_on_earlier_crawl :
  let '(r1, s1) := crawl Urllib.model blog_web blog 2 fresh in
  let '(r2, s2) := crawl Urllib.model blog_web blog 2 s1 in
  pages_of r1 = PStr <$> (blog :: blog_links)
  ∧ pages_of r2 = [PStr blog]
  ∧ r2 ≠ r1
  ∧ visited_urls (self s1) = list_to_set blog_links.
Proof.
  vm_compute. repeat split. 
  - discriminate.
Qed.

End ScrapySpec.

(** * Further properties of the code *)

Module HostnameProps.
Import NetworkScanner.

Lemma before_sep_spec (c : ascii) (s : string) :
  contains (before_sep c s) (String c "") = false
  ∧ (s = before_sep c s ∨ ∃ rest, s = before_sep c s +:+ String c rest).
Proof.
  unfold before_sep. induction s as [|a s IH]; simpl.
  - split; [reflexivity | by left].
  - destruct (Ascii.eqb_spec a c) as [->|Hne].
    + split; [reflexivity |]. right. by exists s.
    + destruct (split_on c s) as [|w ws]; simpl in *.
      * destruct IH as [_ [<-|[rest ->]]].
        -- split; [| by left]. 
           destruct (Ascii.ascii_dec c a); [congruence | reflexivity].
        -- split; [| right; by exists rest].
           destruct (Ascii.ascii_dec c a); [congruence | reflexivity].
      * destruct IH as [Hw Hs]. split.
        -- change (contains (String a w) (String c ""))
             with (String.prefix (String c "") (String a w) || contains w (String c "")).
           rewrite Hw. simpl. destruct (Ascii.ascii_dec c a); [congruence | reflexivity].
        -- destruct Hs as [->|[rest ->]]; [by left | right; by exists rest].
Qed.

(** X1: the host name handed to the probes holds no colon: it is the part
    before the first colon of the network location of an http(s) URL, and
    of the text itself for anything else. *)
Theorem hostname_before_port (U : Urllib.lib) (url h : string) :
  _extract_hostname U url = Ok h →
  contains h ":" = false
  ∧ ∃ src,
      (if startswith url "http://" || startswith url "https://"
       then host_of U url = Some src else src = url)
      ∧ (src = h ∨ ∃ rest, src = h +:+ ":" +:+ rest).
Proof.
  unfold _extract_hostname, host_of.
  destruct (startswith url "http://" || startswith url "https://").
  - destruct (Urllib.urlparse U url) as [parsed|e]; simpl; [| discriminate].
    intros [= <-]. destruct (before_sep_spec ":" (Urllib.netloc parsed)) as [Hc Hs].
    split; [exact Hc |]. exists (Urllib.netloc parsed). split; [done |]. exact Hs.
  - intros [= <-]. destruct (before_sep_spec ":" url) as [Hc Hs].
    split; [exact Hc |]. exists url. split; [done |]. exact Hs.
Qed.

Lemma hostname_before_port_witness :
  contains "example.com" ":" = false
  ∧ ∃ src,
      (if startswith "https://example.com:8443/login" "http://"
          || startswith "https://example.com:8443/login" "https://"
       then host_of Urllib.model "https://example.com:8443/login" = Some src
       else src = "https://example.com:8443/login")
      ∧ (src = "example.com" ∨ ∃ rest, src = "example.com" +:+ ":" +:+ rest).
Proof.
  apply (hostname_before_port Urllib.model "https://example.com:8443/login").
  reflexivity.
Defined.

End HostnameProps.

Module ProbeOutputProps.
Import NetworkScanner.

Lemma str_take_length (n : nat) (s : string) : (String.length (str_take n s) <= n)%nat.
Proof.
  revert s. induction n as [|n IH]; intros s; simpl; [lia |].
  destruct s as [|c s]; simpl; [lia |]. specialize (IH s). lia.
Qed.

#[local] Opaque str_take.

(** X2: what a probe keeps of the output of its command is bounded: 500
    characters of ping, traceroute and DNS output, 1000 of the port scan, 4
    response times, 15 hops (with [total_hops] counting them all). *)
Theorem probe_outputs_bounded (H : host) (hostname : string) :
  (∀ s, field (_ping_host H hostname) "output" = Some (PStr s) →
        (String.length s <= 500)%nat)
  ∧ (∀ l, field (_ping_host H hostname) "response_times" = Some (PList l) →
          (length l <= 4)%nat)
  ∧ (∀ s, field (_nslookup H hostname) "command_output" = Some (PStr s) →
          (String.length s <= 500)%nat)
  ∧ (∀ s, field (_traceroute H hostname) "output" = Some (PStr s) →
          (String.length s <= 500)%nat)
  ∧ (∀ l n, field (_traceroute H hostname) "hops" = Some (PList l) →
            field (_traceroute H hostname) "total_hops" = Some (PInt n) →
            Z.of_nat (length l) = Z.min 15 n)
  ∧ (∀ s, field (_nmap_scan H hostname) "scan_data" = Some (PStr s) →
          (String.length s <= 1000)%nat).
Proof.
  repeat split.
  - unfold _ping_host. intros s.
    destruct (subprocess_run H _) as [rc out err| | |msg]; try discriminate.
    destruct (rc =? 0)%Z; intros [= <-]; apply str_take_length.
  - unfold _ping_host. intros l.
    destruct (subprocess_run H _) as [rc out err| | |msg]; try discriminate.
    destruct (rc =? 0)%Z; [| discriminate]. intros [= <-].
    unfold PStrs. rewrite length_fmap, length_take. lia.
  - unfold _nslookup. intros s.
    destruct (gethostbyname H hostname) as [a| |msg]; try discriminate;
      (destruct (getaddrinfo_inet6 H hostname) as [infos| |msg']; try discriminate);
      (destruct (subprocess_run H _) as [rc out err| | |msg'']; try discriminate);
      (destruct (rc =? 0)%Z; [| discriminate]); intros [= <-]; apply str_take_length.
  - unfold _traceroute. intros s.
    destruct (subprocess_run H _) as [rc out err| | |msg]; try discriminate.
    destruct (rc =? 0)%Z; [| discriminate]. intros [= <-]. apply str_take_length.
  - unfold _traceroute. intros l n.
    destruct (subprocess_run H _) as [rc out err| | |msg]; try discriminate.
    destruct (rc =? 0)%Z; [| discriminate]. intros [= <-] [= <-].
    unfold PStrs. rewrite length_fmap, length_take. lia.
  - unfold _nmap_scan. intros s.
    destruct (subprocess_run H ["nmap"; "-V"]) as [rc out err| | |msg]; try discriminate.
    destruct (rc =? 0)%Z; simpl; [| discriminate].
    destruct (subprocess_run H _) as [rc' out' err'| | |msg']; try discriminate.
    destruct (rc' =? 0)%Z; [| discriminate]. intros [= <-]. apply str_take_length.
Qed.

#[local] Transparent str_take.

Lemma probe_outputs_bounded_witness :
  field (_ping_host ipv6_only "ipv6.example.net") "output"
  = Some (PStr "64 bytes from 2001:db8::1: icmp_seq=1 ttl=57 time=12.3 ms")
  ∧ (String.length "64 bytes from 2001:db8::1: icmp_seq=1 ttl=57 time=12.3 ms" <= 500)%nat.
Proof.
  split; [reflexivity |].
  apply (proj1 (probe_outputs_bounded ipv6_only "ipv6.example.net")). reflexivity.
Defined.

End ProbeOutputProps.

Module DnsProps.
Import NetworkScanner.

Lemma append_new_spec (l acc : list string) :
  NoDup acc →
  NoDup (foldl append_new acc l)
  ∧ ∀ x, x ∈ foldl append_new acc l ↔ x ∈ acc ∨ x ∈ l.
Proof.
  revert acc. induction l as [|y l IH]; intros acc Hnd; simpl.
  - split; [done |]. intros x. rewrite elem_of_nil. tauto.
  - unfold append_new at 2 4. destruct (bool_decide (y ∈ acc)) eqn:Hy.
    + apply bool_decide_eq_true in Hy. destruct (IH acc Hnd) as [Hn Hin].
      split; [done |]. intros x. rewrite Hin, elem_of_cons.
      split; [tauto |]. intros [?|[->|?]]; tauto.
    + apply bool_decide_eq_false in Hy.
      assert (Hnd' : NoDup (acc ++ [y])).
      { apply NoDup_app. repeat split; [done | | apply NoDup_singleton].
        intros x Hx ->%list_elem_of_singleton. done. }
      destruct (IH _ Hnd') as [Hn Hin]. split; [done |].
      intros x. rewrite Hin, elem_of_app, list_elem_of_singleton, elem_of_cons. tauto.
Qed.

(** X3: A DNS lookup lists the IPv4 answer of [gethostbyname] and the distinct
    IPv6 answers of [getaddrinfo], and reports success when it found an
    address of either family. A name that does not resolve, and a lookup
    command that is missing, times out or fails, are absorbed: they change
    none of this. *)
Theorem nslookup_addresses (H : host) (hostname : string) :
  (∀ msg, gethostbyname H hostname ≠ SocketError msg) →
  (∀ msg, getaddrinfo_inet6 H hostname ≠ SocketError msg) →
  (∀ msg, subprocess_run H (dns_command H hostname) ≠ ProcessError msg) →
  ∃ l4 l6 b,
    field (_nslookup H hostname) "ipv4_addresses" = Some (PStrs l4)
    ∧ field (_nslookup H hostname) "ipv6_addresses" = Some (PStrs l6)
    ∧ field (_nslookup H hostname) "success" = Some (PBool b)
    ∧ l4 = match gethostbyname H hostname with Resolved a => [a] | _ => [] end
    ∧ NoDup l6
    ∧ (∀ x, x ∈ l6 ↔ ∃ infos, getaddrinfo_inet6 H hostname = Resolved infos ∧ x ∈ infos)
    ∧ (b = true ↔ l4 ≠ [] ∨ l6 ≠ []).
Proof.
  intros H4 H6 Hcmd. unfold _nslookup. unfold dns_command in Hcmd.
  set (l4 := match gethostbyname H hostname with Resolved a => [a] | _ => [] end).
  set (l6 := match getaddrinfo_inet6 H hostname with
             | Resolved infos => foldl append_new [] infos
             | _ => []
             end).
  assert (Hl6 : NoDup l6 ∧ ∀ x, x ∈ l6 ↔ ∃ infos,
                 getaddrinfo_inet6 H hostname = Resolved infos ∧ x ∈ infos).
  { subst l6. destruct (getaddrinfo_inet6 H hostname) as [infos| |msg].
    - destruct (append_new_spec infos [] (NoDup_nil_2)) as [Hn Hin].
      split; [done |]. intros x. rewrite Hin, elem_of_nil. split.
      + intros [[]|Hx]. by exists infos.
      + intros (infos' & [= <-] & Hx). by right.
    - split; [constructor |]. intros x. rewrite elem_of_nil.
      split; [done | intros (? & ? & _); discriminate].
    - split; [constructor |]. intros x. rewrite elem_of_nil.
      split; [done | intros (? & ? & _); discriminate]. }
  exists l4, l6, ((0 <? length l4)%nat || (0 <? length l6)%nat).
  assert (Hb : (0 <? length l4)%nat || (0 <? length l6)%nat = true
               ↔ l4 ≠ [] ∨ l6 ≠ []).
  { rewrite orb_true_iff, !Nat.ltb_lt.
    destruct l4, l6; simpl; split; intros [?|?]; try lia; try done; auto; try (left; lia);
      try (right; lia). }
  destruct Hl6 as [Hn Hin].
  subst l4 l6.
  destruct (gethostbyname H hostname) as [a| |msg]; [| | by destruct (H4 msg)];
    (destruct (getaddrinfo_inet6 H hostname) as [infos| |msg']; [| | by destruct (H6 msg')]);
    (destruct (subprocess_run H _) as [rc out err| | |msg'']; [| | | by destruct (Hcmd msg'')]);
    try destruct (rc =? 0)%Z; repeat split; try done; try apply Hb; try apply Hin.
Qed.

Lemma nslookup_addresses_witness :
  ∃ l4 l6 b,
    field (_nslookup ipv6_only "ipv6.example.net") "ipv4_addresses" = Some (PStrs l4)
    ∧ field (_nslookup ipv6_only "ipv6.example.net") "ipv6_addresses" = Some (PStrs l6)
    ∧ field (_nslookup ipv6_only "ipv6.example.net") "success" = Some (PBool b)
    ∧ l4 = match gethostbyname ipv6_only "ipv6.example.net" with
           | Resolved a => [a] | _ => [] end
    ∧ NoDup l6
    ∧ (∀ x, x ∈ l6 ↔ ∃ infos, getaddrinfo_inet6 ipv6_only "ipv6.example.net"
                               = Resolved infos ∧ x ∈ infos)
    ∧ (b = true ↔ l4 ≠ [] ∨ l6 ≠ []).
Proof.
  apply (nslookup_addresses ipv6_only "ipv6.example.net"); intros msg; discriminate.
Defined.

End DnsProps.

Module PortProps.
Import NetworkScanner.

Lemma search_port_nonneg (run : option Z) (s : string) (n : Z) :
  (∀ r, run = Some r → (0 <= r)%Z) → search_port run s = Some n → (0 <= n)%Z.
Proof.
  revert run. induction s as [|c s IH]; intros run Hrun; simpl; [discriminate |].
  destruct (is_digit c).
  - apply IH. intros r [= <-]. destruct run as [r0|]; simpl.
    + specialize (Hrun r0 eq_refl). lia.
    + lia.
  - destruct run as [r0|].
    + destruct (Ascii.eqb c "/").
      * intros [= <-]. by apply Hrun.
      * apply IH. discriminate.
    + apply IH. discriminate.
Qed.

Lemma sorted_le_nodup_lt (l : list Z) :
  StronglySorted Z.le l → NoDup l → StronglySorted Z.lt l.
Proof.
  induction 1 as [|x l Hs IH Hall]; intros Hnd; [constructor |].
  apply NoDup_cons in Hnd as [Hx Hnd]. constructor; [by apply IH |].
  rewrite Forall_forall in Hall |- *. intros y Hy.
  specialize (Hall y Hy). assert (x ≠ y) by (intros ->; done). lia.
Qed.

(** X4: the port list is strictly increasing (sorted, without duplicates) and
    holds no negative number, whatever the port scan printed. *)
Theorem open_ports_increasing (scan_results : pyval) (ports : list Z) :
  _extract_open_ports scan_results = Ok ports →
  StronglySorted Z.lt ports ∧ Forall (fun p => (0 <= p)%Z) ports.
Proof.
  unfold _extract_open_ports. intros H.
  apply bind_ok in H as (nmap & _ & H). apply bind_ok in H as (success & _ & H).
  apply bind_ok in H as (listed & _ & H). apply bind_ok in H as (raw & Hraw & H).
  inversion H; subst ports; clear H. split.
  - apply sorted_le_nodup_lt.
    + apply StronglySorted_merge_sort; apply _.
    + rewrite merge_sort_Permutation. apply NoDup_remove_dups.
  - rewrite merge_sort_Permutation. apply Forall_forall. intros p Hp.
    rewrite elem_of_remove_dups in Hp.
    destruct (truthy listed); [| inversion Hraw; subst; by apply elem_of_nil in Hp].
    apply bind_ok in Hraw as (lines_ & _ & Hraw).
    apply bind_ok in Hraw as (lines & _ & Hraw).
    apply bind_ok in Hraw as (found & Hfound & Hraw).
    inversion Hraw; subst raw; clear Hraw.
    apply list_elem_of_omap in Hp as (o & Ho & Hop). simpl in Hop. subst o.
    apply mapM_ok in Hfound.
    apply list_elem_of_lookup in Ho as [i Hi].
    destruct (Forall2_lookup_r _ _ _ _ _ Hfound Hi) as (line & _ & Hline).
    destruct line; try discriminate. inversion Hline as [Hs].
    eapply search_port_nonneg; [| exact Hs]. discriminate.
Qed.

Lemma open_ports_increasing_witness :
  _extract_open_ports nmap_report = Ok [80; 443; 8080]%Z
  ∧ StronglySorted Z.lt [80; 443; 8080]%Z
  ∧ Forall (fun p => (0 <= p)%Z) [80; 443; 8080]%Z.
Proof.
  split; [vm_compute; reflexivity |].
  apply (open_ports_increasing nmap_report). vm_compute. reflexivity.
Defined.

End PortProps.

Module ServiceProps.
Import NetworkScanner.

Lemma service_unknown (p : Z) :
  service_of p = "Unknown" ↔ p ∉ [80; 443; 22; 21; 25; 53; 3306; 5432]%Z.
Proof.
  unfold service_of, port_services. cbn -[Z.eqb].
  rewrite !not_elem_of_cons.
  repeat match goal with
         | |- context [(?a =? p)%Z] => destruct (Z.eqb_spec a p) as [<-|?]
         end;
    split; intros Hs; try discriminate; try (exfalso; intuition congruence);
    try done.
  repeat split; try done; try congruence. apply not_elem_of_nil.
Qed.

(** X5: in every summary [services] has one entry for each port of
    [open_ports], in the same order, named after the well-known-port table;
    a port outside the table is named Unknown. *)
Theorem summary_services_match_ports (scan_results summary : pyval) :
  _generate_summary scan_results = Ok summary →
  ∃ ports,
    _extract_open_ports scan_results = Ok ports
    ∧ field summary "open_ports" = Some (PList (PInt <$> ports))
    ∧ field summary "services"
      = Some (PDict ((fun p => (KInt p, PStr (service_of p))) <$> ports))
    ∧ (∀ p, service_of p = "Unknown"
            ↔ p ∉ [80; 443; 22; 21; 25; 53; 3306; 5432]%Z).
Proof.
  unfold _generate_summary. intros H. binds H.
  unfold _map_services in E8. apply bind_ok in E8 as (ports & Hports & E8).
  rewrite Hports in E7. inversion E7; subst. inversion E8; subst. inversion H; subst.
  exists v7. repeat split; try done; apply service_unknown.
Qed.

Lemma summary_services_match_ports_witness :
  ∃ summary ports,
    _generate_summary nmap_report = Ok summary
    ∧ _extract_open_ports nmap_report = Ok ports
    ∧ field summary "open_ports" = Some (PList (PInt <$> ports))
    ∧ field summary "services"
      = Some (PDict ((fun p => (KInt p, PStr (service_of p))) <$> ports))
    ∧ (∀ p, service_of p = "Unknown"
            ↔ p ∉ [80; 443; 22; 21; 25; 53; 3306; 5432]%Z).
Proof.
  assert (∃ summary, _generate_summary nmap_report = Ok summary) as [summary Hs].
  { eexists. vm_compute. reflexivity. }
  destruct (summary_services_match_ports nmap_report summary Hs) as (ports & H).
  exists summary, ports. split; [exact Hs | exact H].
Defined.

End ServiceProps.

Module ScanShapeProps.
Import NetworkScanner NetworkScannerSpec.
#[local] Arguments service_of : simpl never.

(** The value a scan returns on a target whose host name it can extract:
    the seven fields, with the summary [_generate_summary] gives. *)
Lemma scan_target_ok (U : Urllib.lib) (H : host) (url hostname : string) :
  _extract_hostname U url = Ok hostname →
  ∃ summary,
    _generate_summary
      (results_of hostname (_ping_host H hostname) (_nslookup H hostname)
         (_traceroute H hostname) (_nmap_scan H hostname) (_get_socket_info H hostname))
    = Ok summary
    ∧ scan_target U H url
      = obj [("hostname", PStr hostname);
             ("ping_results", _ping_host H hostname);
             ("dns_results", _nslookup H hostname);
             ("traceroute_results", _traceroute H hostname);
             ("nmap_results", _nmap_scan H hostname);
             ("socket_info", _get_socket_info H hostname);
             ("summary", summary)].
Proof.
  intros Hhost. unfold scan_target. rewrite Hhost. cbn [bind].
  destruct (ping_host_dict H hostname) as (ping & Hping).
  destruct (traceroute_dict H hostname) as (trace & Htrace).
  destruct (nslookup_lists H hostname) as (dns & l4 & l6 & Hdns & H4 & H6).
  destruct (extract_open_ports_total H hostname (PDict ping) (PDict dns) (PDict trace)
              (_get_socket_info H hostname)) as (ports & Hports).
  pose proof (generate_summary_dicts hostname ping dns trace _ _ l4 l6 ports H4 H6 Hports)
    as Hsum.
  rewrite Hping, Htrace, Hdns. unfold results_of in *. rewrite Hsum.
  eexists. split; reflexivity.
Qed.

(** A scan result is a dictionary with fields, so a true value. *)
Lemma scan_target_truthy (U : Urllib.lib) (H : host) (url : string) :
  truthy (scan_target U H url) = true.
Proof.
  destruct (_extract_hostname U url) as [hostname|e] eqn:Hhost.
  - by destruct (scan_target_ok U H url hostname Hhost) as (summary & _ & ->).
  - unfold scan_target. by rewrite Hhost.
Qed.

(** X6: A scan returns either the error value, when the host name cannot be
    extracted, or the seven fields with a summary of five fields; a probe
    that fails, whatever the failure, never turns the scan into an error:
    the result has an [error] field exactly in the first case. *)
Theorem scan_target_error_or_summary (U : Urllib.lib) (H : host) (url : string) :
  match _extract_hostname U url with
  | Raise e =>
      scan_target U H url = obj [("error", PStr (str_exn e)); ("success", PBool false)]
  | Ok hostname =>
      field (scan_target U H url) "error" = None
      ∧ keys_of (scan_target U H url)
        = Some (KStr <$> ["hostname"; "ping_results"; "dns_results";
                          "traceroute_results"; "nmap_results"; "socket_info";
                          "summary"])
      ∧ ∃ summary,
          field (scan_target U H url) "summary" = Some summary
          ∧ keys_of summary
            = Some (KStr <$> ["target_info"; "open_ports"; "services"; "hop_count";
                              "network_accessible"])
  end.
Proof.
  destruct (_extract_hostname U url) as [hostname|e] eqn:Hhost.
  - destruct (scan_target_ok U H url hostname Hhost) as (summary & Hsum & ->).
    split; [reflexivity |]. split; [reflexivity |].
    exists summary. split; [reflexivity |].
    unfold _generate_summary in Hsum. binds Hsum. by inversion Hsum.
  - unfold scan_target. by rewrite Hhost.
Qed.

End ScanShapeProps.

Module FailedProbeProps.
Import NetworkScanner NetworkScannerSpec.
#[local] Arguments service_of : simpl never.

Lemma ping_reachable (H : host) (hostname : string) (ping : list (pykey * pyval)) :
  _ping_host H hostname = PDict ping →
  get_or ping "host_reachable" (PBool false)
  = PBool (exits_zero (subprocess_run H (ping_command H hostname)))
  ∧ truthy (get_or ping "host_reachable" PNone)
    = exits_zero (subprocess_run H (ping_command H hostname)).
Proof.
  unfold _ping_host, ping_command.
  destruct (String.eqb (os_type H) "Windows");
    (destruct (subprocess_run H _) as [rc out err| | |msg]; simpl;
     [destruct (rc =? 0)%Z |..]; intros [= <-]; split; reflexivity).
Qed.

Lemma traceroute_hops (H : host) (hostname : string) (trace : list (pykey * pyval)) :
  _traceroute H hostname = PDict trace →
  exits_zero (subprocess_run H (traceroute_command H hostname)) = false →
  get_or trace "total_hops" (PInt 0) = PInt 0.
Proof.
  unfold _traceroute, traceroute_command.
  destruct (String.eqb (os_type H) "Windows");
    (destruct (subprocess_run H _) as [rc out err| | |msg]; simpl;
     [destruct (rc =? 0)%Z |..]; intros [= <-]; try discriminate; reflexivity).
Qed.

(** X7: in the summary of a scan, [reachable] is true exactly when the ping
    command ran and exited with status 0 (a ping that times out, is missing
    or fails gives false, never an absent field); when the ping did not
    succeed [network_accessible] is false, and when the route trace did not
    succeed [hop_count] is 0. *)
Theorem summary_absorbs_failed_probes (U : Urllib.lib) (H : host) (url hostname : string) :
  _extract_hostname U url = Ok hostname →
  ∃ summary info,
    field (scan_target U H url) "summary" = Some summary
    ∧ field summary "target_info" = Some info
    ∧ field info "hostname" = Some (PStr hostname)
    ∧ field info "reachable"
      = Some (PBool (exits_zero (subprocess_run H (ping_command H hostname))))
    ∧ (exits_zero (subprocess_run H (ping_command H hostname)) = false →
       field summary "network_accessible" = Some (PBool false))
    ∧ (exits_zero (subprocess_run H (traceroute_command H hostname)) = false →
       field summary "hop_count" = Some (PInt 0)).
Proof.
  intros Hhost. unfold scan_target. rewrite Hhost. cbn [bind].
  destruct (ping_host_dict H hostname) as (ping & Hping).
  destruct (traceroute_dict H hostname) as (trace & Htrace).
  destruct (nslookup_lists H hostname) as (dns & l4 & l6 & Hdns & H4 & H6).
  destruct (extract_open_ports_total H hostname (PDict ping) (PDict dns) (PDict trace)
              (_get_socket_info H hostname)) as (ports & Hports).
  pose proof (generate_summary_dicts hostname ping dns trace _ _ l4 l6 ports H4 H6 Hports)
    as Hsum.
  destruct (ping_reachable H hostname ping Hping) as [Hreach Htruthy].
  pose proof (traceroute_hops H hostname trace Htrace) as Hhops.
  rewrite Hping, Htrace, Hdns. unfold results_of in *. rewrite Hsum.
  do 2 eexists. split; [reflexivity |]. split; [reflexivity |].
  split; [reflexivity |]. split; [cbn; by rewrite Hreach |]. split.
  - intros Hz. cbn. unfold py_and. rewrite Htruthy, Hz. by rewrite Htruthy, Hz.
  - intros Hz. cbn. by rewrite Hhops.
Qed.

Lemma summary_absorbs_failed_probes_witness :
  ∃ summary info,
    field (scan_target Urllib.model ipv6_only "ipv6.example.net") "summary" = Some summary
    ∧ field summary "target_info" = Some info
    ∧ field info "hostname" = Some (PStr "ipv6.example.net")
    ∧ field info "reachable"
      = Some (PBool (exits_zero (subprocess_run ipv6_only
                                   (ping_command ipv6_only "ipv6.example.net"))))
    ∧ (exits_zero (subprocess_run ipv6_only (ping_command ipv6_only "ipv6.example.net"))
       = false →
       field summary "network_accessible" = Some (PBool false))
    ∧ (exits_zero (subprocess_run ipv6_only
                     (traceroute_command ipv6_only "ipv6.example.net")) = false →
       field summary "hop_count" = Some (PInt 0)).
Proof.
  apply (summary_absorbs_failed_probes Urllib.model ipv6_only "ipv6.example.net"
           "ipv6.example.net").
  reflexivity.
Defined.

End FailedProbeProps.

Module ModuleDataProps.
Import NetworkScanner NetworkScannerSpec.

Lemma generate_summary_fields (scan_results summary : pyval) :
  _generate_summary scan_results = Ok summary →
  ∃ info ports services hops accessible,
    summary = obj [("target_info", PDict info); ("open_ports", ports);
                   ("services", services); ("hop_count", hops);
                   ("network_accessible", accessible)].
Proof.
  unfold _generate_summary. intros H. binds H. inversion H. 
  eexists _, _, _, _, _. reflexivity.
Qed.

(** X8: [get_module_data] accepts whatever [scan_target] returns. After a scan
    with a summary it hands on the summary's own [target_info],
    [open_ports], [services] and [network_accessible], and [ip_addresses]
    is the address list inside [target_info]; after the error value every
    field is empty or false. *)
Theorem module_data_of_scan (U : Urllib.lib) (H : host) (url : string) :
  ∃ m,
    get_module_data (scan_target U H url) = Ok m
    ∧ match field (scan_target U H url) "summary" with
      | Some summary =>
          field m "targets" = field summary "target_info"
          ∧ field m "open_ports" = field summary "open_ports"
          ∧ field m "services" = field summary "services"
          ∧ field m "network_accessible" = field summary "network_accessible"
          ∧ ∃ info, field summary "target_info" = Some info
                    ∧ field m "ip_addresses" = field info "ip_addresses"
                    ∧ is_Some (field info "ip_addresses")
      | None =>
          m = obj [("targets", PDict []); ("open_ports", PList []);
                   ("services", PDict []); ("network_accessible", PBool false);
                   ("ip_addresses", PList [])]
      end.
Proof.
  destruct (_extract_hostname U url) as [hostname|e] eqn:Hhost.
  - destruct (ScanShapeProps.scan_target_ok U H url hostname Hhost)
      as (summary & Hsum & ->).
    pose proof Hsum as Hsum'.
    apply generate_summary_fields in Hsum as (info & ports & services & hops & acc & ->).
    unfold _generate_summary in Hsum'. binds Hsum'. inversion Hsum'; subst.
    eexists. split; [reflexivity |]. cbn.
    repeat split. eexists. split; [reflexivity |]. split; [reflexivity |]. by eexists.
  - unfold scan_target. rewrite Hhost. eexists. split; reflexivity.
Qed.

End ModuleDataProps.

Module DictFacts.

Lemma pykey_eqb_eq (a b : pykey) : pykey_eqb a b = true ↔ a = b.
Proof.
  destruct a, b; simpl; rewrite ?String.eqb_eq, ?Z.eqb_eq;
    split; intros H; try discriminate; congruence.
Qed.

Lemma pykey_eqb_refl (a : pykey) : pykey_eqb a a = true.
Proof. by apply pykey_eqb_eq. Qed.

Lemma lookup_set_eq (k : pykey) (v : pyval) (d : list (pykey * pyval)) :
  dict_lookup k (dict_set k v d) = Some v.
Proof.
  induction d as [|[k' v'] d IH]; simpl.
  - by rewrite pykey_eqb_refl.
  - destruct (pykey_eqb k k') eqn:Hk; simpl; [by rewrite pykey_eqb_refl | by rewrite Hk].
Qed.

Lemma lookup_set_ne (k k' : pykey) (v : pyval) (d : list (pykey * pyval)) :
  k' ≠ k → dict_lookup k' (dict_set k v d) = dict_lookup k' d.
Proof.
  intros Hne. induction d as [|[k0 v0] d IH]; simpl.
  - destruct (pykey_eqb k' k) eqn:Hk; [by apply pykey_eqb_eq in Hk | done].
  - destruct (pykey_eqb k k0) eqn:Hk0; simpl.
    + apply pykey_eqb_eq in Hk0 as <-.
      destruct (pykey_eqb k' k) eqn:Hk; [by apply pykey_eqb_eq in Hk | done].
    + by rewrite IH.
Qed.

End DictFacts.
Import DictFacts.

Module CategoryProps.
Import DataProcessor.

#[local] Arguments pykey_eqb : simpl never.

Lemma total_set (ty : string) (d : list (pykey * pyval)) (n : Z) :
  py_add (from_option id (PInt 0) (dict_lookup (KStr ty) d)) (PInt 1) = Ok (PInt n) →
  dict_total (dict_set (KStr ty) (PInt n) d) = (dict_total d + 1)%Z.
Proof.
  induction d as [|[k v] d IH]; simpl.
  - intros Hn. inversion Hn; subst. simpl. lia.
  - destruct (pykey_eqb (KStr ty) k) eqn:Hk; simpl.
    + destruct v; simpl; intros Hn; inversion Hn; subst; simpl. lia.
    + intros Hn. specialize (IH Hn). destruct v; lia.
Qed.

Lemma count_type_spec (d d' : list (pykey * pyval)) (inp : pyval) :
  count_type d inp = Ok d' →
  ∃ ty, type_key inp = Some ty
        ∧ dict_total d' = (dict_total d + 1)%Z
        ∧ count_in d' ty = (count_in d ty + 1)%Z
        ∧ ∀ ty', ty' ≠ ty → count_in d' ty' = count_in d ty'.
Proof.
  unfold count_type, type_key. intros H.
  apply bind_ok in H as (t & Et & H). apply bind_ok in H as (ty & Ety & H).
  apply bind_ok in H as (n & En & H). inversion H; subst d'; clear H.
  rewrite Et. simpl. rewrite Ety. exists ty. split; [done |].
  assert (∃ m, n = PInt m ∧ m = (count_in d ty + 1)%Z) as (m & -> & Hm).
  { unfold count_in. destruct (dict_lookup (KStr ty) d) as [[]|]; simpl in En;
      try discriminate; inversion En; eauto. }
  split; [by apply total_set |]. split.
  - unfold count_in at 1. by rewrite lookup_set_eq.
  - intros ty' Hne. unfold count_in. rewrite lookup_set_ne; [done | congruence].
Qed.

Lemma categorize_fold (items : list pyval) (d d' : list (pykey * pyval)) :
  foldM count_type d items = Ok d' →
  dict_total d' = (dict_total d + Z.of_nat (length items))%Z
  ∧ (∀ ty, count_in d' ty = (count_in d ty + Z.of_nat (of_type ty items))%Z)
  ∧ Forall (fun inp => is_Some (type_key inp)) items.
Proof.
  revert d. induction items as [|inp items IH]; intros d H; simpl in H.
  - inversion H; subst. split; [simpl; lia |]. split; [| constructor].
    intros ty. unfold of_type. simpl. lia.
  - apply bind_ok in H as (d1 & H1 & H).
    apply count_type_spec in H1 as (ty0 & Hty0 & Ht & Hc & Hother).
    destruct (IH _ H) as (Ht' & Hc' & Hall). split; [simpl; lia |]. split.
    + intros ty. rewrite Hc'. unfold of_type. rewrite filter_cons.
      destruct (decide (type_key inp = Some ty)) as [Heq|Hne]; simpl.
      * assert (ty = ty0) as -> by congruence. rewrite Hc. lia.
      * rewrite Hother; [lia |]. intros ->. done.
    + constructor; [by rewrite Hty0 | done].
Qed.

(** X9: [_categorize_inputs] counts every input once: under each category, the
    lower-cased [type] (or [unknown]), it reports how many inputs have it,
    and its counts add up to the number of inputs. When it returns, every
    input has such a category (its [type] is a string or missing). *)
Theorem categorize_counts_inputs (inputs c : pyval) :
  _categorize_inputs inputs = Ok c →
  ∃ items counts,
    py_iter inputs = Ok items
    ∧ c = PDict counts
    ∧ dict_total counts = Z.of_nat (length items)
    ∧ (∀ ty, count_in counts ty = Z.of_nat (of_type ty items))
    ∧ Forall (fun inp => is_Some (type_key inp)) items.
Proof.
  unfold _categorize_inputs. intros H.
  apply bind_ok in H as (items & Hitems & H). apply bind_ok in H as (counts & Hc & H).
  inversion H; subst c. exists items, counts.
  destruct (categorize_fold _ _ _ Hc) as (Ht & Hcount & Hall).
  repeat split; done.
Qed.

Lemma categorize_counts_inputs_witness :
  ∃ c items counts,
    _categorize_inputs (PList [masked_username; password1; password1]) = Ok c
    ∧ py_iter (PList [masked_username; password1; password1]) = Ok items
    ∧ c = PDict counts
    ∧ dict_total counts = Z.of_nat (length items)
    ∧ (∀ ty, count_in counts ty = Z.of_nat (of_type ty items))
    ∧ Forall (fun inp => is_Some (type_key inp)) items.
Proof.
  eexists.
  destruct (categorize_counts_inputs (PList [masked_username; password1; password1])
              (PDict [(KStr "password", PInt 1); (KStr "text", PInt 2)]) eq_refl)
    as (items & counts & H).
  exists items, counts. split; [reflexivity | exact H].
Defined.

End CategoryProps.

Module ProcessorProps.
Import DataProcessor.

#[local] Arguments truthy : simpl never.

(** The parts of a record built from a successful crawl. *)
Lemma process_body_ok (crawl_result network_data processed : pyval) :
  process_body crawl_result network_data = Ok processed →
  succeeded crawl_result →
  ∃ data engine url projection enriched ready,
    py_get crawl_result "data" (PDict []) = Ok data
    ∧ _process_engine_data data engine = Ok projection
    ∧ _enrich_data data network_data = Ok enriched
    ∧ _prepare_for_vulnerability_scan data network_data = Ok ready
    ∧ processed
      = obj [("source_engine", engine);
             ("target_url", url);
             ("crawl_data", projection);
             ("network_data", if truthy network_data then network_data else PDict []);
             ("enriched_data", enriched);
             ("vulnerability_scan_ready", ready)].
Proof.
  unfold process_body. intros H (s & Hs & Ht).
  rewrite Hs in H. simpl in H. rewrite Ht in H. simpl in H.
  apply bind_ok in H as (data & Hd & H). apply bind_ok in H as (engine & He & H).
  apply bind_ok in H as (url & Hu & H). apply bind_ok in H as (projection & Hp & H).
  apply bind_ok in H as (enriched & Hen & H). apply bind_ok in H as (ready & Hr & H).
  inversion H; subst processed. by exists data, engine, url, projection, enriched, ready.
Qed.

Lemma enrich_falsy (data nd nd' : pyval) :
  truthy nd = false → truthy nd' = false → _enrich_data data nd' = _enrich_data data nd.
Proof. unfold _enrich_data. by intros -> ->. Qed.

Lemma prepare_falsy (data nd nd' : pyval) :
  truthy nd = false → truthy nd' = false →
  _prepare_for_vulnerability_scan data nd' = _prepare_for_vulnerability_scan data nd.
Proof. unfold _prepare_for_vulnerability_scan. by intros -> ->. Qed.

(** X10: without network data the record of a successful crawl carries empty
    dictionaries, never a null: [network_data], the [network_info] of the
    enriched data and the [network_context] of the scan preparation are all
    [{}]. Every falsy value passed as network data ([None], [{}], [[]], [0],
    the empty string) gives the same record. *)
Theorem record_without_network (crawl_result network_data processed : pyval) :
  process_body crawl_result network_data = Ok processed →
  succeeded crawl_result →
  truthy network_data = false →
  field processed "network_data" = Some (PDict [])
  ∧ (∃ enriched ready,
       field processed "enriched_data" = Some enriched
       ∧ field enriched "network_info" = Some (PDict [])
       ∧ field processed "vulnerability_scan_ready" = Some ready
       ∧ field ready "network_context" = Some (PDict []))
  ∧ ∀ other, truthy other = false → process_body crawl_result other = Ok processed.
Proof.
  intros H Hs Hf.
  destruct (process_body_ok _ _ _ H Hs)
    as (data & engine & url & projection & enriched & ready & Hd & Hp & He & Hr & ->).
  rewrite Hf. split; [reflexivity |]. split.
  - exists enriched, ready. split; [reflexivity |].
    unfold _enrich_data in He. rewrite Hf in He.
    apply bind_ok in He as (fc & _ & He). apply bind_ok in He as (inputs & _ & He).
    apply bind_ok in He as (types & _ & He). apply bind_ok in He as (sens & _ & He).
    simpl in He. inversion He; subst enriched. split; [reflexivity |].
    split; [reflexivity |].
    unfold _prepare_for_vulnerability_scan in Hr. rewrite Hf in Hr.
    binds Hr. inversion E5; subst. by inversion Hr.
  - intros other Ho. revert H. unfold process_body.
    destruct Hs as (s & -> & Ht). simpl. rewrite Ht. simpl.
    destruct (py_get crawl_result "data" (PDict [])) as [d|]; simpl; [| done].
    destruct (py_get d "engine" (PStr "unknown")) as [e|]; simpl; [| done].
    destruct (py_get d "url" (PStr "")) as [u|]; simpl; [| done].
    destruct (_process_engine_data d e) as [p|]; simpl; [| done].
    rewrite (enrich_falsy d network_data other Hf Ho).
    rewrite (prepare_falsy d network_data other Hf Ho).
    by rewrite Hf, Ho.
Qed.

Lemma record_without_network_witness :
  ∃ processed,
    process_body login_crawl PNone = Ok processed
    ∧ field processed "network_data" = Some (PDict [])
    ∧ (∃ enriched ready,
         field processed "enriched_data" = Some enriched
         ∧ field enriched "network_info" = Some (PDict [])
         ∧ field processed "vulnerability_scan_ready" = Some ready
         ∧ field ready "network_context" = Some (PDict []))
    ∧ ∀ other, truthy other = false → process_body login_crawl other = Ok processed.
Proof.
  eexists. split; [vm_compute; reflexivity |].
  apply (record_without_network login_crawl PNone).
  - vm_compute. reflexivity.
  - exists (PBool true). split; reflexivity.
  - reflexivity.
Defined.

End ProcessorProps.

Module ContextProps.
Import DataProcessor ProcessorProps.

#[local] Arguments truthy : simpl never.

(** The scan preparation is a dictionary whose [target] and
    [network_context] are dictionaries. *)
Lemma prepare_shape (data nd ready : pyval) :
  _prepare_for_vulnerability_scan data nd = Ok ready →
  ∃ forms inputs url title links ctx params auth,
    py_get data "forms" (PList []) = Ok forms
    ∧ py_get data "inputs" (PList []) = Ok inputs
    ∧ ready = obj [("target", obj [("url", url); ("title", title); ("forms", forms);
                                   ("inputs", inputs); ("links", links)]);
                   ("network_context", PDict ctx);
                   ("injectable_parameters", params);
                   ("authentication_required", auth)].
Proof.
  unfold _prepare_for_vulnerability_scan. intros H.
  apply bind_ok in H as (url & _ & H). apply bind_ok in H as (title & _ & H).
  apply bind_ok in H as (forms & Hf & H). apply bind_ok in H as (inputs & Hi & H).
  apply bind_ok in H as (links & _ & H). apply bind_ok in H as (auth & _ & H).
  apply bind_ok in H as (ctx & Hctx & H). apply bind_ok in H as (params & _ & H).
  inversion H; subst ready; clear H.
  assert (∃ c, ctx = PDict c) as [c ->].
  { destruct (truthy nd).
    - binds Hctx. inversion Hctx. eexists. reflexivity.
    - inversion Hctx. by exists []. }
  by exists forms, inputs, url, title, links, c, (PList params), auth.
Qed.

(** X11: A processed record is one of two shapes. A crawl that failed is
    passed on as [success: False] with the crawl's own [error], whatever
    the network data; an exception while processing gives
    [success: False] with its message; otherwise the record has exactly the
    six fields of a processed crawl, and no [success] field. *)
Theorem processed_record_shape (self : DataProcessor.t) (crawl_result network_data : pyval) :
  let record := (process_crawl_data self crawl_result network_data).2 in
  match py_get crawl_result "success" PNone with
  | Raise e => record = obj [("success", PBool false); ("error", PStr (str_exn e))]
  | Ok s =>
      if truthy s then
        match process_body crawl_result network_data with
        | Raise e => record = obj [("success", PBool false); ("error", PStr (str_exn e))]
        | Ok processed =>
            record = processed
            ∧ keys_of record
              = Some (KStr <$> ["source_engine"; "target_url"; "crawl_data";
                                "network_data"; "enriched_data";
                                "vulnerability_scan_ready"])
            ∧ field record "success" = None
        end
      else
        ∃ error, py_get crawl_result "error" PNone = Ok error
                 ∧ record = obj [("success", PBool false); ("error", error)]
  end.
Proof.
  unfold process_crawl_data. cbn [snd].
  destruct (py_get crawl_result "success" PNone) as [s|e] eqn:Hs.
  - destruct (truthy s) eqn:Ht.
    + destruct (process_body crawl_result network_data) as [processed|e] eqn:Hp; [| done].
      split; [done |].
      destruct (process_body_ok _ _ _ Hp) as (d & en & u & p & er & r & _ & _ & _ & _ & ->);
        [by exists s |]. by split.
    + unfold process_body. rewrite Hs. cbn [bind]. rewrite Ht. cbn [negb].
      destruct crawl_result; try discriminate. eexists. split; reflexivity.
  - unfold process_body. by rewrite Hs.
Qed.

(** What [process_crawl_data] returns: a failure record, or the record of
    the body. *)
Lemma processed_shape_cases (crawl_result network_data : pyval) :
  (∃ e, match process_body crawl_result network_data with
        | Ok processed => processed
        | Raise e => obj [("success", PBool false); ("error", PStr (str_exn e))]
        end = obj [("success", PBool false); ("error", e)])
  ∨ (∃ s, py_get crawl_result "success" PNone = Ok s ∧ truthy s = true
          ∧ ∃ processed, process_body crawl_result network_data = Ok processed).
Proof.
  destruct (process_body crawl_result network_data) as [processed|e] eqn:Hp.
  - destruct (py_get crawl_result "success" PNone) as [s|e] eqn:Hs.
    + destruct (truthy s) eqn:Ht.
      * right. exists s. repeat split; try done. by exists processed.
      * left. revert Hp. unfold process_body. rewrite Hs. cbn [bind]. rewrite Ht. cbn [negb].
        intros Hp. apply bind_ok in Hp as (err & _ & Hp). inversion Hp. by exists err.
    + revert Hp. unfold process_body. by rewrite Hs.
  - left. by eexists.
Qed.

(** X12: [get_scanner_context] never fails on a record [process_crawl_data]
    returned, successful or not. On a failure record every list and
    dictionary of the context is empty. On the record of a crawl the SQL
    and XSS contexts carry the raw [forms] and [inputs] of the crawl, the
    same in both, and the network context repeats the open ports, services
    and addresses of the record's own network context, empty where that has
    none. *)
Theorem scanner_context_of_record (self : DataProcessor.t)
    (crawl_result network_data : pyval) :
  let record := (process_crawl_data self crawl_result network_data).2 in
  ∃ ctx,
    get_scanner_context record = Ok ctx
    ∧ match field record "vulnerability_scan_ready" with
      | None =>
          field record "success" = Some (PBool false)
          ∧ ctx = obj [("sql_injection_context",
                        obj [("forms", PList []); ("inputs", PList []);
                             ("network", PDict [])]);
                       ("xss_context", obj [("forms", PList []); ("inputs", PList [])]);
                       ("network_context",
                        obj [("open_ports", PList []); ("services", PDict []);
                             ("ip_addresses", PList [])])]
      | Some ready =>
          ∃ data forms inputs net,
            py_get crawl_result "data" (PDict []) = Ok data
            ∧ py_get data "forms" (PList []) = Ok forms
            ∧ py_get data "inputs" (PList []) = Ok inputs
            ∧ field ready "network_context" = Some (PDict net)
            ∧ ctx = obj [("sql_injection_context",
                          obj [("forms", forms); ("inputs", inputs);
                               ("network", PDict net)]);
                         ("xss_context", obj [("forms", forms); ("inputs", inputs)]);
                         ("network_context",
                          obj [("open_ports", get_or net "open_ports" (PList []));
                               ("services", get_or net "services" (PDict []));
                               ("ip_addresses", get_or net "ip_addresses" (PList []))])]
      end.
Proof.
  pose proof (processed_shape_cases crawl_result network_data) as Hcases.
  unfold process_crawl_data. cbn [snd].
  destruct Hcases as [(e & ->) | (s & Hs & Ht & processed & Hp)].
  - eexists. split; [reflexivity |]. by split.
  - rewrite Hp.
    destruct (process_body_ok _ _ _ Hp) as (d & en & u & p & er & r & Hd & _ & _ & Hr & ->);
      [by exists s |].
    destruct (prepare_shape _ _ _ Hr)
      as (forms & inputs & url & title & links & net & params & auth & Hf & Hi & ->).
    eexists. split; [reflexivity |]. cbn.
    exists d, forms, inputs, net. repeat split; done.
Qed.

End ContextProps.

Module IntegrationProps.
Import DataProcessor NetworkScanner ScanShapeProps ProcessorProps.

#[local] Arguments truthy : simpl never.

Lemma prepare_network_context (data nd ready : pyval) :
  _prepare_for_vulnerability_scan data nd = Ok ready →
  truthy nd = true →
  ∃ ctx m,
    field ready "network_context" = Some ctx
    ∧ get_module_data nd = Ok m
    ∧ field ctx "ip_addresses" = field m "ip_addresses"
    ∧ field ctx "open_ports" = field m "open_ports"
    ∧ field ctx "services" = field m "services"
    ∧ field ctx "network_accessible" = field m "network_accessible".
Proof.
  unfold _prepare_for_vulnerability_scan. intros H Ht. rewrite Ht in H.
  apply bind_ok in H as (url & _ & H). apply bind_ok in H as (title & _ & H).
  apply bind_ok in H as (forms & _ & H). apply bind_ok in H as (inputs & _ & H).
  apply bind_ok in H as (links & _ & H). apply bind_ok in H as (auth & _ & H).
  apply bind_ok in H as (ctx & Hctx & H). apply bind_ok in H as (params & _ & H).
  inversion H; subst ready; clear H.
  apply bind_ok in Hctx as (summary & Hs & Hctx).
  apply bind_ok in Hctx as (info & Hi & Hctx). apply bind_ok in Hctx as (ips & Hips & Hctx).
  apply bind_ok in Hctx as (ports & Hp & Hctx). apply bind_ok in Hctx as (svc & Hsvc & Hctx).
  apply bind_ok in Hctx as (acc & Hacc & Hctx). inversion Hctx; subst ctx; clear Hctx.
  eexists _, _. split; [reflexivity |]. split.
  - unfold get_module_data. rewrite Hs. cbn [bind]. rewrite Hi, Hp, Hsvc, Hacc. cbn [bind].
    rewrite Hips. reflexivity.
  - repeat split; reflexivity.
Qed.

Lemma enrich_network_info (data nd enriched : pyval) :
  _enrich_data data nd = Ok enriched →
  truthy nd = true →
  ∃ info m targets reachable,
    field enriched "network_info" = Some info
    ∧ get_module_data nd = Ok m
    ∧ field m "targets" = Some targets
    ∧ field info "ip_addresses" = field m "ip_addresses"
    ∧ field info "open_ports" = field m "open_ports"
    ∧ field info "services" = field m "services"
    ∧ py_get targets "reachable" (PBool false) = Ok reachable
    ∧ field info "reachable" = Some reachable.
Proof.
  unfold _enrich_data. intros H Ht. rewrite Ht in H.
  apply bind_ok in H as (fc & _ & H). apply bind_ok in H as (inputs & _ & H).
  apply bind_ok in H as (types & _ & H). apply bind_ok in H as (sens & _ & H).
  apply bind_ok in H as (info & Hinfo & H). inversion H; subst enriched; clear H.
  apply bind_ok in Hinfo as (summary & Hs & Hinfo). rewrite Hs in Hinfo. cbn [bind] in Hinfo.
  apply bind_ok in Hinfo as (targets & Hi & Hinfo). rewrite Hi in Hinfo. cbn [bind] in Hinfo.
  apply bind_ok in Hinfo as (ips & Hips & Hinfo).
  apply bind_ok in Hinfo as (reach & Hreach & Hinfo).
  apply bind_ok in Hinfo as (ports & Hp & Hinfo). apply bind_ok in Hinfo as (svc & Hsvc & Hinfo).
  inversion Hinfo; subst info; clear Hinfo.
  assert (∃ acc, py_get summary "network_accessible" (PBool false) = Ok acc) as [acc Hacc].
  { destruct summary; try discriminate. eexists. reflexivity. }
  eexists _, _, targets, reach. split; [reflexivity |]. split.
  - unfold get_module_data. rewrite Hs. cbn [bind]. rewrite Hi, Hp, Hsvc, Hacc. cbn [bind].
    rewrite Hips. reflexivity.
  - repeat split; try reflexivity. exact Hreach.
Qed.

(** X13: [integrate_network_scan] attaches the scan of the target to the record
    of a successful crawl: [network_data] is the scan result itself, and
    the network context it prepares for the vulnerability scanners holds
    the very values [get_module_data] exports from that scan (addresses,
    open ports, services, accessibility); the [network_info] of the
    enriched data holds the same addresses, ports and services, with the
    reachability of the target. *)
Theorem integrated_network_context (U : Urllib.lib) (H : host) (self : DataProcessor.t)
    (crawl_result : pyval) (url : string) (processed : pyval) :
  process_body crawl_result (scan_target U H url) = Ok processed →
  succeeded crawl_result →
  (integrate_network_scan U H self crawl_result url).2 = processed
  ∧ field processed "network_data" = Some (scan_target U H url)
  ∧ ∃ m ready ctx enriched info targets reachable,
      get_module_data (scan_target U H url) = Ok m
      ∧ field processed "vulnerability_scan_ready" = Some ready
      ∧ field ready "network_context" = Some ctx
      ∧ field ctx "ip_addresses" = field m "ip_addresses"
      ∧ field ctx "open_ports" = field m "open_ports"
      ∧ field ctx "services" = field m "services"
      ∧ field ctx "network_accessible" = field m "network_accessible"
      ∧ field processed "enriched_data" = Some enriched
      ∧ field enriched "network_info" = Some info
      ∧ field info "ip_addresses" = field m "ip_addresses"
      ∧ field info "open_ports" = field m "open_ports"
      ∧ field info "services" = field m "services"
      ∧ field m "targets" = Some targets
      ∧ py_get targets "reachable" (PBool false) = Ok reachable
      ∧ field info "reachable" = Some reachable.
Proof.
  intros Hp Hs. pose proof (scan_target_truthy U H url) as Ht.
  split; [unfold integrate_network_scan, process_crawl_data; simpl; by rewrite Hp |].
  destruct (process_body_ok _ _ _ Hp Hs)
    as (data & engine & u & projection & enriched & ready & Hd & Hproj & He & Hr & ->).
  rewrite Ht. split; [reflexivity |].
  destruct (prepare_network_context _ _ _ Hr Ht) as (ctx & m & Hctx & Hm & C1 & C2 & C3 & C4).
  destruct (enrich_network_info _ _ _ He Ht)
    as (info & m' & targets & reach & Hinfo & Hm' & Htg & I1 & I2 & I3 & Hreach & I4).
  assert (m' = m) as -> by congruence.
  exists m, ready, ctx, enriched, info, targets, reach.
  repeat split; done.
Qed.

Lemma integrated_network_context_witness :
  ∃ processed,
    process_body login_crawl (scan_target Urllib.model ipv6_only "http://example.com/login")
    = Ok processed
    ∧ (integrate_network_scan Urllib.model ipv6_only (DataProcessor.Build_t "Linux") login_crawl
         "http://example.com/login").2 = processed
    ∧ field processed "network_data"
      = Some (scan_target Urllib.model ipv6_only "http://example.com/login").
Proof.
  eexists. split; [vm_compute; reflexivity |].
  destruct (integrated_network_context Urllib.model ipv6_only (DataProcessor.Build_t "Linux")
              login_crawl "http://example.com/login" _ eq_refl) as (H1 & H2 & _).
  - exists (PBool true). split; reflexivity.
  - split; [exact H1 | exact H2].
Defined.

End IntegrationProps.

Module LinkProps.
Import BeautifulSoupCrawler.

Section Links.
Context (U : Urllib.lib).



Lemma take_elements_spec (l : list string) :
  NoDup (take 50 (set_list l))
  ∧ length (take 50 (set_list l)) = (50 `min` set_len l)%nat
  ∧ ∀ x, x ∈ take 50 (set_list l) → x ∈ l.
Proof.
  unfold set_list, set_len, py_set. split; [| split].
  - eapply sublist_NoDup; [| apply sublist_take]. apply NoDup_elements.
  - rewrite length_take. reflexivity.
  - intros x Hx. apply elem_of_take in Hx as (i & Hx & _).
    apply list_elem_of_lookup_2 in Hx. apply elem_of_elements in Hx.
    by apply elem_of_list_to_set in Hx.
Qed.

(** X15: the two link lists of a summary hold at most fifty links each, none
    twice, all of them links of the page; each is as long as its count says,
    up to fifty. When the address of the page or one of its links cannot be
    parsed, the summary has the three counts only, all zero, and no list. *)
Theorem link_lists_bounded (hrefs : list string) (base_url : string) :
  let summary := _extract_links U hrefs base_url in
  match sort_links U hrefs base_url with
  | Ok b =>
      ∃ li le,
        field summary "internal_links" = Some (PStrs li)
        ∧ field summary "external_links" = Some (PStrs le)
        ∧ NoDup li ∧ NoDup le
        ∧ Z.of_nat (length li) = (50 `min` count summary "internal")%Z
        ∧ Z.of_nat (length le) = (50 `min` count summary "external")%Z
        ∧ (∀ x, x ∈ li → x ∈ internal_links b)
        ∧ (∀ x, x ∈ le → x ∈ external_links b)
  | Raise _ =>
      summary = obj [("total", PInt 0); ("internal", PInt 0); ("external", PInt 0)]
  end.
Proof.
  unfold _extract_links. destruct (sort_links U hrefs base_url) as [b|e]; [| done].
  destruct (take_elements_spec (internal_links b)) as (Hi1 & Hi2 & Hi3).
  destruct (take_elements_spec (external_links b)) as (He1 & He2 & He3).
  eexists _, _. split; [reflexivity |]. split; [reflexivity |].
  repeat split; try done; unfold count; cbn; lia.
Qed.

End Links.


End LinkProps.

Module DetectorProps.
Import DataProcessor BeautifulSoupEngine.

#[local] Arguments contains : simpl never.
#[local] Arguments lower : simpl never.

Lemma existsb_same {A} (f g : A → bool) (l : list A) :
  (∀ x, In x l → f x = g x) → existsb f l = existsb g l.
Proof.
  induction l as [|x l IH]; intros H; simpl; [done |].
  rewrite (H x), IH; [done | | by left]. intros y Hy. apply H. by right.
Qed.

Lemma existsb_same_members {A} (f : A → bool) (l1 l2 : list A) :
  (∀ x, In x l1 ↔ In x l2) → existsb f l1 = existsb f l2.
Proof.
  intros H. apply eq_true_iff_eq. rewrite !existsb_exists.
  split; intros (x & Hx & Hf); exists x; split; try done; by apply H.
Qed.

(** The crawler and the middleware look for the same keywords. *)
Lemma same_keywords (name inp_type : string) :
  existsb (fun kw => contains name kw || contains inp_type kw)
          BeautifulSoupEngine.sensitive_keywords
  = matches_keyword name inp_type.
Proof.
  unfold matches_keyword. apply existsb_same_members. intros x.
  unfold BeautifulSoupEngine.sensitive_keywords, DataProcessor.sensitive_keywords.
  simpl. tauto.
Qed.

(** No keyword occurs in the default type [text]. *)
Lemma text_matches_nothing (name : string) :
  matches_keyword name (lower "text") = matches_keyword name "".
Proof.
  unfold matches_keyword. apply existsb_same. intros kw Hkw. f_equal.
  unfold DataProcessor.sensitive_keywords in Hkw. simpl in Hkw.
  repeat (destruct Hkw as [<-|Hkw]; [vm_compute; reflexivity |]). done.
Qed.

Lemma attr_get_default (l : list (string * Dom.attr)) (k : string) (d1 d2 : pyval) :
  Dom.attr_get l k d1 = Dom.attr_get l k d2
  ∨ (Dom.attr_get l k d1 = d1 ∧ Dom.attr_get l k d2 = d2).
Proof.
  induction l as [|[k' a] l IH]; simpl; [by right |].
  destruct (String.eqb k k'); [by left | done].
Qed.

Lemma single_valued_get (t : Dom.tag) (k : string) :
  single_valued t k = true → Dom.get t k (PStr "") = PStr (attr_text t k).
Proof.
  unfold single_valued, attr_text. by destruct (Dom.get t k (PStr "")).
Qed.

(** What the middleware decides on the entry the crawler extracts. *)
Lemma is_sensitive_entry (t : Dom.tag) :
  plain_input t = true → is_sensitive (input_entry t) = Ok (flagged t).
Proof.
  unfold plain_input. intros [Hn Ht]%andb_prop.
  apply single_valued_get in Hn, Ht.
  unfold is_sensitive, input_entry. cbn -[flagged]. rewrite Hn. cbn -[flagged].
  unfold flagged.
  destruct (attr_get_default (Dom.attrs t) "type" (PStr "text") (PStr "")) as [He|[He Hd]].
  - unfold Dom.get in *. rewrite He, Ht. reflexivity.
  - unfold Dom.get in *. rewrite He. cbn [bind py_lower]. rewrite Hd in Ht.
    injection Ht as Ht'. rewrite <- Ht'.
    exact (f_equal Ok (text_matches_nothing (lower (attr_text t "name")))).
Qed.

Lemma sensitive_inputs_flagged (inputs : list Dom.tag) :
  Forall (fun t => plain_input t = true) inputs →
  sensitive_inputs inputs = Ok (brief_entry <$> filter (fun t => flagged t = true) inputs).
Proof.
  unfold sensitive_inputs. intros Hall.
  assert (mapM (fun inp =>
      let! name := py_lower (Dom.get inp "name" (PStr "")) in
      let! inp_type := py_lower (Dom.get inp "type" (PStr "")) in
      Ok (if existsb (fun kw => contains name kw || contains inp_type kw)
                     BeautifulSoupEngine.sensitive_keywords
          then [obj [("type", Dom.get inp "type" (PStr ""));
                     ("name", Dom.get inp "name" (PStr ""));
                     ("id", Dom.get inp "id" (PStr ""))]]
          else [])) inputs
    = Ok ((fun t => if flagged t then [brief_entry t] else []) <$> inputs)) as ->.
  { induction Hall as [|t l Ht _ IH]; [done |]. cbn [mapM fmap list_fmap].
    rewrite IH. unfold plain_input in Ht. apply andb_prop in Ht as [Hn Hty].
    rewrite (single_valued_get _ _ Hn), (single_valued_get _ _ Hty). cbn [bind py_lower].
    rewrite same_keywords. unfold flagged, brief_entry.
    rewrite (single_valued_get _ _ Hn), (single_valued_get _ _ Hty). reflexivity. }
  cbn [bind]. f_equal. clear Hall. induction inputs as [|t l IH]; [done |].
  rewrite filter_cons. cbn [fmap list_fmap concat]. rewrite IH.
  destruct (decide (flagged t = true)) as [Hf|Hf].
  - rewrite Hf. reflexivity.
  - apply not_true_is_false in Hf. rewrite Hf. reflexivity.
Qed.

Lemma identify_sensitive_flagged (inputs : list Dom.tag) :
  Forall (fun t => plain_input t = true) inputs →
  filterM is_sensitive (input_entry <$> inputs)
  = Ok (input_entry <$> filter (fun t => flagged t = true) inputs).
Proof.
  induction 1 as [|t l Ht _ IH]; [done |]. cbn [filterM fmap list_fmap].
  rewrite (is_sensitive_entry _ Ht), IH. cbn [bind]. rewrite filter_cons.
  destruct (decide (flagged t = true)) as [Hf|Hf].
  - rewrite Hf. reflexivity.
  - apply not_true_is_false in Hf. rewrite Hf. reflexivity.
Qed.

(** X16: on a page whose inputs have single-valued names and types, the
    sensitive-field listing of the crawler and the sensitive fields the
    middleware reports for a crawl of the page are the same inputs, in
    document order: the inputs whose name or type contains a keyword,
    whatever the case. They differ in the entry they give each input only. *)
Theorem sensitive_detectors_agree {St} (U : Urllib.lib) (S : session St) (st st' : St)
    (url reason : string) (status : Z) (headers : list (string * string)) (len : nat)
    (soup : page) :
  get S st url = (Response status reason headers len soup, st') →
  Forall (fun t => plain_input t = true) (inputs soup) →
  (extract_sensitive_fields S st url).1
  = brief_entry <$> filter (fun t => flagged t = true) (inputs soup)
  ∧ _identify_sensitive_fields (crawl_data U url status headers len soup)
    = Ok (input_entry <$> filter (fun t => flagged t = true) (inputs soup)).
Proof.
  intros Hget Hall. split.
  - unfold extract_sensitive_fields. rewrite Hget. cbn.
    by rewrite sensitive_inputs_flagged.
  - unfold _identify_sensitive_fields, crawl_data, _extract_inputs. cbn.
    by apply identify_sensitive_flagged.
Qed.

Lemma sensitive_detectors_agree_witness :
  (extract_sensitive_fields checkout_server 0%nat "http://example.com/checkout").1
  = brief_entry <$> [password_tag; card_tag]
  ∧ _identify_sensitive_fields
      (crawl_data Urllib.model "http://example.com/checkout" 200
         [("Content-Type", "text/html")] 2048 checkout_page)
    = Ok (input_entry <$> [password_tag; card_tag]).
Proof.
  apply (sensitive_detectors_agree Urllib.model checkout_server 0%nat 1%nat
           "http://example.com/checkout" "OK" 200 [("Content-Type", "text/html")] 2048
           checkout_page).
  - reflexivity.
  - repeat constructor.
Defined.

End DetectorProps.

Module CrawlProps.
Import DataProcessor BeautifulSoupEngine DictFacts DetectorProps.

#[local] Arguments contains : simpl never.
#[local] Arguments lower : simpl never.
#[local] Arguments truthy : simpl never.
#[local] Arguments flagged : simpl never.
#[local] Arguments in_strs : simpl never.

(** The forms a page yields: a list, no longer than the forms of the page. *)
Lemma extract_forms_list (soup : page) :
  ∃ l, _extract_forms soup = PList l ∧ (length l <= length (forms soup))%nat.
Proof.
  unfold _extract_forms.
  destruct (mapM _ (forms soup)) as [l|e] eqn:Hm.
  - exists l. split; [done |]. apply mapM_ok in Hm. apply Forall2_length in Hm. lia.
  - exists []. split; [done |]. simpl. lia.
Qed.

(** The link summary answers [get] on each of its counts. *)
Lemma extract_links_dict (U : Urllib.lib) (hrefs : list string) (url : string) :
  ∃ d, BeautifulSoupCrawler._extract_links U hrefs url = PDict d
       ∧ ∃ n, dict_lookup (KStr "total") d = Some (PInt n).
Proof.
  unfold BeautifulSoupCrawler._extract_links.
  destruct (BeautifulSoupCrawler.sort_links U hrefs url); eexists; split; try reflexivity;
    eexists; reflexivity.
Qed.

Lemma categorize_total (items : list pyval) (d : list (pykey * pyval)) :
  Forall (fun inp => is_Some (type_key inp)) items → int_valued d →
  ∃ d', foldM count_type d items = Ok d'.
Proof.
  intros Hall. revert d. induction Hall as [|inp items [ty Hty] _ IH]; intros d Hd.
  - by exists d.
  - cbn [foldM]. unfold count_type at 1. unfold type_key in Hty.
    destruct (py_get inp "type" (PStr "unknown")) as [t|]; [| done]. cbn [bind] in *.
    destruct (py_lower t) as [low|]; [| done]. cbn [bind]. inversion Hty; subst low.
    destruct (Hd (KStr ty)) as [Hk|[n Hk]]; rewrite Hk; cbn.
    all: apply IH; intros k; destruct (pykey_eqb k (KStr ty)) eqn:Hkk;
      [apply pykey_eqb_eq in Hkk as ->; right; rewrite lookup_set_eq; eauto
      |rewrite lookup_set_ne; [apply Hd | by intros ->; rewrite pykey_eqb_refl in Hkk]].
Qed.

Lemma entry_typed (t : Dom.tag) :
  plain_input t = true → is_Some (type_key (input_entry t)).
Proof.
  unfold plain_input. intros [_ Ht]%andb_prop. unfold type_key, input_entry. cbn.
  unfold single_valued in Ht.
  destruct (attr_get_default (Dom.attrs t) "type" (PStr "text") (PStr "")) as [He|[He _]];
    unfold Dom.get in *; rewrite He.
  - destruct (Dom.attr_get (Dom.attrs t) "type" (PStr "")); try discriminate. by eexists.
  - by eexists.
Qed.

Lemma injectable_entries (inputs : list Dom.tag) :
  ∃ names, mapM injectable_name (input_entry <$> inputs) = Ok names.
Proof.
  induction inputs as [|t l [names IH]]; [by exists [] |].
  cbn [fmap list_fmap mapM]. rewrite IH.
  unfold injectable_name at 1, input_entry at 1. cbn.
  match goal with |- context [in_strs ?x ?l] => destruct (in_strs x l) end;
    cbn; eexists; reflexivity.
Qed.

#[local] Opaque BeautifulSoupCrawler._extract_links _extract_forms _extract_meta_tags
  _extract_text _extract_title.

(** X17: processing a page the crawler fetched never fails, when the inputs of
    the page have single-valued names and types and no network data is
    given: the record names the engine and the address requested, its
    projection reports the status of the response, the number of inputs of
    the page, the size of the body in KiB and no JavaScript, and its
    sensitive fields are the flagged inputs of the page. *)
Theorem fetched_page_processed {St} (U : Urllib.lib) (S : session St) (st st' : St)
    (url reason : string) (status : Z) (headers : list (string * string)) (len : nat)
    (soup : page) (network_data : pyval) :
  get S st url = (Response status reason headers len soup, st') →
  is_http_error status = false →
  Forall (fun t => plain_input t = true) (inputs soup) →
  truthy network_data = false →
  ∃ processed projection enriched,
    process_body (crawl U S st url).1 network_data = Ok processed
    ∧ field processed "source_engine" = Some (PStr "beautifulsoup")
    ∧ field processed "target_url" = Some (PStr url)
    ∧ field processed "crawl_data" = Some projection
    ∧ field projection "status_code" = Some (PInt status)
    ∧ field projection "inputs_count" = Some (PInt (Z.of_nat (length (inputs soup))))
    ∧ field projection "page_size_kb"
      = Some (PFloat (Qred (inject_Z (Z.of_nat len) / 1024)))
    ∧ field projection "has_javascript" = Some (PBool false)
    ∧ field processed "enriched_data" = Some enriched
    ∧ field enriched "sensitive_fields"
      = Some (PList (input_entry <$> filter (fun t => flagged t = true) (inputs soup))).
Proof.
  intros Hget Hstatus Hall Hnd.
  destruct (extract_forms_list soup) as (fl & Hforms & _).
  destruct (extract_links_dict U (hrefs soup) url) as (ld & Hlinks & _).
  destruct (categorize_total (input_entry <$> inputs soup) [])
    as (counts & Hcounts); [| by left |].
  { apply Forall_fmap. eapply Forall_impl; [exact Hall |]. apply entry_typed. }
  destruct (injectable_entries (inputs soup)) as (names & Hnames).
  unfold crawl. rewrite Hget, Hstatus. cbn [fst].
  set (data := crawl_data U url status headers len soup).
  assert (E_engine : py_get data "engine" (PStr "unknown") = Ok (PStr "beautifulsoup"))
    by reflexivity.
  assert (E_url : py_get data "url" (PStr "") = Ok (PStr url)) by reflexivity.
  assert (E_links : py_get data "links" (PDict []) = Ok (PDict ld))
    by (rewrite <- Hlinks; reflexivity).
  assert (E_status : py_get data "status_code" (PInt 0) = Ok (PInt status)) by reflexivity.
  assert (E_forms : py_get data "forms" (PList []) = Ok (PList fl))
    by (rewrite <- Hforms; reflexivity).
  assert (E_inputs : py_get data "inputs" (PList [])
                     = Ok (PList (input_entry <$> inputs soup))) by reflexivity.
  assert (E_size : py_get data "page_size" (PInt 0) = Ok (PInt (Z.of_nat len)))
    by reflexivity.
  assert (E_js : py_get data "javascript_enabled" (PBool false) = Ok (PBool false))
    by reflexivity.
  assert (E_title : py_get data "title" (PStr "") = Ok (_extract_title soup))
    by reflexivity.
  assert (E_auth : py_get data "authenticated" (PBool false) = Ok (PBool false))
    by reflexivity.
  assert (E_rawlinks : py_get data "links" (PList []) = Ok (PDict ld))
    by (rewrite <- Hlinks; reflexivity).
  clearbody data.
  assert (Hproj : ∃ projection,
             _process_engine_data data (PStr "beautifulsoup") = Ok projection
             ∧ field projection "status_code" = Some (PInt status)
             ∧ field projection "inputs_count"
               = Some (PInt (Z.of_nat (length (inputs soup))))
             ∧ field projection "page_size_kb"
               = Some (PFloat (Qred (inject_Z (Z.of_nat len) / 1024)))
             ∧ field projection "has_javascript" = Some (PBool false)).
  { unfold _process_engine_data.
    change (py_eqb (PStr "beautifulsoup") (PStr "scrapy")) with false.
    change (py_eqb (PStr "beautifulsoup") (PStr "beautifulsoup")) with true.
    cbv iota. unfold _process_beautifulsoup_data, len_of.
    rewrite E_links, E_status, E_forms, E_inputs, E_size, E_js.
    cbn [bind py_get py_get_key py_len py_div_1024 as_number].
    eexists. split; [reflexivity |]. rewrite length_fmap. repeat split; reflexivity. }
  destruct Hproj as (projection & Hproj & P1 & P2 & P3 & P4).
  assert (Henr : _enrich_data data network_data
                 = Ok (obj [("form_count", PInt (Z.of_nat (length fl)));
                            ("input_types", PDict counts);
                            ("sensitive_fields",
                             PList (input_entry
                                    <$> filter (fun t => flagged t = true) (inputs soup)));
                            ("network_info", PDict [])])).
  { unfold _enrich_data, len_of, _categorize_inputs, _identify_sensitive_fields.
    rewrite E_forms, E_inputs, Hnd. cbn [bind py_len py_iter].
    rewrite Hcounts. cbn [bind]. rewrite (identify_sensitive_flagged _ Hall). reflexivity. }
  assert (Hprep : ∃ ready, _prepare_for_vulnerability_scan data network_data = Ok ready).
  { unfold _prepare_for_vulnerability_scan, injectable_parameters.
    rewrite E_url, E_title, E_forms, E_inputs, E_rawlinks, E_auth, Hnd.
    cbn [bind py_iter]. rewrite Hnames. cbn [bind]. eexists. reflexivity. }
  destruct Hprep as (ready & Hprep).
  eexists _, projection, _. split.
  { unfold process_body.
    change (py_get (obj [("success", PBool true); ("data", data)]) "success" PNone)
      with (Ok (PBool true)).
    change (py_get (obj [("success", PBool true); ("data", data)]) "data" (PDict []))
      with (Ok data).
    cbn [bind]. change (negb (truthy (PBool true))) with false. cbv iota.
    rewrite E_engine, E_url. cbn [bind]. rewrite Hproj, Henr, Hprep. cbn [bind].
    reflexivity. }
  repeat split; try done.
Qed.

Lemma fetched_page_processed_witness :
  ∃ processed projection enriched,
    process_body (crawl Urllib.model checkout_server 0%nat "http://example.com/checkout").1
      PNone = Ok processed
    ∧ field processed "source_engine" = Some (PStr "beautifulsoup")
    ∧ field processed "target_url" = Some (PStr "http://example.com/checkout")
    ∧ field processed "crawl_data" = Some projection
    ∧ field projection "status_code" = Some (PInt 200)
    ∧ field projection "inputs_count" = Some (PInt 3)
    ∧ field projection "page_size_kb" = Some (PFloat 2)
    ∧ field projection "has_javascript" = Some (PBool false)
    ∧ field processed "enriched_data" = Some enriched
    ∧ field enriched "sensitive_fields"
      = Some (PList (input_entry <$> [password_tag; card_tag])).
Proof.
  apply (fetched_page_processed Urllib.model checkout_server 0%nat 1%nat
           "http://example.com/checkout" "OK" 200 [("Content-Type", "text/html")] 2048
           checkout_page PNone).
  - reflexivity.
  - reflexivity.
  - repeat constructor.
  - reflexivity.
Defined.

Lemma failure_not_succeeded (msg : string) : ¬ succeeded (failure msg).
Proof. intros (s & Hs & Ht). inversion Hs; subst. discriminate. Qed.

Lemma failure_processed (self : DataProcessor.t) (msg : string) (network_data : pyval) :
  (process_crawl_data self (failure msg) network_data).2 = failure msg.
Proof. reflexivity. Qed.

Lemma login_target_cases (url login_url : string) (r : response) :
  (∃ msg, login_target url login_url r = failure msg)
  ∨ ∃ status reason headers len soup,
      r = Response status reason headers len soup
      ∧ login_target url login_url r
        = obj [("success", PBool true);
               ("data",
                obj [("engine", PStr "beautifulsoup");
                     ("authenticated", PBool true);
                     ("login_url", PStr login_url);
                     ("target_url", PStr url);
                     ("status_code", PInt status);
                     ("title", _extract_title soup);
                     ("forms", _extract_forms soup);
                     ("page_size", PInt (Z.of_nat len))])].
Proof.
  destruct r as [status reason headers len soup|msg|msg|msg]; simpl;
    try (left; eexists; reflexivity).
  destruct (is_http_error status); [left; eexists; reflexivity |].
  right. by exists status, reason, headers, len, soup.
Qed.

Lemma crawl_with_login_cases {St} (S : session St) (st : St)
    (url login_url username_field password_field username password : string) :
  let result :=
    (crawl_with_login S st url login_url username_field password_field
       username password).1 in
  (∃ msg, result = failure msg)
  ∨ ∃ st2 r, result = login_target url login_url r ∧ r = (get S st2 url).1.
Proof.
  unfold crawl_with_login.
  destruct (post S st login_url _) as [[status reason headers len soup|msg|msg|msg] st1];
    cbn [fst]; try (left; eexists; reflexivity).
  set (redirect := if bool_decide (status ∈ [301; 302; 303]%Z) then _ else _).
  destruct redirect as [[msg|] st2]; cbn [fst]; [left; by eexists |].
  destruct (get S st2 url) as [r3 st3] eqn:Hget. cbn [fst].
  right. exists st2, r3. by rewrite Hget.
Qed.

(** X18: A login crawl that succeeds is processed without failure, and as a
    page that has nothing to attack: its data carries no [url], [inputs]
    or [links], so the record has an empty [target_url], no input, no
    sensitive field and no injectable parameter, whatever the page holds.
    It is marked authenticated whatever the server answered to the login
    request. *)
Theorem login_crawl_processed {St} (S : session St) (st : St)
    (url login_url username_field password_field username password : string)
    (network_data : pyval) :
  let result :=
    (crawl_with_login S st url login_url username_field password_field
       username password).1 in
  succeeded result →
  truthy network_data = false →
  ∃ processed projection enriched ready,
    process_body result network_data = Ok processed
    ∧ field processed "target_url" = Some (PStr "")
    ∧ field processed "crawl_data" = Some projection
    ∧ field projection "inputs_count" = Some (PInt 0)
    ∧ field projection "total_links" = Some (PInt 0)
    ∧ field processed "enriched_data" = Some enriched
    ∧ field enriched "input_types" = Some (PDict [])
    ∧ field enriched "sensitive_fields" = Some (PList [])
    ∧ field processed "vulnerability_scan_ready" = Some ready
    ∧ field ready "injectable_parameters" = Some (PList [])
    ∧ field ready "authentication_required" = Some (PBool true).
Proof.
  intros result Hs Hnd. subst result.
  destruct (crawl_with_login_cases S st url login_url username_field password_field
              username password) as [(msg & Hr)|(st2 & r & Hr & _)];
    cbv zeta in Hr; rewrite Hr in *; [by apply failure_not_succeeded in Hs |].
  destruct (login_target_cases url login_url r)
    as [(msg & Hm)|(status & reason & headers & len & soup & _ & Hm)];
    rewrite Hm in *; [by apply failure_not_succeeded in Hs |].
  destruct (extract_forms_list soup) as (fl & Hforms & _). rewrite Hforms.
  unfold process_body, _process_engine_data, _process_beautifulsoup_data, _enrich_data,
    _prepare_for_vulnerability_scan, injectable_parameters, _categorize_inputs,
    _identify_sensitive_fields, len_of.
  rewrite Hnd. eexists _, _, _, _. split; [reflexivity |]. repeat split; reflexivity.
Qed.

Lemma login_crawl_processed_witness :
  (checkout_server.(post) 0%nat "http://example.com/login"
     (login_form "user" "pass" "alice" "wrong")).1
  = Response 401 "Unauthorized" [] 0 checkout_page
  ∧ ∃ processed ready,
      process_body
        (crawl_with_login checkout_server 0%nat "http://example.com/checkout"
           "http://example.com/login" "user" "pass" "alice" "wrong").1 PNone
      = Ok processed
      ∧ field processed "target_url" = Some (PStr "")
      ∧ field processed "vulnerability_scan_ready" = Some ready
      ∧ field ready "injectable_parameters" = Some (PList [])
      ∧ field ready "authentication_required" = Some (PBool true).
Proof.
  split; [reflexivity |].
  destruct (login_crawl_processed checkout_server 0%nat "http://example.com/checkout"
              "http://example.com/login" "user" "pass" "alice" "wrong" PNone)
    as (processed & projection & enriched & ready & H1 & H2 & _ & _ & _ & _ & _ & _
        & H3 & H4 & H5).
  - exists (PBool true). split; reflexivity.
  - reflexivity.
  - exists processed, ready. repeat split; assumption.
Defined.

Lemma crawl_cases {St} (U : Urllib.lib) (S : session St) (st : St) (url : string) :
  succeeded (crawl U S st url).1 ∨ ∃ msg, (crawl U S st url).1 = failure msg.
Proof.
  unfold crawl. destruct (get S st url) as [[status reason headers len soup|msg|msg|msg] st'];
    cbn [fst]; try (right; eexists; reflexivity).
  destruct (is_http_error status); [right; eexists; reflexivity |].
  left. exists (PBool true). by split.
Qed.

Lemma scrapy_crawl_cases (U : Urllib.lib) (W : ScrapyEngine.web) (url : string)
    (max_depth : Z) (s : ScrapyEngine.state) :
  succeeded (ScrapyEngine.crawl U W url max_depth s).1
  ∨ ∃ msg, (ScrapyEngine.crawl U W url max_depth s).1 = failure msg.
Proof.
  unfold ScrapyEngine.crawl. destruct (ScrapyEngine.session_get W url s) as [response s1].
  destruct (match response with
            | ScrapyEngine.Response status reason soup =>
                ScrapyEngine.crawl_body U W url max_depth status reason soup s1
            | ScrapyEngine.RequestException msg => (Raise (LibraryError msg), s1)
            end) as [[results|e] s2]; cbn [fst].
  - left. exists (PBool true). by split.
  - right. by eexists.
Qed.

(** X19: whatever goes wrong in a crawl, of either crawler, with or without
    login, the result is the pair [success: False] and a message, and
    [process_crawl_data] hands that pair on as it is, whatever the network
    data: a crawl result is either successful or a fixed point of the
    processing. *)
Theorem crawl_failures_pass_through {St} (U : Urllib.lib) (S : session St) (st : St)
    (W : ScrapyEngine.web) (s : ScrapyEngine.state) (max_depth : Z)
    (url login_url username_field password_field username password : string)
    (self : DataProcessor.t) (network_data : pyval) (result : pyval) :
  result ∈ [(crawl U S st url).1;
            (crawl_with_login S st url login_url username_field password_field
               username password).1;
            (ScrapyEngine.crawl U W url max_depth s).1] →
  succeeded result
  ∨ (¬ succeeded result
     ∧ (∃ msg, result = obj [("success", PBool false); ("error", PStr msg)])
     ∧ (process_crawl_data self result network_data).2 = result).
Proof.
  intros Hin.
  assert (succeeded result ∨ ∃ msg, result = failure msg) as [Hs|(msg & ->)].
  { apply elem_of_cons in Hin as [->|Hin]; [apply crawl_cases |].
    apply elem_of_cons in Hin as [->|Hin].
    - destruct (crawl_with_login_cases S st url login_url username_field password_field
                  username password) as [Hf|(st2 & r & Hr & _)]; [by right |].
      cbv zeta in Hr. rewrite Hr.
      destruct (login_target_cases url login_url r)
        as [Hf|(status & reason & headers & len & soup & _ & Hm)]; [by right |].
      left. rewrite Hm. exists (PBool true). by split.
    - apply list_elem_of_singleton in Hin as ->. apply scrapy_crawl_cases. }
  - by left.
  - right. split; [apply failure_not_succeeded |]. split; [by exists msg |].
    apply failure_processed.
Qed.

Lemma crawl_failures_pass_through_witness :
  let result := (ScrapyEngine.crawl Urllib.model shop_web "http://down.example.com/" 2
                   fresh).1 in
  result = obj [("success", PBool false); ("error", PStr "Connection refused")]
  ∧ (process_crawl_data (DataProcessor.Build_t "Linux") result PNone).2 = result.
Proof.
  cbv zeta. split; [vm_compute; reflexivity |].
  destruct (crawl_failures_pass_through Urllib.model checkout_server 0%nat shop_web fresh 2
              "http://down.example.com/" "" "" "" "" "" (DataProcessor.Build_t "Linux")
              PNone
              (ScrapyEngine.crawl Urllib.model shop_web "http://down.example.com/" 2
                 fresh).1) as [Hs|(_ & _ & H)].
  - apply elem_of_cons. right. apply elem_of_cons. right. apply elem_of_cons. by left.
  - exfalso. destruct Hs as (v & Hv & Ht). vm_compute in Hv. inversion Hv; subst v.
    discriminate.
  - exact H.
Defined.

End CrawlProps.

Module ScrapyProps.
Import ScrapyEngine ScrapySpec.

Section Engine.
Context (U : Urllib.lib) (W : web).

Lemma crawl_body_state (url : string) (max_depth status : Z) (reason : string)
    (soup : Dom.soup) (s s' : state) (r : result pyval) :
  crawl_body U W url max_depth status reason soup s = (r, s') →
  ∃ followed,
    fetched s' = fetched s ++ followed
    ∧ visited_urls (self s') = list_to_set followed ∪ visited_urls (self s)
    ∧ NoDup followed
    ∧ (length followed <= 5)%nat
    ∧ (∀ link, link ∈ followed →
         (link ∉ visited_urls (self s)) ∧ host_of U link = host_of U url)
    ∧ (if (1 <? max_depth)%Z then True else followed = []).
Proof.
  assert (Hnone : ∃ followed : list string,
             fetched s = fetched s ++ followed
             ∧ visited_urls (self s) = list_to_set followed ∪ visited_urls (self s)
             ∧ NoDup followed ∧ (length followed <= 5)%nat
             ∧ (∀ link, link ∈ followed →
                  (link ∉ visited_urls (self s)) ∧ host_of U link = host_of U url)
             ∧ (if (1 <? max_depth)%Z then True else followed = [])).
  { exists []. rewrite app_nil_r, list_to_set_nil, (left_id_L ∅ (∪)).
    split; [done |]. split; [done |]. split; [apply NoDup_nil_2 |].
    split; [simpl; lia |]. split; [by intros link ?%elem_of_nil |].
    by destruct (1 <? max_depth)%Z. }
  unfold crawl_body.
  destruct (let! _ := raise_for_status status reason url in _) as [[[first structured] links]|e];
    [| by intros [= <- <-]].
  destruct (1 <? max_depth)%Z eqn:Hd.
  - destruct (_crawl_depth U W links url (max_depth - 1) s) as [deeper s1] eqn:Hdeep.
    intros [= <- <-]. unfold _crawl_depth in Hdeep.
    destruct (Urllib.urlparse U url) as [parsed|e] eqn:Hparse.
    + apply crawl_links_follow in Hdeep as (f & Hf & Hv & Hnd & Hlen & Hall).
      exists f. repeat split; try done.
      * rewrite length_take in Hlen. lia.
      * by apply Hall.
      * unfold host_of at 2. rewrite Hparse. by apply Hall.
    + inversion Hdeep; subst. exact Hnone.
  - intros [= <- <-]. exact Hnone.
Qed.

(** X20: A crawl sends the request for the seed and then at most five more,
    none twice, each to a link on the host of the seed that the instance
    had not visited; these links, and never the seed as such, are what it
    adds to [visited_urls]. With [max_depth] 1 or less it sends the one
    request and leaves [visited_urls] as it was. *)
Theorem crawl_request_budget (url : string) (max_depth : Z) (s : state) :
  let s' := (crawl U W url max_depth s).2 in
  ∃ followed,
    fetched s' = fetched s ++ url :: followed
    ∧ visited_urls (self s') = list_to_set followed ∪ visited_urls (self s)
    ∧ NoDup followed
    ∧ (length followed <= 5)%nat
    ∧ (∀ link, link ∈ followed →
         (link ∉ visited_urls (self s)) ∧ host_of U link = host_of U url)
    ∧ (if (1 <? max_depth)%Z then True else followed = []).
Proof.
  unfold crawl, session_get.
  set (s1 := {| self := self s; fetched := fetched s ++ [url] |}).
  destruct (get W url) as [status reason soup|msg].
  - destruct (crawl_body U W url max_depth status reason soup s1) as [r s2] eqn:Hb.
    cbn [snd]. apply crawl_body_state in Hb as (f & Hf & Hv & Hnd & Hlen & Hall & Hone).
    exists f. split; [rewrite Hf; simpl; by rewrite <- app_assoc |].
    split; [exact Hv |]. split; [exact Hnd |]. split; [exact Hlen |].
    split; [exact Hall | exact Hone].
  - cbn [snd]. exists []. split; [done |].
    split; [simpl; by rewrite (left_id_L ∅ (∪)) |]. split; [apply NoDup_nil_2 |].
    split; [simpl; lia |]. split; [by intros link ?%elem_of_nil |].
    by destruct (1 <? max_depth)%Z.
Qed.

Lemma crawl_body_beyond_two (url : string) (max_depth status : Z) (reason : string)
    (soup : Dom.soup) (s : state) :
  (2 <= max_depth)%Z →
  (crawl_body U W url max_depth status reason soup s).2
  = (crawl_body U W url 2 status reason soup s).2
  ∧ match (crawl_body U W url max_depth status reason soup s).1,
          (crawl_body U W url 2 status reason soup s).1 with
    | Ok results, Ok results2 =>
        field results "depth" = Some (PInt max_depth)
        ∧ field results2 "depth" = Some (PInt 2)
        ∧ ∀ k, k ≠ "depth" → field results k = field results2 k
    | Raise e, Raise e2 => e = e2
    | _, _ => False
    end.
Proof.
  intros Hd. unfold crawl_body.
  assert ((1 <? max_depth)%Z = true) as -> by lia.
  change (1 <? 2)%Z with true. cbv iota.
  destruct (let! _ := raise_for_status status reason url in _)
    as [[[first structured] links]|e]; [| done].
  unfold _crawl_depth. destruct (Urllib.urlparse U url) as [parsed|e]; [| done].
  destruct (crawl_links U W (Urllib.netloc parsed) (take 5 links) s) as [[more|e] s1];
    cbn [fst snd bind]; [| done].
  split; [done |].
  destruct (total_of "links" (first :: more)) as [tl|]; cbn [bind]; [| done].
  destruct (total_of "forms" (first :: more)) as [tf|]; cbn [bind]; [| done].
  destruct (total_of "inputs" (first :: more)) as [ti|]; cbn [bind]; [| done].
  split; [reflexivity |]. split; [reflexivity |].
  intros k Hk. unfold field, obj. cbn [fmap list_fmap prod_map fst snd id dict_lookup pykey_eqb].
  apply String.eqb_neq in Hk. rewrite Hk. reflexivity.
Qed.

(** X21: A crawl never goes deeper than the links of the seed page:
    [max_depth] is compared with 1 and otherwise only reported. Any
    [max_depth] of 2 or more sends the requests of [max_depth] 2 and returns
    its result, but for the [depth] field, which repeats the argument. *)
Theorem depth_beyond_two (url : string) (max_depth : Z) (s : state) :
  (2 <= max_depth)%Z →
  let deep := crawl U W url max_depth s in
  let two := crawl U W url 2 s in
  deep.2 = two.2
  ∧ field deep.1 "success" = field two.1 "success"
  ∧ field deep.1 "error" = field two.1 "error"
  ∧ pages_of deep.1 = pages_of two.1
  ∧ (∀ k, k ≠ "depth" → data_field deep.1 k = data_field two.1 k)
  ∧ (is_Some (field deep.1 "data") → data_field deep.1 "depth" = Some (PInt max_depth)).
Proof.
  intros Hd. cbv zeta. unfold crawl, session_get.
  set (s1 := {| self := self s; fetched := fetched s ++ [url] |}).
  destruct (get W url) as [status reason soup|msg].
  2:{ cbn [fst snd]. repeat split; try done. by intros [? [=]]. }
  destruct (crawl_body_beyond_two url max_depth status reason soup s1 Hd) as (Hs & Hr).
  destruct (crawl_body U W url max_depth status reason soup s1) as [[results|e] s2],
    (crawl_body U W url 2 status reason soup s1) as [[results2|e2] s3];
    cbn [fst snd] in *; try done.
  - destruct Hr as (Hdepth & Hdepth2 & Hk).
    split; [done |]. split; [reflexivity |]. split; [reflexivity |]. split.
    + unfold pages_of. cbn. rewrite (Hk "pages_crawled"); [done | discriminate].
    + split; [intros k Hne; by apply Hk |]. by intros _.
  - subst e2. repeat split; try done. by intros [? [=]].
Qed.

End Engine.

Lemma depth_beyond_two_witness :
  (crawl Urllib.model shop_web shop 7 fresh).2 = (crawl Urllib.model shop_web shop 2 fresh).2
  ∧ pages_of (crawl Urllib.model shop_web shop 7 fresh).1
    = pages_of (crawl Urllib.model shop_web shop 2 fresh).1
  ∧ length (pages_of (crawl Urllib.model shop_web shop 7 fresh).1) = 6%nat.
Proof.
  destruct (depth_beyond_two Urllib.model shop_web shop 7 fresh) as (H1 & _ & _ & H2 & _).
  - lia.
  - split; [exact H1 |]. split; [exact H2 |]. vm_compute. reflexivity.
Defined.

End ScrapyProps.

Module ScrapyLinkProps.
Import ScrapyEngine.

Section Engine.
Context (U : Urllib.lib).

Lemma crawlable_fold (base_url : string) (hrefs : list string) (acc links : list string) :
  foldM (fun links href =>
      if startswith href "mailto:" || startswith href "javascript:"
         || startswith href "#"
      then Ok links
      else
        let! full_url := Urllib.urljoin U base_url href in
        let! parsed := Urllib.urlparse U full_url in
        Ok (if bool_decide (Urllib.scheme parsed ∈ ["http"; "https"])
            then (links ++ [full_url])%list else links))
    acc hrefs = Ok links →
  ∃ added,
    links = acc ++ added
    ∧ (length added <= length (filter (fun h => is_crawlable h = true) hrefs))%nat
    ∧ Forall (fun link =>
         ∃ h parsed, h ∈ hrefs ∧ is_crawlable h = true
                     ∧ Urllib.urljoin U base_url h = Ok link
                     ∧ Urllib.urlparse U link = Ok parsed
                     ∧ Urllib.scheme parsed ∈ ["http"; "https"]) added.
Proof.
  revert acc. induction hrefs as [|h hrefs IH]; intros acc H; cbn [foldM] in H.
  - inversion H; subst. exists []. rewrite app_nil_r. repeat split; [simpl; lia | constructor].
  - apply bind_ok in H as (acc1 & H1 & H). apply IH in H as (added & -> & Hlen & Hall).
    assert (Hweak : Forall (fun link =>
         ∃ h0 parsed, h0 ∈ h :: hrefs ∧ is_crawlable h0 = true
                     ∧ Urllib.urljoin U base_url h0 = Ok link
                     ∧ Urllib.urlparse U link = Ok parsed
                     ∧ Urllib.scheme parsed ∈ ["http"; "https"]) added).
    { eapply Forall_impl; [exact Hall |]. intros link (h0 & p & Hin & Hrest).
      exists h0, p. split; [by right | done]. }
    rewrite filter_cons.
    assert (Hc : is_crawlable h
                 = negb (startswith h "mailto:" || startswith h "javascript:"
                         || startswith h "#")) by reflexivity.
    revert H1.
    destruct (startswith h "mailto:" || startswith h "javascript:" || startswith h "#");
      cbn [negb] in Hc; intros H1.
    + inversion H1; subst acc1. exists added.
      destruct (decide (is_crawlable h = true)) as [Hc'|_]; [congruence |]. by repeat split.
    + apply bind_ok in H1 as (full & Hjoin & H1). apply bind_ok in H1 as (parsed & Hparse & H1).
      destruct (decide (is_crawlable h = true)) as [_|Hc']; [| congruence]. cbn [length].
      destruct (bool_decide (Urllib.scheme parsed ∈ ["http"; "https"])) eqn:Hscheme;
        inversion H1; subst acc1.
      * exists (full :: added). rewrite <- app_assoc. split; [done |].
        split; [simpl; lia |]. constructor; [| done].
        exists h, parsed. apply bool_decide_eq_true in Hscheme.
        repeat split; try done. by left.
      * exists added. split; [done |]. split; [lia | done].
Qed.

(** X22: the links the depth crawl takes from a page are resolved against the
    address of the page, in document order, and each has the scheme http
    or https; mail addresses, scripts and fragments are left out before,
    links of any other scheme after resolving. *)
Theorem crawlable_links_are_web_links (soup : Dom.soup) (base_url : string)
    (links : list string) :
  _extract_crawlable_links U soup base_url = Ok links →
  (length links <= length (filter (fun h => is_crawlable h = true) (Dom.hrefs soup)))%nat
  ∧ Forall (fun link =>
       ∃ h parsed, h ∈ Dom.hrefs soup ∧ is_crawlable h = true
                   ∧ Urllib.urljoin U base_url h = Ok link
                   ∧ Urllib.urlparse U link = Ok parsed
                   ∧ Urllib.scheme parsed ∈ ["http"; "https"]) links.
Proof.
  unfold _extract_crawlable_links. intros H.
  apply crawlable_fold in H as (added & -> & Hlen & Hall). by split.
Qed.

End Engine.

Lemma crawlable_links_are_web_links_witness :
  _extract_crawlable_links Urllib.model payment_form "http://example.com/pay"
  = Ok ["http://example.com/terms"]
  ∧ (1 <= 2)%nat.
Proof.
  split; [vm_compute; reflexivity |].
  destruct (crawlable_links_are_web_links Urllib.model payment_form "http://example.com/pay"
              ["http://example.com/terms"]) as [Hlen _]; [vm_compute; reflexivity |].
  exact Hlen.
Defined.

(** The keywords of the Scrapy engine are keywords of the other crawler. *)
Lemma scrapy_keywords_included (name inp_type : string) :
  existsb (fun kw => contains name kw || contains inp_type kw) scrapy_keywords = true →
  existsb (fun kw => contains name kw || contains inp_type kw)
          BeautifulSoupEngine.sensitive_keywords = true.
Proof.
  rewrite !existsb_exists. intros (kw & Hin & Hkw). exists kw. split; [| done].
  unfold scrapy_keywords in Hin. unfold BeautifulSoupEngine.sensitive_keywords.
  simpl in *. tauto.
Qed.

Lemma sensitive_sublist_gen (kws1 kws2 : list string) (inputs : list Dom.tag)
    (parts : list (list pyval)) :
  (∀ name ty,
     existsb (fun kw => contains name kw || contains ty kw) kws1 = true →
     existsb (fun kw => contains name kw || contains ty kw) kws2 = true) →
  mapM (fun inp =>
      let! name := py_lower (Dom.get inp "name" (PStr "")) in
      let! inp_type := py_lower (Dom.get inp "type" (PStr "")) in
      Ok (if existsb (fun kw => contains name kw || contains inp_type kw) kws1
          then [obj [("type", Dom.get inp "type" (PStr ""));
                     ("name", Dom.get inp "name" (PStr ""));
                     ("id", Dom.get inp "id" (PStr ""))]]
          else [])) inputs = Ok parts →
  ∃ parts2,
    mapM (fun inp =>
      let! name := py_lower (Dom.get inp "name" (PStr "")) in
      let! inp_type := py_lower (Dom.get inp "type" (PStr "")) in
      Ok (if existsb (fun kw => contains name kw || contains inp_type kw) kws2
          then [obj [("type", Dom.get inp "type" (PStr ""));
                     ("name", Dom.get inp "name" (PStr ""));
                     ("id", Dom.get inp "id" (PStr ""))]]
          else [])) inputs = Ok parts2
    ∧ concat parts `sublist_of` concat parts2.
Proof.
  intros Hinc. revert parts. induction inputs as [|inp inputs IH]; intros parts Hparts.
  - injection Hparts as <-. exists []. by split.
  - cbn [mapM] in Hparts. apply bind_ok in Hparts as (part & Hpart & Hparts).
    apply bind_ok in Hparts as (rest & Hrest & Hparts). injection Hparts as <-.
    destruct (IH rest Hrest) as (parts2 & Hparts2 & Hsub).
    apply bind_ok in Hpart as (name & Hname & Hpart).
    apply bind_ok in Hpart as (ty & Hty & Hpart). injection Hpart as <-.
    cbn [mapM]. rewrite Hname, Hty, Hparts2. cbn [bind].
    eexists. split; [reflexivity |]. cbn [concat].
    destruct (existsb _ kws1) eqn:Hk.
    + rewrite (Hinc _ _ Hk). cbn [app]. by apply sublist_skip.
    + cbn [app]. destruct (existsb _ kws2); cbn [app]; [by apply sublist_cons | done].
Qed.

(** X23: every input the Scrapy engine reports as sensitive is reported by the
    BeautifulSoup crawler too, with the same entry and in the same order:
    the Scrapy listing is a sublist of the other. Where the Scrapy listing
    is defined, so is the other. *)
Theorem scrapy_sensitive_sublist (soup : Dom.soup) (found : list pyval) :
  _find_sensitive_fields soup = Ok found →
  ∃ listed,
    BeautifulSoupEngine.sensitive_inputs (Dom.inputs soup) = Ok listed
    ∧ found `sublist_of` listed.
Proof.
  unfold _find_sensitive_fields, BeautifulSoupEngine.sensitive_inputs.
  intros H. apply bind_ok in H as (parts & Hparts & H). injection H as <-.
  apply (sensitive_sublist_gen _ BeautifulSoupEngine.sensitive_keywords) in Hparts
    as (parts2 & Hparts2 & Hsub); [| apply scrapy_keywords_included].
  rewrite Hparts2. by exists (concat parts2).
Qed.

Lemma scrapy_sensitive_sublist_witness :
  _find_sensitive_fields payment_form = Ok [brief_entry password_tag]
  ∧ BeautifulSoupEngine.sensitive_inputs (Dom.inputs payment_form)
    = Ok [brief_entry password_tag; brief_entry card_tag]
  ∧ [brief_entry password_tag] `sublist_of` [brief_entry password_tag; brief_entry card_tag].
Proof.
  split; [vm_compute; reflexivity |]. split; [vm_compute; reflexivity |].
  destruct (scrapy_sensitive_sublist payment_form [brief_entry password_tag])
    as (listed & Hl & Hsub); [vm_compute; reflexivity |].
  vm_compute in Hl. inversion Hl; subst listed. exact Hsub.
Defined.

End ScrapyLinkProps.

